(** * gICM ai-hedge-fund: orchestrator and backtest simulator

    A shallow embedding of
      - [src/workflow/trading_graph.py]   (class [TradingGraph])
      - [src/backtesting/engine.py]       (class [BacktestEngine])
      - [src/data/market_data.py]         (the merge of the data sources)
      - [src/api/routes.py]               (the handlers around the orchestrator)
    and the properties of the specification that concern them.

    Conventions of the embedding.
      - Python [float] values are exact rationals ([Q]); rounding, infinities
        and NaN are outside the model.  Numbers obtained by evaluation are
        compared with [==] ([Qeq]), which ignores how a fraction is written.
      - A [datetime] is its POSIX timestamp in seconds, a rational, with UTC
        as the local time zone; the difference of two of them is what
        [total_seconds()] returns.  A date outside the years 1 to 9999 does
        not exist: the operations that would build one raise.
      - A Python [dict] with string keys is a [gmap string _].
      - A call that may raise returns a [result]; [print] appends to an
        explicit list of output lines.
      - Awaited collaborators (the completion service behind every agent,
        the market data fetcher, the HTTP client, the clock) are arguments. *)

From Stdlib Require Import QArith Qabs Qround Lia Lqa Ascii String.
From stdpp Require Import gmap strings list pretty.

(** ** Python values, truthiness and exceptions *)
Module Py.

Inductive PyValue :=
| PyNone
| PyBool (b : bool)
| PyNum (q : Q)
| PyStr (s : string).

(** [bool(v)] *)
Definition truthy (v : PyValue) : bool :=
  match v with
  | PyNone => false
  | PyBool b => b
  | PyNum q => negb (Qeq_bool q 0)
  | PyStr s => negb (String.eqb s "")
  end.

(** [d.get(k)]: the value, or [None] when the key is missing *)
Definition dict_get (d : gmap string PyValue) (k : string) : PyValue :=
  default PyNone (d !! k).

Inductive ExcClass :=
| ZeroDivisionError
| AttributeError
| KeyError
| IndexError
| RuntimeError
| OverflowError
| CancelledError.

Record PyException := { exc_class : ExcClass; exc_str : string }.

(** [isinstance(e, Exception)]: [CancelledError] derives from
    [BaseException] only. *)
Definition isinstance_Exception (e : PyException) : bool :=
  match exc_class e with
  | CancelledError => false
  | _ => true
  end.

Inductive result (A : Type) :=
| Ok (a : A)
| Raise (e : PyException).
Arguments Ok {A} a.
Arguments Raise {A} e.

Definition bind {A B} (r : result A) (k : A -> result B) : result B :=
  match r with
  | Ok a => k a
  | Raise e => Raise e
  end.

(** [a / b] on floats *)
Definition truediv (a b : Q) : result Q :=
  if Qeq_bool b 0
  then Raise {| exc_class := ZeroDivisionError; exc_str := "float division by zero" |}
  else Ok (a / b)%Q.

Definition Qlt_bool (x y : Q) : bool := negb (Qle_bool y x).

(** [sum(xs)] *)
Definition Qsum (xs : list Q) : Q := fold_left Qplus xs 0%Q.

(** [len(xs)] as a number *)
Definition len {A} (xs : list A) : Q := inject_Z (Z.of_nat (length xs)).

(** [str.lower()] on ASCII text *)
Definition lower_ascii (c : ascii) : ascii :=
  let n := nat_of_ascii c in
  if (65 <=? n)%nat && (n <=? 90)%nat then ascii_of_nat (n + 32) else c.

Fixpoint lower (s : string) : string :=
  match s with
  | EmptyString => EmptyString
  | String c s' => String (lower_ascii c) (lower s')
  end.

(** [datetime.min] is 0001-01-01 00:00:00 and [datetime.max] is
    9999-12-31 23:59:59.999999. *)
Definition datetime_min : Q := (-62135596800)%Q.
Definition datetime_max : Q := (253402300800 - 1 / 1000000)%Q.

Definition in_datetime_range (t : Q) : bool :=
  Qle_bool datetime_min t && Qle_bool t datetime_max.

(** [datetime.fromtimestamp(t)]: no date for a timestamp out of range,
    whichever exception reports it. *)
Definition fromtimestamp (t : Q) : option Q :=
  if in_datetime_range t then Some t else None.

(** [timedelta(days=days)], in seconds *)
Definition timedelta (days : Z) : result Q :=
  if (Z.abs days <=? 999999999)%Z
  then Ok (inject_Z days * 86400)%Q
  else Raise {| exc_class := OverflowError;
                exc_str := "days=" +:+ pretty days
                           +:+ "; must have magnitude <= 999999999" |}.

(** [dt - delta] for a [datetime] and a [timedelta] *)
Definition datetime_sub (dt delta : Q) : result Q :=
  if in_datetime_range (dt - delta)
  then Ok (dt - delta)%Q
  else Raise {| exc_class := OverflowError; exc_str := "date value out of range" |}.

End Py.

Notation "'let*' x := r 'in' k" := (Py.bind r (fun x => k))
  (at level 10, x name, r at level 100, k at level 200).

(** ** [workflow/trading_graph.py] *)
Module TradingGraph.
Import Py.

(** Modelled from the spec: the [AgentSignal] dataclass of
    [agents/base_agent.py], which is not part of the sources at hand; the
    fields are those of the specification's Signal, and the first six are the
    ones [_signal_to_dict] reads. *)
Record AgentSignal := {
  agent_name : string;
  action : string;
  confidence : Q;
  reasoning : string;
  key_metrics : list string;
  risks : list string;
  data_used : list string;
}.

(** The agent classes imported from [..agents]. *)
Inductive AgentClass :=
| WarrenBuffettAgent
| MichaelBurryAgent
| CharlieMungerAgent
| CathieWoodAgent
| BillAckmanAgent
| DegenAgent
| SolanaSpecialistAgent
| WhaleWatcherAgent
| PumpTraderAgent
| OnChainAnalystAgent
| RiskManagerAgent
| PortfolioManagerAgent.

(** What awaiting a coroutine yields: a returned object or a raised exception. *)
Inductive PyObject :=
| ObjAgentSignal (s : AgentSignal)
| ObjOther.

Inductive TaskOutcome :=
| Returned (v : PyObject)
| Raised (e : PyException).

Record TradingGraph := {
  mode : string;
  show_reasoning : bool;
  _persona_agents : list AgentClass;
  _crypto_agents : list AgentClass;
  _management_agents : gmap string AgentClass;
}.

(** [TradingGraph.__post_init__] *)
Definition __post_init__ (mode : string) (show_reasoning : bool) : TradingGraph :=
  let persona0 := [WarrenBuffettAgent; MichaelBurryAgent] in
  let persona :=
    if String.eqb mode "full"
    then persona0 ++ [CharlieMungerAgent; CathieWoodAgent; BillAckmanAgent]
    else persona0 in
  let crypto :=
    if String.eqb mode "degen"
    then [DegenAgent; PumpTraderAgent; SolanaSpecialistAgent]
    else
      let crypto0 :=
        [DegenAgent; SolanaSpecialistAgent; WhaleWatcherAgent; OnChainAnalystAgent] in
      if String.eqb mode "full" then crypto0 ++ [PumpTraderAgent] else crypto0 in
  {| mode := mode;
     show_reasoning := show_reasoning;
     _persona_agents := persona;
     _crypto_agents := crypto;
     _management_agents :=
       <["portfolio" := PortfolioManagerAgent]> (<["risk" := RiskManagerAgent]> ∅) |}.

(** [sum(1 for s in signals if s.action == a)] *)
Definition count_action (a : string) (signals : list AgentSignal) : nat :=
  length (filter (fun s => action s = a) signals).

(** [TradingGraph._calculate_sentiment] *)
Definition _calculate_sentiment (signals : list AgentSignal) : string :=
  match signals with
  | [] => "neutral"
  | _ =>
    let bullish := count_action "bullish" signals in
    let bearish := count_action "bearish" signals in
    if (bearish * 2 <? bullish)%nat then "very_bullish"
    else if (bearish <? bullish)%nat then "bullish"
    else if (bullish * 2 <? bearish)%nat then "very_bearish"
    else if (bullish <? bearish)%nat then "bearish"
    else "neutral"
  end.

(** [sum(s.confidence for s in signals) / len(signals) if signals else 0] *)
Definition avg_confidence (signals : list AgentSignal) : Q :=
  match signals with
  | [] => 0
  | _ => Qsum (map confidence signals) / len signals
  end.

(** The body of the [for result in results] loop of [_run_agents_parallel]:
    the accumulator is the [signals] list and the lines printed so far. *)
Definition collect_result (show : bool)
    (acc : list AgentSignal * list string) (r : TaskOutcome)
    : list AgentSignal * list string :=
  match r with
  | Returned (ObjAgentSignal s) => (acc.1 ++ [s], acc.2)
  | Raised e =>
    if isinstance_Exception e
    then if show then (acc.1, acc.2 ++ ["Agent error: " +:+ exc_str e]) else acc
    else acc
  | Returned ObjOther => acc
  end.

(** [TradingGraph._signal_to_dict] *)
Record SignalDict := {
  sd_agent : string;
  sd_action : string;
  sd_confidence : Q;
  sd_reasoning : string;
  sd_key_metrics : list string;
  sd_risks : list string;
}.

Definition _signal_to_dict (signal : AgentSignal) : SignalDict :=
  {| sd_agent := agent_name signal;
     sd_action := action signal;
     sd_confidence := confidence signal;
     sd_reasoning := reasoning signal;
     sd_key_metrics := key_metrics signal;
     sd_risks := risks signal |}.

(** [_signal_to_dict] applied to an arbitrary object: attribute access fails
    on anything that is not an [AgentSignal]. *)
Definition signal_to_dict_obj (v : PyObject) : result SignalDict :=
  match v with
  | ObjAgentSignal s => Ok (_signal_to_dict s)
  | ObjOther =>
    Raise {| exc_class := AttributeError;
             exc_str := "object has no attribute 'agent_name'" |}
  end.

(** The dictionaries [analyze] and [quick_signal] return. *)
Record AnalysisBundle := {
  ab_token : string;
  ab_chain : string;
  ab_market_data : gmap string PyValue;
  ab_agent_signals : list SignalDict;
  ab_risk_assessment : SignalDict;
  ab_final_decision : gmap string PyValue;
  ab_summary : string;
}.

Record QuickBundle := {
  qb_token : string;
  qb_price : PyValue;
  qb_change_24h : PyValue;
  qb_sentiment : string;
  qb_confidence : Q;
  qb_signals : list SignalDict;
  qb_quick_take : string;
}.

Inductive AnalyzeResult :=
| ErrorResult (error token chain : string)
| Analysis (b : AnalysisBundle).

Inductive QuickResult :=
| QuickError (error token : string)
| Quick (b : QuickBundle).

Section Collaborators.

(** [get_market_data(token, chain)] *)
Variable get_market_data : string -> string -> gmap string PyValue.

(** [agent.analyze(token, market_data, context)], awaited: every agent
    class prompts the completion service and parses its answer. *)
Variable agent_analyze :
  AgentClass -> string -> gmap string PyValue ->
  option (gmap string PyValue) -> TaskOutcome.

(** [PortfolioManagerAgent.synthesize_signals], awaited. *)
Variable synthesize_signals :
  string -> gmap string PyValue -> list AgentSignal -> PyObject ->
  option (gmap string PyValue) -> result (gmap string PyValue).

(** [_generate_summary] and [_generate_quick_take] only format text. *)
Variable _generate_summary : list AgentSignal -> gmap string PyValue -> string.
Variable _generate_quick_take : list AgentSignal -> string -> Q -> string.

(** [asyncio.gather] with [return_exceptions=True]: one entry per task,
    in the order of the tasks, an exception taking the place of the value
    of a task that raised. *)
Definition gather (agents : list AgentClass) (token : string)
    (market_data : gmap string PyValue)
    (context : option (gmap string PyValue)) : list TaskOutcome :=
  map (fun agent => agent_analyze agent token market_data context) agents.

(** [TradingGraph._run_agents_parallel]; the second component is what was
    printed. *)
Definition _run_agents_parallel (self : TradingGraph)
    (agents : list AgentClass) (token : string)
    (market_data : gmap string PyValue)
    (context : option (gmap string PyValue))
    : list AgentSignal * list string :=
  let results := gather agents token market_data context in
  fold_left (collect_result (show_reasoning self)) results ([], []).

(** [{**(context or {}), "aggregate_sentiment": .., "avg_confidence": ..}] *)
Definition risk_context (context : option (gmap string PyValue))
    (all_signals : list AgentSignal) : gmap string PyValue :=
  <["avg_confidence" := PyNum (avg_confidence all_signals)]>
    (<["aggregate_sentiment" := PyStr (_calculate_sentiment all_signals)]>
       (default ∅ context)).

(** [self._management_agents[key]] *)
Definition management_agent (self : TradingGraph) (key : string)
    : result AgentClass :=
  match _management_agents self !! key with
  | Some a => Ok a
  | None => Raise {| exc_class := KeyError; exc_str := key |}
  end.

(** [await agent.analyze(..)] outside of [gather]: an exception propagates. *)
Definition await (o : TaskOutcome) : result PyObject :=
  match o with
  | Returned v => Ok v
  | Raised e => Raise e
  end.

(** [TradingGraph.analyze]; the second component is what was printed. *)
Definition analyze (self : TradingGraph) (token chain : string)
    (context : option (gmap string PyValue))
    : result AnalyzeResult * list string :=
  let market_data := get_market_data token chain in
  if negb (truthy (dict_get market_data "price"))
  then (Ok (ErrorResult ("Could not fetch market data for " +:+ token) token chain), [])
  else
    let persona := _run_agents_parallel self (_persona_agents self) token market_data context in
    let crypto := _run_agents_parallel self (_crypto_agents self) token market_data context in
    let all_signals := persona.1 ++ crypto.1 in
    let risk_ctx := risk_context context all_signals in
    (let* risk_agent := management_agent self "risk" in
     let* risk_assessment :=
       await (agent_analyze risk_agent token market_data (Some risk_ctx)) in
     let* portfolio_agent := management_agent self "portfolio" in
     let* final_decision :=
       synthesize_signals token market_data all_signals risk_assessment context in
     let* risk_dict := signal_to_dict_obj risk_assessment in
     Ok (Analysis
       {| ab_token := token;
          ab_chain := chain;
          ab_market_data := market_data;
          ab_agent_signals := map _signal_to_dict all_signals;
          ab_risk_assessment := risk_dict;
          ab_final_decision := final_decision;
          ab_summary := _generate_summary all_signals final_decision |}),
     persona.2 ++ crypto.2).

(** [TradingGraph.quick_signal] *)
Definition quick_signal (self : TradingGraph) (token chain : string)
    : QuickResult * list string :=
  let market_data := get_market_data token chain in
  if negb (truthy (dict_get market_data "price"))
  then (QuickError ("No data for " +:+ token) token, [])
  else
    let agents := [DegenAgent; OnChainAnalystAgent; RiskManagerAgent] in
    let run := _run_agents_parallel self agents token market_data None in
    let signals := run.1 in
    let sentiment := _calculate_sentiment signals in
    let avg := avg_confidence signals in
    (Quick
       {| qb_token := token;
          qb_price := dict_get market_data "price";
          qb_change_24h := dict_get market_data "change_24h";
          qb_sentiment := sentiment;
          qb_confidence := avg;
          qb_signals := map _signal_to_dict signals;
          qb_quick_take := _generate_quick_take signals sentiment avg |},
     run.2).

End Collaborators.

End TradingGraph.

(** ** [backtesting/engine.py] *)
Module Engine.
Import Py.
Local Open Scope Q_scope.

(** [Trade] *)
Record Trade := {
  token : string;
  action : string;
  price : Q;
  size : Q;
  timestamp : Q;
  signal_confidence : Q;
  pnl : Q;
  pnl_pct : Q;
  closed : bool;
  close_price : option Q;
  close_timestamp : option Q;
}.

(** One bar, the dictionary [fetch_historical_data] builds per row. *)
Record Candle := {
  c_timestamp : Q;
  c_open : Q;
  c_high : Q;
  c_low : Q;
  c_close : Q;
}.

(** One point of the equity curve. *)
Record EquityPoint := {
  ep_timestamp : Q;
  ep_equity : Q;
  ep_price : Q;
}.

(** A signal of the timeline: a dictionary read with [.get], so every key
    may be missing. *)
Record Signal := {
  sig_timestamp : option Q;
  sig_action : option string;
  sig_confidence : option Q;
}.

(** [BacktestResult] *)
Record BacktestResult := {
  res_token : string;
  start_date : Q;
  end_date : Q;
  res_initial_balance : Q;
  final_balance : Q;
  total_pnl : Q;
  total_pnl_pct : Q;
  total_trades : nat;
  winning_trades : nat;
  losing_trades : nat;
  win_rate : Q;
  max_drawdown : Q;
  sharpe_ratio : Q;
  res_trades : list Trade;
  res_equity_curve : list EquityPoint;
}.

(** [BacktestEngine.__init__] stores its four arguments. *)
Record BacktestEngine := {
  initial_balance : Q;
  position_size_pct : Q;
  stop_loss_pct : Q;
  take_profit_pct : Q;
}.

Definition default_engine : BacktestEngine :=
  {| initial_balance := 10000;
     position_size_pct := 10;
     stop_loss_pct := 5;
     take_profit_pct := 15 |}.

(** What [client.get] and [response.json()] yield. *)
Inductive HttpOutcome :=
| HttpError
| HttpResponse (status_code : Z) (json : option (list (list Q))).

Definition COINGECKO_BASE : string := "https://api.coingecko.com/api/v3".

(** One row [[timestamp, open, high, low, close]]: a shorter row raises
    [IndexError], and so does [datetime.fromtimestamp] on a timestamp that
    is not a date. *)
Definition parse_row (d : list Q) : option Candle :=
  match d with
  | d0 :: d1 :: d2 :: d3 :: d4 :: _ =>
    match fromtimestamp (d0 / 1000) with
    | Some ts =>
      Some {| c_timestamp := ts;
              c_open := d1; c_high := d2; c_low := d3; c_close := d4 |}
    | None => None
    end
  | _ => None
  end.

(** [BacktestEngine.fetch_historical_data]: every failure, caught by the
    [except Exception] clause, gives the empty list. *)
Definition fetch_historical_data (http : HttpOutcome) : list Candle :=
  match http with
  | HttpError => []
  | HttpResponse status_code json =>
    if negb (status_code =? 200)%Z then []
    else match json with
         | None => []
         | Some data => default [] (mapM parse_row data)
         end
  end.

(** The local variables of the candle loop of [run_backtest]. *)
Record LoopState := {
  balance : Q;
  position : option Trade;
  trades : list Trade;
  equity_curve : list EquityPoint;
  peak_balance : Q;
}.

(** The unrealized return of a position, in percent of the entry price. *)
Definition unrealized_pnl_pct (position : Trade) (current_price : Q) : result Q :=
  if String.eqb (action position) "buy"
  then let* r := truediv (current_price - price position) (price position) in
       Ok (r * 100)
  else let* r := truediv (price position - current_price) (price position) in
       Ok (r * 100).

(** The five assignments that close a position. *)
Definition close_position (position : Trade) (current_price ts u : Q) : Trade :=
  {| token := token position;
     action := action position;
     price := price position;
     size := size position;
     timestamp := timestamp position;
     signal_confidence := signal_confidence position;
     pnl := size position * (u / 100);
     pnl_pct := u;
     closed := true;
     close_price := Some current_price;
     close_timestamp := Some ts |}.

(** [balance += position.size + position.pnl; trades.append(position);
    position = None] *)
Definition realize (st : LoopState) (position : Trade) : LoopState :=
  {| balance := balance st + (size position + pnl position);
     position := None;
     trades := trades st ++ [position];
     equity_curve := equity_curve st;
     peak_balance := peak_balance st |}.

(** Which branch of the [if .. elif ..] chain on the unrealized return is
    taken. *)
Inductive ExitKind := StopLoss | TakeProfit.

Definition exit_branch (self : BacktestEngine) (u : Q) : option ExitKind :=
  if Qle_bool u (- stop_loss_pct self) then Some StopLoss
  else if Qle_bool (take_profit_pct self) u then Some TakeProfit
  else None.

(** The [if position:] block at the top of the loop body. *)
Definition check_position (self : BacktestEngine) (candle : Candle)
    (st : LoopState) : result LoopState :=
  let current_price := c_close candle in
  match position st with
  | None => Ok st
  | Some pos =>
    let* u := unrealized_pnl_pct pos current_price in
    match exit_branch self u with
    | Some StopLoss =>
      Ok (realize st (close_position pos current_price (c_timestamp candle) u))
    | Some TakeProfit =>
      Ok (realize st (close_position pos current_price (c_timestamp candle) u))
    | None => Ok st
    end
  end.

(** [signal_time and abs((signal_time - candle["timestamp"]).total_seconds()) < 3600] *)
Definition in_window (signal : Signal) (candle : Candle) : bool :=
  match sig_timestamp signal with
  | Some signal_time => Qlt_bool (Qabs (signal_time - c_timestamp candle)) 3600
  | None => false
  end.

(** [confidence >= 60 and action in ["buy", "bullish"]] *)
Definition tradeable (signal : Signal) : bool :=
  let action := lower (default "" (sig_action signal)) in
  let confidence := default 50 (sig_confidence signal) in
  Qle_bool 60 confidence && existsb (String.eqb action) ["buy"; "bullish"].

(** The body of [for signal in signals]; the accumulator is
    [(balance, position)]. *)
Definition scan_signal (self : BacktestEngine) (token_id : string)
    (candle : Candle) (acc : Q * option Trade) (signal : Signal)
    : Q * option Trade :=
  if in_window signal candle then
    if tradeable signal && negb (bool_decide (is_Some acc.2)) then
      let size := acc.1 * (position_size_pct self / 100) in
      (acc.1 - size,
       Some {| token := token_id;
               action := "buy";
               price := c_close candle;
               size := size;
               timestamp := c_timestamp candle;
               signal_confidence := default 50 (sig_confidence signal);
               pnl := 0;
               pnl_pct := 0;
               closed := false;
               close_price := None;
               close_timestamp := None |})
    else acc
  else acc.

Definition scan_signals (self : BacktestEngine) (token_id : string)
    (signals : list Signal) (candle : Candle) (st : LoopState) : LoopState :=
  let acc :=
    fold_left (scan_signal self token_id candle) signals (balance st, position st) in
  {| balance := acc.1;
     position := acc.2;
     trades := trades st;
     equity_curve := equity_curve st;
     peak_balance := peak_balance st |}.

(** [current_equity] *)
Definition current_equity (candle : Candle) (st : LoopState) : result Q :=
  match position st with
  | Some pos =>
    let* pnl_pct := unrealized_pnl_pct pos (c_close candle) in
    Ok (balance st + size pos * (1 + pnl_pct / 100))
  | None => Ok (balance st)
  end.

Definition track_equity (candle : Candle) (st : LoopState) : result LoopState :=
  let* eq := current_equity candle st in
  Ok {| balance := balance st;
        position := position st;
        trades := trades st;
        equity_curve :=
          equity_curve st ++
          [{| ep_timestamp := c_timestamp candle;
              ep_equity := eq;
              ep_price := c_close candle |}];
        peak_balance :=
          if Qlt_bool (peak_balance st) eq then eq else peak_balance st |}.

(** One iteration of [for candle in candles]. *)
Definition process_candle (self : BacktestEngine) (token_id : string)
    (signals : list Signal) (st : LoopState) (candle : Candle)
    : result LoopState :=
  let* st1 := check_position self candle st in
  track_equity candle (scan_signals self token_id signals candle st1).

Fixpoint run_candles (self : BacktestEngine) (token_id : string)
    (signals : list Signal) (candles : list Candle) (st : LoopState)
    : result LoopState :=
  match candles with
  | [] => Ok st
  | candle :: rest =>
    let* st' := process_candle self token_id signals st candle in
    run_candles self token_id signals rest st'
  end.

Definition initial_state (self : BacktestEngine) : LoopState :=
  {| balance := initial_balance self;
     position := None;
     trades := [];
     equity_curve := [];
     peak_balance := initial_balance self |}.

(** [candles[-1]] *)
Definition last_candle (candles : list Candle) : result Candle :=
  match last candles with
  | Some c => Ok c
  | None => Raise {| exc_class := IndexError; exc_str := "list index out of range" |}
  end.

(** The [if position:] block after the loop. *)
Definition close_remaining (candles : list Candle) (st : LoopState)
    : result LoopState :=
  match position st with
  | Some pos =>
    let* final := last_candle candles in
    let* pnl_pct := unrealized_pnl_pct pos (c_close final) in
    Ok (realize st (close_position pos (c_close final) (c_timestamp final) pnl_pct))
  | None => Ok st
  end.

(** [[t for t in trades if t.pnl > 0]] and [[.. if t.pnl <= 0]] *)
Definition winning (trades : list Trade) : list Trade :=
  List.filter (fun t => Qlt_bool 0 (pnl t)) trades.

Definition losing (trades : list Trade) : list Trade :=
  List.filter (fun t => Qle_bool (pnl t) 0) trades.

(** [len(winning) / len(trades) * 100 if trades else 0] *)
Definition win_rate_of (trades : list Trade) : result Q :=
  match trades with
  | [] => Ok 0
  | _ => let* r := truediv (len (winning trades)) (len trades) in Ok (r * 100)
  end.

(** The drawdown loop; the accumulator is [(max_dd, peak)]. *)
Definition drawdown_step (acc : result (Q * Q)) (point : EquityPoint)
    : result (Q * Q) :=
  let* a := acc in
  let peak := if Qlt_bool a.2 (ep_equity point) then ep_equity point else a.2 in
  let* r := truediv (peak - ep_equity point) peak in
  let dd := r * 100 in
  Ok (if Qlt_bool a.1 dd then dd else a.1, peak).

Definition max_drawdown_of (self : BacktestEngine)
    (equity_curve : list EquityPoint) : result Q :=
  let* a := fold_left drawdown_step equity_curve (Ok (0, initial_balance self)) in
  Ok a.1.

(** [returns], for [i] from 1 *)
Fixpoint period_returns (prev : Q) (rest : list Q) : result (list Q) :=
  match rest with
  | [] => Ok []
  | e :: rest' =>
    let* ret := truediv (e - prev) prev in
    let* rets := period_returns e rest' in
    Ok (ret :: rets)
  end.

Definition returns_of (equity_curve : list EquityPoint) : result (list Q) :=
  match map ep_equity equity_curve with
  | [] => Ok []
  | e0 :: rest => period_returns e0 rest
  end.

Section Environment.

(** [x ** 0.5] *)
Variable pow_half : Q -> Q.

Definition sharpe_of (equity_curve : list EquityPoint) : result Q :=
  let* returns := returns_of equity_curve in
  match returns with
  | [] => Ok 0
  | _ =>
    let* avg_return := truediv (Qsum returns) (len returns) in
    let* var :=
      truediv (Qsum (map (fun r => (r - avg_return) ^ 2) returns)) (len returns) in
    let std_return := pow_half var in
    if Qlt_bool 0 std_return
    then let* q := truediv avg_return std_return in Ok (q * pow_half 252)
    else Ok 0
  end.

(** The clock: [now k] is what the [k]-th call of [datetime.now()] returns. *)
Variable now : nat -> Q.

(** [client.get(url, params={.., "days": days})] *)
Variable http_get : string -> Z -> HttpOutcome.

(** [BacktestEngine.run_backtest] *)
Definition run_backtest (self : BacktestEngine) (token_id : string)
    (signals : list Signal) (days : Z) : result BacktestResult :=
  let url := COINGECKO_BASE +:+ "/coins/" +:+ token_id +:+ "/ohlc" in
  let candles := fetch_historical_data (http_get url days) in
  match candles with
  | [] =>
    let* delta := timedelta days in
    let* start := datetime_sub (now 0) delta in
    Ok {| res_token := token_id;
          start_date := start;
          end_date := now 1;
          res_initial_balance := initial_balance self;
          final_balance := initial_balance self;
          total_pnl := 0;
          total_pnl_pct := 0;
          total_trades := 0%nat;
          winning_trades := 0%nat;
          losing_trades := 0%nat;
          win_rate := 0;
          max_drawdown := 0;
          sharpe_ratio := 0;
          res_trades := [];
          res_equity_curve := [] |}
  | first :: _ =>
    let* st := run_candles self token_id signals candles (initial_state self) in
    let* st := close_remaining candles st in
    let* win_rate := win_rate_of (trades st) in
    let* max_dd := max_drawdown_of self (equity_curve st) in
    let* sharpe := sharpe_of (equity_curve st) in
    let* final := last_candle candles in
    let* pct := truediv (balance st - initial_balance self) (initial_balance self) in
    Ok {| res_token := token_id;
          start_date := c_timestamp first;
          end_date := c_timestamp final;
          res_initial_balance := initial_balance self;
          final_balance := balance st;
          total_pnl := balance st - initial_balance self;
          total_pnl_pct := pct * 100;
          total_trades := length (trades st);
          winning_trades := length (winning (trades st));
          losing_trades := length (losing (trades st));
          win_rate := win_rate;
          max_drawdown := max_dd;
          sharpe_ratio := sharpe;
          res_trades := trades st;
          res_equity_curve := equity_curve st |}
  end.

End Environment.

End Engine.

(** ** The specification's own words, to compare the code with *)
Module Spec.
Import Py TradingGraph.

(** The classification table of the specification: with [b] bullish and [r]
    bearish signals, [b > 2r] is very bullish, [b > r] bullish, [r > 2b] very
    bearish, [r > b] bearish, anything else neutral. *)
Definition sentiment_spec (b r : nat) : string :=
  if decide (2 * r < b)%nat then "very_bullish"
  else if decide (r < b)%nat then "bullish"
  else if decide (2 * b < r)%nat then "very_bearish"
  else if decide (b < r)%nat then "bearish"
  else "neutral".

(** The specification's count of the signals with a given action. *)
Fixpoint count_of (act : string) (signals : list AgentSignal) : nat :=
  match signals with
  | [] => 0
  | s :: rest =>
    if String.eqb (action s) act then S (count_of act rest) else count_of act rest
  end.

(** The signal of a successful invocation; nothing for a failed one. *)
Definition signal_of (r : TaskOutcome) : option AgentSignal :=
  match r with
  | Returned (ObjAgentSignal s) => Some s
  | _ => None
  end.

(** An invocation that yields a Signal or fails with an exception. *)
Definition yields_or_fails (r : TaskOutcome) : Prop :=
  match r with
  | Returned (ObjAgentSignal _) => True
  | Returned ObjOther => False
  | Raised e => isinstance_Exception e = true
  end.

(** The exception of a failed invocation, and the line printed for it. *)
Definition failure_of (r : TaskOutcome) : option PyException :=
  match r with
  | Raised e => if isinstance_Exception e then Some e else None
  | Returned _ => None
  end.

Definition failure_lines (show : bool) (results : list TaskOutcome) : list string :=
  if show
  then map (fun e => "Agent error: " +:+ exc_str e) (omap failure_of results)
  else [].

(** The number of strategies of a constructed graph. *)
Definition roster_total (g : TradingGraph) : nat :=
  length (_persona_agents g) + length (_crypto_agents g) + size (_management_agents g).

(** A signal with a given action and confidence. *)
Definition mk_signal (name act : string) (conf : Q) : AgentSignal :=
  {| agent_name := name; action := act; confidence := conf; reasoning := "";
     key_metrics := []; risks := []; data_used := [] |}.

(** A price that counts as missing: no key, [None], zero, [False] or the
    empty string. *)
Definition price_missing (market_data : gmap string PyValue) : Prop :=
  match market_data !! "price" with
  | None => True
  | Some PyNone => True
  | Some (PyNum q) => (q == 0)%Q
  | Some (PyBool b) => b = false
  | Some (PyStr s) => s = ""
  end.

End Spec.

(** ** Concrete collaborators and inputs, used to run the definitions *)
Module Scenario.
Import Py TradingGraph Spec.
Local Open Scope Q_scope.

(** A completion service that times out for one persona and one crypto
    agent and answers for every other agent. *)
Definition agent_analyze (agent : AgentClass) (token : string)
    (market_data : gmap string PyValue) (context : option (gmap string PyValue))
    : TaskOutcome :=
  match agent with
  | MichaelBurryAgent | WhaleWatcherAgent =>
    Raised {| exc_class := RuntimeError; exc_str := "completion timed out" |}
  | WarrenBuffettAgent => Returned (ObjAgentSignal (mk_signal "Warren Buffett" "bearish" 80))
  | DegenAgent => Returned (ObjAgentSignal (mk_signal "Degen" "bullish" 90))
  | RiskManagerAgent => Returned (ObjAgentSignal (mk_signal "Risk Manager" "neutral" 60))
  | _ => Returned (ObjAgentSignal (mk_signal "Analyst" "bullish" 70))
  end.

Definition synthesize_signals (token : string) (market_data : gmap string PyValue)
    (signals : list AgentSignal) (risk : PyObject)
    (context : option (gmap string PyValue)) : result (gmap string PyValue) :=
  Ok (<["action" := PyStr "hold"]> ∅).

Definition _generate_summary (signals : list AgentSignal)
    (decision : gmap string PyValue) : string := "**Analysis Complete**".

(** A snapshot whose price field is present and zero, as the DEX source
    reports an unknown price ([float(pair.get("priceUsd", 0))]). *)
Definition zero_price_snapshot (token chain : string) : gmap string PyValue :=
  <["price" := PyNum 0]> (<["chain" := PyStr chain]> (<["token" := PyStr token]> ∅)).

(** A snapshot with a price. *)
Definition priced_snapshot (token chain : string) : gmap string PyValue :=
  <["price" := PyNum 150]> (<["chain" := PyStr chain]> (<["token" := PyStr token]> ∅)).

(** Every strategy answers under its own name, except one persona and one
    crypto strategy, whose completions fail each with its own message. *)
Definition strategy_name (agent : AgentClass) : string :=
  match agent with
  | WarrenBuffettAgent => "Warren Buffett"
  | MichaelBurryAgent => "Michael Burry"
  | CharlieMungerAgent => "Charlie Munger"
  | CathieWoodAgent => "Cathie Wood"
  | BillAckmanAgent => "Bill Ackman"
  | DegenAgent => "Degen"
  | SolanaSpecialistAgent => "Solana Specialist"
  | WhaleWatcherAgent => "Whale Watcher"
  | PumpTraderAgent => "Pump Trader"
  | OnChainAnalystAgent => "On-Chain Analyst"
  | RiskManagerAgent => "Risk Manager"
  | PortfolioManagerAgent => "Portfolio Manager"
  end.

Definition named_analyze (agent : AgentClass) (token : string)
    (market_data : gmap string PyValue) (context : option (gmap string PyValue))
    : TaskOutcome :=
  match agent with
  | MichaelBurryAgent | WhaleWatcherAgent =>
    Raised {| exc_class := RuntimeError;
              exc_str := strategy_name agent +:+ " timed out" |}
  | _ => Returned (ObjAgentSignal (mk_signal (strategy_name agent) "bullish" 70))
  end.

(** The completion service is down for every strategy of the rosters; only
    the risk manager answers. *)
Definition rosters_down (agent : AgentClass) (token : string)
    (market_data : gmap string PyValue) (context : option (gmap string PyValue))
    : TaskOutcome :=
  match agent with
  | RiskManagerAgent => Returned (ObjAgentSignal (mk_signal "Risk Manager" "neutral" 60))
  | _ => Raised {| exc_class := RuntimeError; exc_str := "completion timed out" |}
  end.

(** The rosters answer and the risk manager's completion fails. *)
Definition risk_down (agent : AgentClass) (token : string)
    (market_data : gmap string PyValue) (context : option (gmap string PyValue))
    : TaskOutcome :=
  match agent with
  | RiskManagerAgent =>
    Raised {| exc_class := RuntimeError; exc_str := "risk completion failed" |}
  | _ => agent_analyze agent token market_data context
  end.

End Scenario.

(** ** Vocabulary for the properties of the simulator *)
Module EngineSpec.
Import Py Engine.
Local Open Scope Q_scope.



(** The date [days] days before the date [t] exists. *)
Definition days_before_exists (t : Q) (days : Z) : Prop :=
  (Z.abs days <= 999999999)%Z
  /\ datetime_min <= t - inject_Z days * 86400 <= datetime_max.

(** A signal that can open a position at a bar: its timestamp is strictly
    less than 3600 seconds away from the bar's, its confidence is at least
    60, and its action is buy or bullish. *)
Definition qualifies (candle : Candle) (signal : Signal) : Prop :=
  (exists t, sig_timestamp signal = Some t /\ Qabs (t - c_timestamp candle) < 3600)
  /\ 60 <= default 50 (sig_confidence signal)
  /\ (lower (default "" (sig_action signal)) = "buy"
      \/ lower (default "" (sig_action signal)) = "bullish").

Definition qualifiesb (candle : Candle) (signal : Signal) : bool :=
  in_window signal candle && tradeable signal.

(** The position a qualifying signal opens at a bar with [balance] at hand. *)
Definition opened (self : BacktestEngine) (token_id : string) (candle : Candle)
    (balance : Q) (signal : Signal) : Trade :=
  {| token := token_id;
     action := "buy";
     price := c_close candle;
     size := balance * (position_size_pct self / 100);
     timestamp := c_timestamp candle;
     signal_confidence := default 50 (sig_confidence signal);
     pnl := 0;
     pnl_pct := 0;
     closed := false;
     close_price := None;
     close_timestamp := None |}.

(** [t] is the trade [p] after its close: the entry data are those of [p]. *)
Definition closed_of (p t : Trade) : Prop :=
  closed t = true
  /\ token t = token p /\ action t = action p /\ price t = price p
  /\ size t = size p /\ timestamp t = timestamp p
  /\ signal_confidence t = signal_confidence p.

(** The trade [p] is accounted for in a state: it is the open position, or
    it sits closed among the realized trades. *)
Definition tracked (p : Trade) (st : LoopState) : Prop :=
  position st = Some p \/ exists t, In t (trades st) /\ closed_of p t.

(** Every trade created so far that is not closed yet. *)
Definition open_trades (st : LoopState) : list Trade :=
  List.filter (fun t => negb (closed t)) (trades st ++ option_list (position st)).

(** The loop invariant on the trade life cycle. *)
Definition lifecycle_ok (st : LoopState) : Prop :=
  Forall (fun t => closed t = true) (trades st)
  /\ (forall p, position st = Some p -> closed p = false).

(** Whether the processing of a bar opens a position: the exit check leaves
    no position and the timeline holds a qualifying signal. *)
Definition opens_at (self : BacktestEngine) (signals : list Signal)
    (st : LoopState) (candle : Candle) : bool :=
  match check_position self candle st with
  | Ok st1 =>
    match position st1, List.find (qualifiesb candle) signals with
    | None, Some _ => true
    | _, _ => false
    end
  | Raise _ => false
  end.

(** The number of positions opened while the bars are processed. *)
Fixpoint count_opens (self : BacktestEngine) (token_id : string)
    (signals : list Signal) (candles : list Candle) (st : LoopState) : nat :=
  match candles with
  | [] => 0
  | candle :: rest =>
    (if opens_at self signals st candle then 1 else 0)
    + match process_candle self token_id signals st candle with
      | Ok st' => count_opens self token_id signals rest st'
      | Raise _ => 0
      end
  end.



(** No signal of the timeline can open a position at any of the bars. *)
Definition no_entry (candles : list Candle) (signals : list Signal) : Prop :=
  Forall (fun c => Forall (fun s => qualifiesb c s = false) signals) candles.

(** The equity point of a bar at which nothing is held and nothing was ever
    traded. *)
Definition flat_point (self : BacktestEngine) (candle : Candle) : EquityPoint :=
  {| ep_timestamp := c_timestamp candle;
     ep_equity := initial_balance self;
     ep_price := c_close candle |}.

Definition flat_state (self : BacktestEngine) (curve : list EquityPoint) : LoopState :=
  {| balance := initial_balance self;
     position := None;
     trades := [];
     equity_curve := curve;
     peak_balance := initial_balance self |}.

(** A long position entered at the close of one of the bars on a signal of
    the timeline that qualifies at that bar, whose confidence it records. *)
Definition entered_long (candles : list Candle) (signals : list Signal)
    (t : Trade) : Prop :=
  action t = "buy"
  /\ 60 <= signal_confidence t
  /\ exists c s,
       In c candles /\ In s signals /\ qualifies c s
       /\ sig_confidence s = Some (signal_confidence t)
       /\ price t = c_close c /\ timestamp t = c_timestamp c.

(** Such a position, closed at the close of one of the bars, with the return
    and the profit the close records. *)
Definition closed_long (candles : list Candle) (signals : list Signal)
    (t : Trade) : Prop :=
  entered_long candles signals t
  /\ closed t = true
  /\ exists c,
       In c candles
       /\ close_price t = Some (c_close c)
       /\ close_timestamp t = Some (c_timestamp c)
       /\ pnl_pct t = (c_close c - price t) / price t * 100
       /\ pnl t = size t * (pnl_pct t / 100).

(** A signal whose action reads neither buy nor bullish, such as sell or
    bearish. *)
Definition not_a_buy (signal : Signal) : Prop :=
  lower (default "" (sig_action signal)) <> "buy"
  /\ lower (default "" (sig_action signal)) <> "bullish".

(** A trade closed by one of the two exits: its return is at or below the
    stop, or at or above the target. *)
Definition exited (self : BacktestEngine) (t : Trade) : Prop :=
  pnl_pct t <= - stop_loss_pct self \/ take_profit_pct self <= pnl_pct t.

End EngineSpec.

(** ** Concrete price series and signal timelines *)
Module BacktestScenario.
Import Py Engine.
Local Open Scope Q_scope.

(** Four Newton steps towards the square root, in lowest terms. *)
Fixpoint newton (n : nat) (q x : Q) : Q :=
  match n with
  | O => x
  | S n' => newton n' q (Qred ((x + q / x) / 2))
  end.

Definition pow_half (q : Q) : Q :=
  if Qle_bool q 0 then 0 else newton 4 q (Qred ((q + 1) / 2)).

Definition now (k : nat) : Q := 1700000000 + inject_Z (Z.of_nat k).

Definition signal_at (t : Q) (action : string) (confidence : Q) : Signal :=
  {| sig_timestamp := Some t;
     sig_action := Some action;
     sig_confidence := Some confidence |}.

(** Hourly bars closing at 100, 90 and 120. *)
Definition drop_then_rally (url : string) (days : Z) : HttpOutcome :=
  HttpResponse 200
    (Some [[0; 100; 101; 99; 100];
           [3600000; 100; 100; 89; 90];
           [7200000; 90; 121; 90; 120]]).

(** Hourly bars closing at 100, 102 and 104: a position entered at the
    first bar meets neither threshold and is still open after the last. *)
Definition steady_rise (url : string) (days : Z) : HttpOutcome :=
  HttpResponse 200
    (Some [[0; 100; 101; 99; 100];
           [3600000; 100; 103; 100; 102];
           [7200000; 102; 105; 101; 104]]).

(** The service answers [404]. *)
Definition not_found (url : string) (days : Z) : HttpOutcome :=
  HttpResponse 404 None.

(** A buy signal at the first bar and a bullish one 50 minutes later. *)
Definition two_buys : list Signal :=
  [signal_at 0 "BUY" 70; signal_at 3000 "bullish" 80].



Definition bar_at_90 : Candle :=
  {| c_timestamp := 3600; c_open := 100; c_high := 100; c_low := 89; c_close := 90 |}.

(** A single bar closing at 100. *)
Definition single_bar (url : string) (days : Z) : HttpOutcome :=
  HttpResponse 200 (Some [[0; 100; 101; 99; 100]]).

(** Sell and bearish signals, and a buy signal of low confidence. *)
Definition no_buys : list Signal :=
  [signal_at 0 "sell" 90; signal_at 3600 "bearish" 95; signal_at 7200 "buy" 55].

(** Sell and bearish signals of high confidence at every bar. *)
Definition sells : list Signal :=
  [signal_at 0 "sell" 90; signal_at 3600 "BEARISH" 95; signal_at 7200 "Sell" 80].

(** The state before the first bar with the default engine. *)
Definition flat_at_start : LoopState :=
  {| balance := 10000; position := None; trades := []; equity_curve := [];
     peak_balance := 10000 |}.

Definition bar_at_100 : Candle :=
  {| c_timestamp := 0; c_open := 100; c_high := 101; c_low := 99; c_close := 100 |}.

End BacktestScenario.

(** ** Agent classes can be compared *)
Module AgentClasses.
Import TradingGraph.

#[global] Instance AgentClass_eq_dec : EqDecision AgentClass.
Proof. solve_decision. Defined.

End AgentClasses.

(** ** [_generate_quick_take], with the number formatting it relies on *)
Module QuickTake.
Import Py TradingGraph.
Local Open Scope Q_scope.

(** [action_map] *)
Definition action_map : gmap string string :=
  list_to_map
    [("very_bullish", "Strong buy signal");
     ("bullish", "Bullish lean");
     ("neutral", "Mixed signals");
     ("bearish", "Bearish lean");
     ("very_bearish", "Strong sell/avoid signal")]%string.

(** The integer a number is rounded to by the format [.0f]: the nearest
    one, a tie going to the even neighbour. *)
Definition round_half_even (q : Q) : Z :=
  let n := Qfloor q in
  match Qcompare (q - inject_Z n) (1 # 2) with
  | Lt => n
  | Gt => (n + 1)%Z
  | Eq => if Z.even n then n else (n + 1)%Z
  end.

(** [f"{x:.0f}"]: the sign of a negative number is kept even when it rounds
    to zero. *)
Definition format_0f (q : Q) : string :=
  if Qlt_bool q 0
  then "-" +:+ pretty (round_half_even (- q))
  else pretty (round_half_even q).

(** [TradingGraph._generate_quick_take] *)
Definition _generate_quick_take (signals : list AgentSignal) (sentiment : string)
    (confidence : Q) : string :=
  let take := default "Unclear" (action_map !! sentiment) in
  take +:+ " (" +:+ format_0f confidence +:+ "% avg confidence)".

(** The five phrases of [action_map]. *)
Definition phrases : list string :=
  ["Strong buy signal"; "Bullish lean"; "Mixed signals"; "Bearish lean";
   "Strong sell/avoid signal"].

(** The five sentiments [_calculate_sentiment] can return. *)
Definition sentiments : list string :=
  ["very_bullish"; "bullish"; "neutral"; "bearish"; "very_bearish"].

End QuickTake.

(** ** [data/market_data.py]: merging the sources *)
Module MarketData.
Import Py.

(** What [asyncio.gather] hands back for one source: a dictionary, or
    something that is not one (an exception). *)
Inductive SourceOutcome :=
| Fetched (d : gmap string PyValue)
| NotADict.

(** [if isinstance(result, dict): data.update(result)] *)
Definition update (data : gmap string PyValue) (result : SourceOutcome)
    : gmap string PyValue :=
  match result with
  | Fetched d => d ∪ data
  | NotADict => data
  end.

(** The value a source reports under a key. *)
Definition reported (result : SourceOutcome) (k : string) : option PyValue :=
  match result with
  | Fetched d => d !! k
  | NotADict => None
  end.

Section Sources.

(** [_fetch_coingecko(token)], [_fetch_dexscreener(token, chain)] and
    [_fetch_jupiter_price(token)], awaited. *)
Variable _fetch_coingecko : string -> SourceOutcome.
Variable _fetch_dexscreener : string -> string -> SourceOutcome.
Variable _fetch_jupiter_price : string -> SourceOutcome.

(** [MarketDataFetcher.get_token_data] *)
Definition get_token_data (token chain : string) : gmap string PyValue :=
  let tasks :=
    [_fetch_coingecko token; _fetch_dexscreener token chain]
    ++ (if String.eqb chain "solana" then [_fetch_jupiter_price token] else []) in
  let data := <["chain" := PyStr chain]> (<["token" := PyStr token]> ∅) in
  fold_left update tasks data.

(** [get_market_data]: the module keeps one fetcher and asks it. *)
Definition get_market_data (token chain : string) : gmap string PyValue :=
  get_token_data token chain.

End Sources.

End MarketData.

(** ** [api/routes.py]: the handlers around the orchestrator *)
Module Routes.
Import Py TradingGraph.

(** What a handler answers: a response model, or an [HTTPException]. *)
Inductive Reply (A : Type) :=
| Respond (a : A)
| HTTPException (status_code : Z) (detail : string).
Arguments Respond {A} a.
Arguments HTTPException {A} status_code detail.

(** How the body of a [try] block ends. *)
Inductive Body (A : Type) :=
| Returns (a : A)
| RaisesHTTP (status_code : Z) (detail : string)
| Raises (e : PyException).
Arguments Returns {A} a.
Arguments RaisesHTTP {A} status_code detail.
Arguments Raises {A} e.

(** [AnalyzeResponse] and [MarketDataResponse] *)
Record AnalyzeResponse := {
  ar_token : string;
  ar_chain : string;
  ar_market_data : gmap string PyValue;
  ar_agent_signals : list SignalDict;
  ar_risk_assessment : option SignalDict;
  ar_final_decision : gmap string PyValue;
  ar_summary : string;
}.


(** [AnalyzeRequest] *)
Record AnalyzeRequest := {
  rq_token : string;
  rq_chain : string;
  rq_mode : string;
  rq_provider : string;
  rq_context : option (gmap string PyValue);
}.

Section Service.

Variable get_market_data : string -> string -> gmap string PyValue.
Variable agent_analyze :
  AgentClass -> string -> gmap string PyValue ->
  option (gmap string PyValue) -> TaskOutcome.
Variable synthesize_signals :
  string -> gmap string PyValue -> list AgentSignal -> PyObject ->
  option (gmap string PyValue) -> result (gmap string PyValue).
Variable _generate_summary : list AgentSignal -> gmap string PyValue -> string.
Variable _generate_quick_take : list AgentSignal -> string -> Q -> string.

(** Reading the settings and constructing the chat model of a provider,
    which may raise. *)
Variable make_llm : string -> result unit.

(** [str(e)] for an [HTTPException] of a given status and detail. *)
Variable str_HTTPException : Z -> string -> string.

(** [create_trading_graph(provider=.., mode=.., show_reasoning=..)] *)
Definition create_trading_graph (provider mode : string) (show_reasoning : bool)
    : result TradingGraph.TradingGraph :=
  let* llm := make_llm provider in
  Ok (__post_init__ mode show_reasoning).

(** The [try] block of the [/analyze] handler. *)
Definition analyze_body (request : AnalyzeRequest) : Body AnalyzeResponse :=
  match create_trading_graph (rq_provider request) (rq_mode request) false with
  | Raise e => Raises e
  | Ok graph =>
    match (TradingGraph.analyze get_market_data agent_analyze synthesize_signals
             _generate_summary graph (rq_token request) (rq_chain request)
             (rq_context request)).1 with
    | Raise e => Raises e
    | Ok (ErrorResult error token chain) =>
      if truthy (PyStr error)
      then RaisesHTTP 400 error
      else Raises {| exc_class := KeyError; exc_str := "'market_data'" |}
    | Ok (Analysis b) =>
      Returns {| ar_token := ab_token b;
                 ar_chain := ab_chain b;
                 ar_market_data := ab_market_data b;
                 ar_agent_signals := ab_agent_signals b;
                 ar_risk_assessment := Some (ab_risk_assessment b);
                 ar_final_decision := ab_final_decision b;
                 ar_summary := ab_summary b |}
    end
  end.

(** The [/analyze] handler: [except Exception as e] turns whatever the body
    raised into a 500 whose detail is [str(e)]. *)
Definition analyze (request : AnalyzeRequest) : Reply AnalyzeResponse :=
  match analyze_body request with
  | Returns a => Respond a
  | RaisesHTTP status_code detail =>
    HTTPException 500 (str_HTTPException status_code detail)
  | Raises e => HTTPException 500 (exc_str e)
  end.



(** The [/analyze/batch] handler: [quick_signal] on the first ten tokens. *)
Definition analyze_batch (tokens : list string) (chain : string)
    : Reply (list QuickResult) :=
  match create_trading_graph "anthropic" "fast" false with
  | Raise e => HTTPException 500 (exc_str e)
  | Ok graph =>
    Respond
      (map (fun token =>
              (quick_signal get_market_data agent_analyze _generate_quick_take
                 graph token chain).1)
           (take 10 tokens))
  end.

End Service.

End Routes.

(** ** Facts about rational sums *)
Module QFacts.
Import Py.
Local Open Scope Q_scope.

Lemma fold_left_Qplus (xs : list Q) (a : Q) :
  fold_left Qplus xs a == a + fold_right Qplus 0 xs.
Proof.
  revert a. induction xs as [|x xs IH]; intros a; simpl.
  - ring.
  - rewrite IH. ring.
Qed.

Lemma Qsum_cons (x : Q) (xs : list Q) : Qsum (x :: xs) == x + Qsum xs.
Proof.
  unfold Qsum. simpl. rewrite !fold_left_Qplus. ring.
Qed.

Lemma len_cons {A} (x : A) (xs : list A) : len (x :: xs) == 1 + len xs.
Proof.
  unfold len. simpl length. rewrite Nat2Z.inj_succ, <- Z.add_1_l.
  rewrite inject_Z_plus. reflexivity.
Qed.

Lemma len_nonneg {A} (xs : list A) : 0 <= len xs.
Proof.
  unfold len. change 0 with (inject_Z 0). rewrite <- Zle_Qle. lia.
Qed.

Lemma len_pos {A} (x : A) (xs : list A) : 0 < len (x :: xs).
Proof.
  rewrite len_cons. pose proof (len_nonneg xs) as H.
  apply Qlt_le_trans with (1 + 0); [reflexivity|].
  apply Qplus_le_r. exact H.
Qed.

Ltac qreplace a b :=
  let E := fresh "E" in
  assert (E : a == b) by (try ring; try field); rewrite E; clear E.

Lemma Qsum_bounds (lo hi : Q) (xs : list Q) :
  Forall (fun x => lo <= x <= hi) xs ->
  lo * len xs <= Qsum xs <= hi * len xs.
Proof.
  induction 1 as [|x xs [Hlo Hhi] _ [IHlo IHhi]].
  - unfold Qsum, len. simpl. split; apply Qle_lteq; right; ring.
  - rewrite Qsum_cons, len_cons. split.
    + qreplace (lo * (1 + len xs)) (lo + lo * len xs).
      apply Qplus_le_compat; assumption.
    + qreplace (hi * (1 + len xs)) (hi + hi * len xs).
      apply Qplus_le_compat; assumption.
Qed.

Lemma Qsum_nonneg (xs : list Q) : Forall (fun x => 0 <= x) xs -> 0 <= Qsum xs.
Proof.
  induction 1 as [|x xs Hx _ IH].
  - unfold Qsum. simpl. apply Qle_refl.
  - rewrite Qsum_cons. qreplace 0 (0 + 0).
    apply Qplus_le_compat; assumption.
Qed.

Lemma Qsum_nonneg_zero (xs : list Q) :
  Forall (fun x => 0 <= x) xs ->
  (Qsum xs == 0 <-> Forall (fun x => x == 0) xs).
Proof.
  induction 1 as [|x xs Hx Hxs IH].
  - split; [constructor | reflexivity].
  - rewrite Qsum_cons. pose proof (Qsum_nonneg xs Hxs) as Hs. split.
    + intros E.
      assert (Hx0 : x == 0).
      { apply Qle_antisym; [|exact Hx].
        apply Qle_trans with (x + Qsum xs).
        - apply Qle_trans with (x + 0).
          + rewrite Qplus_0_r. apply Qle_refl.
          + apply Qplus_le_r. exact Hs.
        - rewrite E. apply Qle_refl. }
      constructor; [exact Hx0|].
      apply IH. rewrite Hx0 in E. rewrite <- E. ring.
    + intros F. inversion F as [|y ys Hy Hys]; subst.
      rewrite Hy. apply IH in Hys. rewrite Hys. ring.
Qed.

Lemma Qlt_bool_iff (x y : Q) : Qlt_bool x y = true <-> x < y.
Proof.
  unfold Qlt_bool. rewrite negb_true_iff.
  split.
  - intros H. apply Qnot_le_lt. intros L.
    apply Qle_bool_iff in L. congruence.
  - intros H. destruct (Qle_bool y x) eqn:E; [|reflexivity].
    apply Qle_bool_iff in E. exfalso. exact (Qlt_not_le _ _ H E).
Qed.


Lemma truediv_ok (a b : Q) : ~ b == 0 -> truediv a b = Ok (a / b).
Proof.
  intros H. unfold truediv.
  destruct (Qeq_bool b 0) eqn:E; [|reflexivity].
  apply Qeq_bool_iff in E. contradiction.
Qed.

Lemma truediv_inv (a b q : Q) : truediv a b = Ok q -> ~ b == 0 /\ q = a / b.
Proof.
  unfold truediv. destruct (Qeq_bool b 0) eqn:E; [discriminate|].
  intros [= <-]. split; [|reflexivity].
  apply Qeq_bool_neq. exact E.
Qed.

End QFacts.

(** ** Properties of the orchestrator *)
Module TradingGraphFacts.
Import Py TradingGraph Spec AgentClasses QFacts.

(** *** Sentiment *)

Example sentiment_3_bullish_1_bearish :
  _calculate_sentiment
    [mk_signal "a" "bullish" 70; mk_signal "b" "bearish" 40;
     mk_signal "c" "bullish" 55; mk_signal "d" "bullish" 90] = "very_bullish".
Proof. reflexivity. Qed.

Example sentiment_2_bullish_1_bearish :
  _calculate_sentiment
    [mk_signal "a" "bullish" 70; mk_signal "b" "bearish" 40;
     mk_signal "c" "bullish" 55; mk_signal "d" "neutral" 50] = "bullish".
Proof. reflexivity. Qed.

Example sentiment_1_bullish_1_bearish :
  _calculate_sentiment
    [mk_signal "a" "bullish" 70; mk_signal "b" "bearish" 40] = "neutral".
Proof. reflexivity. Qed.

Example sentiment_1_bullish_3_bearish :
  _calculate_sentiment
    [mk_signal "a" "bearish" 70; mk_signal "b" "bearish" 40;
     mk_signal "c" "bullish" 55; mk_signal "d" "bearish" 90] = "very_bearish".
Proof. reflexivity. Qed.

Example sentiment_2_bearish_1_bullish :
  _calculate_sentiment
    [mk_signal "a" "bearish" 70; mk_signal "b" "bearish" 40;
     mk_signal "c" "bullish" 55] = "bearish".
Proof. reflexivity. Qed.

(** The code counts what the specification counts. *)
Lemma count_action_count_of (act : string) (signals : list AgentSignal) :
  count_action act signals = count_of act signals.
Proof.
  unfold count_action. induction signals as [|s signals IH]; [reflexivity|].
  cbn [count_of]. rewrite filter_cons.
  destruct (String.eqb_spec (action s) act) as [E|E].
  - rewrite decide_True by exact E. cbn [length]. rewrite IH. reflexivity.
  - rewrite decide_False by exact E. exact IH.
Qed.

Lemma calculate_sentiment_table (signals : list AgentSignal) :
  _calculate_sentiment signals =
    sentiment_spec (count_of "bullish" signals) (count_of "bearish" signals).
Proof.
  rewrite <- !count_action_count_of.
  destruct signals as [|s signals]; [reflexivity|].
  unfold _calculate_sentiment, sentiment_spec.
  generalize (count_action "bullish" (s :: signals)) as b.
  generalize (count_action "bearish" (s :: signals)) as r.
  intros r b.
  repeat (case_decide; [
    match goal with
    | |- context [(?x <? ?y)%nat] =>
      destruct (Nat.ltb_spec x y); [reflexivity | lia]
    end |
    match goal with
    | |- context [(?x <? ?y)%nat] =>
      destruct (Nat.ltb_spec x y); [lia |]
    end ]).
  reflexivity.
Qed.

(** C1. With [b] the number of bullish and [r] the number of bearish signals
    of any list, counted as the specification counts them, the aggregate
    sentiment the orchestrator computes is very bullish when [b > 2r], else
    bullish when [b > r], else very bearish when [r > 2b], else bearish when
    [r > b], else neutral.  In particular every list with 3 bullish and 1
    bearish signals is very bullish, with 2 and 1 bullish, with 1 and 1
    neutral, with 1 and 3 very bearish, and the empty list is neutral. *)
Theorem calculate_sentiment_classification (signals : list AgentSignal) :
  let b := count_of "bullish" signals in
  let r := count_of "bearish" signals in
  _calculate_sentiment signals = sentiment_spec b r
  /\ ((2 * r < b)%nat -> _calculate_sentiment signals = "very_bullish")
  /\ ((r < b <= 2 * r)%nat -> _calculate_sentiment signals = "bullish")
  /\ ((2 * b < r)%nat -> _calculate_sentiment signals = "very_bearish")
  /\ ((b < r <= 2 * b)%nat -> _calculate_sentiment signals = "bearish")
  /\ (b = r -> _calculate_sentiment signals = "neutral")
  /\ (b = 3%nat -> r = 1%nat -> _calculate_sentiment signals = "very_bullish")
  /\ (b = 2%nat -> r = 1%nat -> _calculate_sentiment signals = "bullish")
  /\ (b = 1%nat -> r = 1%nat -> _calculate_sentiment signals = "neutral")
  /\ (b = 1%nat -> r = 3%nat -> _calculate_sentiment signals = "very_bearish")
  /\ (signals = [] -> _calculate_sentiment signals = "neutral").
Proof.
  intros b r. rewrite calculate_sentiment_table. fold b r.
  assert (Hnil : signals = [] -> sentiment_spec b r = "neutral").
  { intros ->. reflexivity. }
  clearbody b r. unfold sentiment_spec.
  repeat split; try exact Hnil; clear Hnil; intros;
    repeat case_decide; try reflexivity; lia.
Qed.

(** Four signals, three of them bullish and one bearish, and the same with
    the actions exchanged. *)
Lemma calculate_sentiment_classification_witness :
  _calculate_sentiment
    [mk_signal "a" "bullish" 70; mk_signal "b" "bearish" 40;
     mk_signal "c" "bullish" 55; mk_signal "d" "bullish" 90] = "very_bullish"
  /\ _calculate_sentiment
       [mk_signal "a" "bearish" 70; mk_signal "b" "bullish" 40;
        mk_signal "c" "bearish" 55; mk_signal "d" "bearish" 90] = "very_bearish"
  /\ _calculate_sentiment
       [mk_signal "a" "bullish" 70; mk_signal "b" "bearish" 40;
        mk_signal "c" "bullish" 55; mk_signal "d" "hold" 90] = "bullish"
  /\ _calculate_sentiment
       [mk_signal "a" "bullish" 70; mk_signal "b" "bearish" 40;
        mk_signal "c" "neutral" 55] = "neutral".
Proof.
  split; [|split; [|split]].
  - exact (proj1 (proj2 (proj2 (proj2 (proj2 (proj2 (proj2
             (calculate_sentiment_classification
                [mk_signal "a" "bullish" 70; mk_signal "b" "bearish" 40;
                 mk_signal "c" "bullish" 55; mk_signal "d" "bullish" 90])))))))
             eq_refl eq_refl).
  - exact (proj1 (proj2 (proj2 (proj2 (proj2 (proj2 (proj2 (proj2 (proj2 (proj2
             (calculate_sentiment_classification
                [mk_signal "a" "bearish" 70; mk_signal "b" "bullish" 40;
                 mk_signal "c" "bearish" 55; mk_signal "d" "bearish" 90]))))))))))
             eq_refl eq_refl).
  - exact (proj1 (proj2 (proj2 (proj2 (proj2 (proj2 (proj2 (proj2
             (calculate_sentiment_classification
                [mk_signal "a" "bullish" 70; mk_signal "b" "bearish" 40;
                 mk_signal "c" "bullish" 55; mk_signal "d" "hold" 90]))))))))
             eq_refl eq_refl).
  - exact (proj1 (proj2 (proj2 (proj2 (proj2 (proj2 (proj2 (proj2 (proj2
             (calculate_sentiment_classification
                [mk_signal "a" "bullish" 70; mk_signal "b" "bearish" 40;
                 mk_signal "c" "neutral" 55])))))))))
             eq_refl eq_refl).
Defined.

(** *** Roster *)

(** C2. The constructed roster has the sizes of the mode table: 5 persona and
    5 crypto strategies in mode full (12 with the management pair), 2 and 4
    in mode fast (8), 2 and 3 in mode degen (7); whatever the mode, the
    management strategies are the risk assessor and the decision
    synthesizer. *)
Theorem post_init_roster_sizes (show : bool) :
  (length (_persona_agents (__post_init__ "full" show)) = 5%nat
   /\ length (_crypto_agents (__post_init__ "full" show)) = 5%nat
   /\ roster_total (__post_init__ "full" show) = 12%nat)
  /\ (length (_persona_agents (__post_init__ "fast" show)) = 2%nat
      /\ length (_crypto_agents (__post_init__ "fast" show)) = 4%nat
      /\ roster_total (__post_init__ "fast" show) = 8%nat)
  /\ (length (_persona_agents (__post_init__ "degen" show)) = 2%nat
      /\ length (_crypto_agents (__post_init__ "degen" show)) = 3%nat
      /\ roster_total (__post_init__ "degen" show) = 7%nat)
  /\ (forall mode : string,
        _management_agents (__post_init__ mode show) !! "risk" = Some RiskManagerAgent
        /\ _management_agents (__post_init__ mode show) !! "portfolio"
           = Some PortfolioManagerAgent
        /\ size (_management_agents (__post_init__ mode show)) = 2%nat).
Proof.
  assert (M : forall mode : string,
             _management_agents (__post_init__ mode show) !! "risk" = Some RiskManagerAgent
             /\ _management_agents (__post_init__ mode show) !! "portfolio"
                = Some PortfolioManagerAgent
             /\ size (_management_agents (__post_init__ mode show)) = 2%nat).
  { intros mode. unfold __post_init__. cbn [_management_agents].
    split; [|split].
    - rewrite lookup_insert_ne by discriminate. apply lookup_insert_eq.
    - apply lookup_insert_eq.
    - rewrite map_size_insert_None.
      + rewrite map_size_insert_None; [rewrite map_size_empty; reflexivity|].
        apply lookup_empty.
      + rewrite lookup_insert_ne by discriminate. apply lookup_empty. }
  unfold roster_total.
  repeat split; try apply M;
    rewrite (proj2 (proj2 (M _))); reflexivity.
Qed.

(** The crypto sets of the table, by name. *)
Lemma post_init_crypto_sets (show : bool) :
  _crypto_agents (__post_init__ "full" show)
    = [DegenAgent; SolanaSpecialistAgent; WhaleWatcherAgent; OnChainAnalystAgent;
       PumpTraderAgent]
  /\ _crypto_agents (__post_init__ "fast" show)
    = [DegenAgent; SolanaSpecialistAgent; WhaleWatcherAgent; OnChainAnalystAgent]
  /\ _crypto_agents (__post_init__ "degen" show)
    = [DegenAgent; PumpTraderAgent; SolanaSpecialistAgent].
Proof. repeat split. Qed.

(** Any mode other than full and degen is treated as fast. *)
Lemma post_init_other_mode (mode : string) (show : bool) :
  mode <> "full" -> mode <> "degen" ->
  _persona_agents (__post_init__ mode show) = _persona_agents (__post_init__ "fast" show)
  /\ _crypto_agents (__post_init__ mode show) = _crypto_agents (__post_init__ "fast" show).
Proof.
  intros Hf Hd. unfold __post_init__.
  apply String.eqb_neq in Hf. apply String.eqb_neq in Hd.
  rewrite Hf, Hd. split; reflexivity.
Qed.

(** *** The join of the concurrent invocations *)

Lemma collect_results_acc (show : bool) (results : list TaskOutcome)
    (acc : list AgentSignal * list string) :
  fold_left (collect_result show) results acc
  = (acc.1 ++ omap signal_of results, acc.2 ++ failure_lines show results).
Proof.
  revert acc. induction results as [|r results IH]; intros [sigs out].
  - unfold failure_lines. destruct show; simpl; rewrite !app_nil_r; reflexivity.
  - cbn [fold_left]. rewrite IH. unfold failure_lines.
    destruct r as [[s|]|e].
    + cbn. rewrite <- app_assoc. reflexivity.
    + reflexivity.
    + unfold collect_result, failure_of at 2.
      destruct (isinstance_Exception e) eqn:He, show; cbn; rewrite ?He; cbn;
        rewrite <- ?app_assoc; reflexivity.
Qed.

(** The join keeps the signals of the invocations that returned one, in the
    order of the roster, whatever the other invocations did. *)
Lemma run_agents_parallel_signals agent_analyze (self : TradingGraph)
    (agents : list AgentClass) (token : string)
    (market_data : gmap string PyValue) (context : option (gmap string PyValue)) :
  _run_agents_parallel agent_analyze self agents token market_data context
  = (omap signal_of (gather agent_analyze agents token market_data context),
     failure_lines (show_reasoning self)
       (gather agent_analyze agents token market_data context)).
Proof.
  unfold _run_agents_parallel. rewrite collect_results_acc. reflexivity.
Qed.

Lemma gather_app agent_analyze (l1 l2 : list AgentClass) token market_data context :
  gather agent_analyze (l1 ++ l2) token market_data context
  = gather agent_analyze l1 token market_data context
    ++ gather agent_analyze l2 token market_data context.
Proof. unfold gather. apply map_app. Qed.

Lemma yields_or_fails_partition (results : list TaskOutcome) :
  Forall yields_or_fails results ->
  (length (omap signal_of results) + length (omap failure_of results)
   = length results)%nat.
Proof.
  induction 1 as [|r results Hr _ IH]; [reflexivity|].
  destruct r as [[s|]|e]; cbn in *.
  - lia.
  - contradiction.
  - rewrite Hr. cbn. lia.
Qed.

(** *** Average confidence *)

Lemma avg_confidence_cons (s : AgentSignal) (signals : list AgentSignal) :
  avg_confidence (s :: signals)
  = (Qsum (map confidence (s :: signals)) / len (s :: signals))%Q.
Proof. reflexivity. Qed.

Lemma Qdiv_zero_iff (a n : Q) : (0 < n -> (a / n == 0 <-> a == 0))%Q.
Proof.
  intros Hn.
  assert (Hn0 : ~ (n == 0)%Q).
  { intros E. rewrite E in Hn. exact (Qlt_irrefl 0 Hn). }
  split; intros E.
  - rewrite <- (Qmult_div_r a n Hn0). unfold Qdiv in E |- *.
    rewrite E. ring.
  - rewrite E. unfold Qdiv. ring.
Qed.

(** C6 (as amended). For signals whose confidences lie in [0,100], the
    average confidence both pipelines compute lies in [0,100]; it is 0 for
    the empty list, and in general it is 0 exactly when every confidence in
    the list is 0. *)
Theorem avg_confidence_range (signals : list AgentSignal) :
  Forall (fun s => 0 <= confidence s <= 100)%Q signals ->
  (0 <= avg_confidence signals <= 100)%Q
  /\ (signals = [] -> avg_confidence signals == 0)%Q
  /\ (avg_confidence signals == 0 <-> Forall (fun s => confidence s == 0) signals)%Q.
Proof.
  intros Hall. destruct signals as [|s signals].
  - repeat split; try discriminate; try constructor; reflexivity.
  - rewrite avg_confidence_cons.
    pose proof (len_pos s signals) as Hn.
    assert (Hmap : Forall (fun x => 0 <= x <= 100)%Q (map confidence (s :: signals))).
    { apply List.Forall_map. exact Hall. }
    destruct (Qsum_bounds 0 100 _ Hmap) as [Hlo Hhi].
    assert (Hlen : len (map confidence (s :: signals)) = len (s :: signals)).
    { unfold len. rewrite length_map. reflexivity. }
    rewrite Hlen in Hlo, Hhi.
    split; [split|split].
    + apply Qle_shift_div_l; [exact Hn|]. exact Hlo.
    + apply Qle_shift_div_r; [exact Hn|]. exact Hhi.
    + discriminate.
    + rewrite (Qdiv_zero_iff _ _ Hn).
      rewrite Qsum_nonneg_zero.
      * rewrite List.Forall_map. reflexivity.
      * apply List.Forall_map. eapply Forall_impl; [exact Hall|].
        intros x [Hx _]. exact Hx.
Qed.

Lemma avg_confidence_range_witness :
  Forall (fun s => 0 <= confidence s <= 100)%Q
    [mk_signal "a" "bullish" 70; mk_signal "b" "bearish" 40]
  /\ (0 <= avg_confidence [mk_signal "a" "bullish" 70; mk_signal "b" "bearish" 40]
      <= 100)%Q.
Proof.
  assert (H : Forall (fun s => 0 <= confidence s <= 100)%Q
            [mk_signal "a" "bullish" 70; mk_signal "b" "bearish" 40]).
  { repeat constructor; cbn; discriminate. }
  split; [exact H|].
  exact (proj1 (avg_confidence_range _ H)).
Defined.

(** C6 as stated fails: a single signal of confidence 0 is a non-empty list
    within the domain whose average confidence is 0. *)
Lemma avg_confidence_zero_nonempty :
  Forall (fun s => 0 <= confidence s <= 100)%Q [mk_signal "a" "neutral" 0]
  /\ (avg_confidence [mk_signal "a" "neutral" 0] == 0)%Q
  /\ [mk_signal "a" "neutral" 0] <> []
  /\ ~ (forall signals : list AgentSignal,
          Forall (fun s => 0 <= confidence s <= 100)%Q signals ->
          (avg_confidence signals == 0)%Q <-> signals = []).
Proof.
  assert (H : Forall (fun s => 0 <= confidence s <= 100)%Q [mk_signal "a" "neutral" 0]).
  { repeat constructor; cbn; discriminate. }
  assert (E : (avg_confidence [mk_signal "a" "neutral" 0] == 0)%Q) by reflexivity.
  repeat split; try exact H; try exact E; try discriminate.
  intros C. apply (C _ H) in E. discriminate.
Qed.

(** The two places the average is used. *)
Lemma quick_signal_confidence get_market_data agent_analyze _generate_quick_take
    (self : TradingGraph) (token chain : string) (b : QuickBundle) (out : list string) :
  quick_signal get_market_data agent_analyze _generate_quick_take self token chain
    = (Quick b, out) ->
  let signals :=
    omap signal_of
      (gather agent_analyze [DegenAgent; OnChainAnalystAgent; RiskManagerAgent]
         token (get_market_data token chain) None) in
  qb_confidence b = avg_confidence signals
  /\ qb_sentiment b = _calculate_sentiment signals
  /\ qb_signals b = map _signal_to_dict signals.
Proof.
  unfold quick_signal.
  destruct (negb (truthy (dict_get (get_market_data token chain) "price")));
    [discriminate|].
  rewrite run_agents_parallel_signals. cbn [fst snd].
  intros [= <- _]. cbn. repeat split.
Qed.

Lemma risk_context_entries (context : option (gmap string PyValue))
    (all_signals : list AgentSignal) :
  risk_context context all_signals !! "avg_confidence"
    = Some (PyNum (avg_confidence all_signals))
  /\ risk_context context all_signals !! "aggregate_sentiment"
    = Some (PyStr (_calculate_sentiment all_signals)).
Proof.
  unfold risk_context. split.
  - apply lookup_insert_eq.
  - rewrite lookup_insert_ne by discriminate. apply lookup_insert_eq.
Qed.

(** *** The missing-price short circuit *)

Lemma price_missing_falsy (market_data : gmap string PyValue) :
  price_missing market_data <-> truthy (dict_get market_data "price") = false.
Proof.
  unfold price_missing, dict_get.
  destruct (market_data !! "price") as [[|b|q|s]|]; cbn.
  - tauto.
  - destruct b; cbn; split; congruence.
  - rewrite negb_false_iff. symmetry. apply Qeq_bool_iff.
  - rewrite negb_false_iff, String.eqb_eq. tauto.
  - tauto.
Qed.

Lemma price_missing_dec (market_data : gmap string PyValue) :
  price_missing market_data \/ ~ price_missing market_data.
Proof.
  rewrite price_missing_falsy.
  destruct (truthy (dict_get market_data "price")); [right|left]; congruence.
Qed.

(** Past the price check the pipeline ends in a bundle or in an exception of
    the management stage, never in the error result. *)
Lemma analyze_priced get_market_data agent_analyze synthesize_signals
    _generate_summary (self : TradingGraph) (token chain : string)
    (context : option (gmap string PyValue)) :
  let market_data := get_market_data token chain in
  let outcomes :=
    gather agent_analyze (_persona_agents self ++ _crypto_agents self)
      token market_data context in
  let result :=
    analyze get_market_data agent_analyze synthesize_signals _generate_summary
      self token chain context in
  truthy (dict_get market_data "price") = true ->
  result.2 = failure_lines (show_reasoning self) outcomes
  /\ (forall e t c, result.1 <> Ok (ErrorResult e t c))
  /\ (forall b, result.1 = Ok (Analysis b) ->
        ab_agent_signals b = map _signal_to_dict (omap signal_of outcomes)).
Proof.
  intros market_data outcomes result Hp. subst result outcomes.
  unfold analyze. fold market_data. rewrite Hp. cbn [negb fst snd].
  rewrite !run_agents_parallel_signals. cbn [fst snd].
  rewrite gather_app, omap_app.
  split.
  { unfold failure_lines. destruct (show_reasoning self); [|reflexivity].
    rewrite omap_app, map_app. reflexivity. }
  destruct (management_agent self "risk") as [ra|]; cbn [bind];
    [|split; intros; discriminate].
  destruct (await _) as [rv|]; cbn [bind]; [|split; intros; discriminate].
  destruct (management_agent self "portfolio") as [pa|]; cbn [bind];
    [|split; intros; discriminate].
  destruct (synthesize_signals _ _ _ _ _) as [fd|]; cbn [bind];
    [|split; intros; discriminate].
  destruct (signal_to_dict_obj rv) as [rd|]; cbn [bind];
    [|split; intros; discriminate].
  split; [intros; discriminate|].
  intros b [= <-]. reflexivity.
Qed.

(** *** The join inside the full analysis *)

Lemma failure_lines_app (show : bool) (l1 l2 : list TaskOutcome) :
  failure_lines show (l1 ++ l2) = failure_lines show l1 ++ failure_lines show l2.
Proof.
  unfold failure_lines. destruct show; [|reflexivity].
  rewrite omap_app, map_app. reflexivity.
Qed.

(** C3. When every invocation of a roster yields a Signal or fails, the join
    returns exactly the Signals of the successful invocations in roster
    order; every invocation is a success or a dropped failure (one attempt
    each); a failed invocation contributes nothing and leaves the Signals of
    the invocations before and after it in place; it is only reported when
    reasoning is shown.  The full analysis joins the persona roster and then
    the crypto roster: the signals of a returned bundle are those of the
    successful persona strategies followed by those of the successful crypto
    strategies, and what was printed are the failures in the same order. *)
Theorem run_agents_parallel_drops_failures get_market_data agent_analyze
    synthesize_signals _generate_summary (self : TradingGraph)
    (agents : list AgentClass) (token chain : string)
    (market_data : gmap string PyValue) (context : option (gmap string PyValue)) :
  let run l := _run_agents_parallel agent_analyze self l token market_data context in
  let results l := gather agent_analyze l token market_data context in
  Forall yields_or_fails (results agents) ->
  (run agents).1 = omap signal_of (results agents)
  /\ (length (run agents).1 + length (omap failure_of (results agents))
      = length agents)%nat
  /\ (run agents).2 = failure_lines (show_reasoning self) (results agents)
  /\ (forall l1 a l2,
        agents = l1 ++ a :: l2 ->
        signal_of (agent_analyze a token market_data context) = None ->
        (run agents).1 = (run l1).1 ++ (run l2).1)
  /\ (forall l1 a l2 s,
        agents = l1 ++ a :: l2 ->
        agent_analyze a token market_data context = Returned (ObjAgentSignal s) ->
        (run agents).1 = (run l1).1 ++ s :: (run l2).1)
  /\ (market_data = get_market_data token chain ->
      forall b out,
        analyze get_market_data agent_analyze synthesize_signals _generate_summary
          self token chain context = (Ok (Analysis b), out) ->
        ab_agent_signals b
          = map _signal_to_dict
              ((run (_persona_agents self)).1 ++ (run (_crypto_agents self)).1)
        /\ ab_agent_signals b
          = map _signal_to_dict
              (omap signal_of (results (_persona_agents self))
               ++ omap signal_of (results (_crypto_agents self)))
        /\ out = (run (_persona_agents self)).2 ++ (run (_crypto_agents self)).2
        /\ out = failure_lines (show_reasoning self) (results (_persona_agents self))
                 ++ failure_lines (show_reasoning self)
                      (results (_crypto_agents self))).
Proof.
  intros run results Hall. subst run results. cbn beta.
  rewrite !run_agents_parallel_signals. cbn [fst snd].
  split; [reflexivity|]. split.
  { rewrite yields_or_fails_partition by exact Hall.
    unfold gather. apply length_map. }
  split; [reflexivity|]. split; [|split].
  - intros l1 a l2 -> Ha.
    rewrite !run_agents_parallel_signals. cbn [fst].
    rewrite gather_app, omap_app. f_equal.
    unfold gather. simpl. rewrite Ha. reflexivity.
  - intros l1 a l2 s -> Ha.
    rewrite !run_agents_parallel_signals. cbn [fst].
    rewrite gather_app, omap_app. f_equal.
    unfold gather. simpl. rewrite Ha. reflexivity.
  - intros -> b out Hrun.
    destruct (truthy (dict_get (get_market_data token chain) "price")) eqn:Hp.
    + pose proof (analyze_priced get_market_data agent_analyze synthesize_signals
                    _generate_summary self token chain context Hp) as Ha.
      cbn zeta in Ha. rewrite Hrun in Ha. cbn [fst snd] in Ha.
      destruct Ha as (Hout & _ & Hb).
      rewrite (Hb b eq_refl), Hout, gather_app, omap_app, failure_lines_app.
      repeat split.
    + unfold analyze in Hrun. rewrite Hp in Hrun. discriminate.
Qed.

(** The full graph on a priced snapshot, with one persona and one crypto
    strategy failing, returns a bundle. *)
Lemma analyze_named_scenario_returns :
  exists b out,
    analyze Scenario.priced_snapshot Scenario.named_analyze
      Scenario.synthesize_signals Scenario._generate_summary
      (__post_init__ "full" true) "SOL" "solana" None = (Ok (Analysis b), out).
Proof.
  eexists. eexists.
  unfold analyze, dict_get, Scenario.priced_snapshot.
  rewrite lookup_insert_eq. cbn [default truthy negb].
  rewrite !run_agents_parallel_signals. cbn [fst snd].
  unfold management_agent, __post_init__. cbn [_management_agents].
  rewrite lookup_insert_ne by discriminate. rewrite !lookup_insert_eq.
  cbn. reflexivity.
Qed.

Lemma run_agents_parallel_drops_failures_witness :
  let g := __post_init__ "full" true in
  Forall yields_or_fails
    (gather Scenario.named_analyze (_persona_agents g ++ _crypto_agents g)
       "SOL" (Scenario.priced_snapshot "SOL" "solana") None)
  /\ exists b out,
       analyze Scenario.priced_snapshot Scenario.named_analyze
         Scenario.synthesize_signals Scenario._generate_summary
         g "SOL" "solana" None = (Ok (Analysis b), out)
       /\ map sd_agent (ab_agent_signals b)
          = ["Warren Buffett"; "Charlie Munger"; "Cathie Wood"; "Bill Ackman";
             "Degen"; "Solana Specialist"; "On-Chain Analyst"; "Pump Trader"]
       /\ out = ["Agent error: Michael Burry timed out";
                 "Agent error: Whale Watcher timed out"].
Proof.
  intros g.
  assert (H : Forall yields_or_fails
            (gather Scenario.named_analyze (_persona_agents g ++ _crypto_agents g)
               "SOL" (Scenario.priced_snapshot "SOL" "solana") None)).
  { repeat constructor. }
  split; [exact H|].
  destruct analyze_named_scenario_returns as (b & out & Hrun).
  exists b, out. split; [exact Hrun|].
  destruct (run_agents_parallel_drops_failures Scenario.priced_snapshot
              Scenario.named_analyze Scenario.synthesize_signals
              Scenario._generate_summary g
              (_persona_agents g ++ _crypto_agents g) "SOL" "solana"
              (Scenario.priced_snapshot "SOL" "solana") None H)
    as (_ & _ & _ & _ & _ & Hjoin).
  destruct (Hjoin eq_refl b out Hrun) as (_ & Hsig & _ & Hout).
  split.
  - rewrite Hsig. reflexivity.
  - rewrite Hout. reflexivity.
Defined.

(** C7 (as amended). The full analysis returns the error result, carrying
    token and chain and printing nothing, exactly when the snapshot's price
    is missing in Python's sense: no price field, or one that holds [None],
    zero, [False] or the empty string.  With any other price the pipeline
    runs both rosters and never returns the error result. *)
Theorem analyze_short_circuit get_market_data agent_analyze synthesize_signals
    _generate_summary (self : TradingGraph) (token chain : string)
    (context : option (gmap string PyValue)) :
  let market_data := get_market_data token chain in
  let outcomes :=
    gather agent_analyze (_persona_agents self ++ _crypto_agents self)
      token market_data context in
  let result :=
    analyze get_market_data agent_analyze synthesize_signals _generate_summary
      self token chain context in
  (price_missing market_data <->
     result = (Ok (ErrorResult ("Could not fetch market data for " +:+ token)
                     token chain), []))
  /\ (price_missing market_data <-> exists e t c, result.1 = Ok (ErrorResult e t c))
  /\ (~ price_missing market_data ->
        result.2 = failure_lines (show_reasoning self) outcomes
        /\ forall b, result.1 = Ok (Analysis b) ->
             ab_agent_signals b = map _signal_to_dict (omap signal_of outcomes)).
Proof.
  intros market_data outcomes result.
  assert (Hmiss : price_missing market_data ->
            result = (Ok (ErrorResult ("Could not fetch market data for " +:+ token)
                            token chain), [])).
  { intros Hm. apply price_missing_falsy in Hm. subst result.
    unfold analyze. fold market_data. rewrite Hm. reflexivity. }
  assert (Hpriced : ~ price_missing market_data ->
            truthy (dict_get market_data "price") = true).
  { intros Hn. rewrite price_missing_falsy in Hn.
    destruct (truthy (dict_get market_data "price")); congruence. }
  split; [|split].
  - split; [exact Hmiss|]. intros E.
    destruct (price_missing_dec market_data) as [Hm|Hn]; [exact Hm|].
    destruct (analyze_priced get_market_data agent_analyze synthesize_signals
                _generate_summary self token chain context (Hpriced Hn))
      as (_ & Hne & _).
    exfalso. eapply Hne. fold result. rewrite E. reflexivity.
  - split.
    + intros Hm. rewrite (Hmiss Hm). eauto.
    + intros (e & t & c & E).
      destruct (price_missing_dec market_data) as [Hm|Hn]; [exact Hm|].
      destruct (analyze_priced get_market_data agent_analyze synthesize_signals
                  _generate_summary self token chain context (Hpriced Hn))
        as (_ & Hne & _).
      exfalso. exact (Hne _ _ _ E).
  - intros Hn.
    destruct (analyze_priced get_market_data agent_analyze synthesize_signals
                _generate_summary self token chain context (Hpriced Hn))
      as (Hout & _ & Hb).
    split; assumption.
Qed.

(** C7 as stated fails: a snapshot that contains a price field whose value is
    0 makes the pipeline return the error result. *)
Lemma analyze_zero_price_is_error :
  Scenario.zero_price_snapshot "SOL" "solana" !! "price" = Some (PyNum 0)
  /\ analyze Scenario.zero_price_snapshot Scenario.agent_analyze
       Scenario.synthesize_signals Scenario._generate_summary
       (__post_init__ "full" true) "SOL" "solana" None
     = (Ok (ErrorResult "Could not fetch market data for SOL" "SOL" "solana"), []).
Proof.
  split.
  - unfold Scenario.zero_price_snapshot. apply lookup_insert_eq.
  - unfold analyze, dict_get, Scenario.zero_price_snapshot.
    rewrite lookup_insert_eq. reflexivity.
Qed.

(** With a price, the same graph proceeds: both rosters run, the two failing
    agents are reported and dropped, and a bundle is returned. *)
Lemma analyze_priced_snapshot_proceeds :
  exists b,
    analyze Scenario.priced_snapshot Scenario.agent_analyze
      Scenario.synthesize_signals Scenario._generate_summary
      (__post_init__ "full" true) "SOL" "solana" None
    = (Ok (Analysis b),
       ["Agent error: completion timed out"; "Agent error: completion timed out"])
    /\ map sd_agent (ab_agent_signals b)
       = ["Warren Buffett"; "Analyst"; "Analyst"; "Analyst";
          "Degen"; "Analyst"; "Analyst"; "Analyst"].
Proof.
  eexists. split.
  - unfold analyze, dict_get, Scenario.priced_snapshot.
    rewrite lookup_insert_eq. cbn [default truthy negb].
    rewrite !run_agents_parallel_signals. cbn [fst snd].
    unfold management_agent, __post_init__. cbn [_management_agents].
    rewrite lookup_insert_ne by discriminate. rewrite !lookup_insert_eq.
    cbn. reflexivity.
  - reflexivity.
Qed.

(** *** The quick pipeline *)

Lemma length_omap_le {A B} (f : A -> option B) (l : list A) :
  (length (omap f l) <= length l)%nat.
Proof.
  induction l as [|x l IH]; [reflexivity|].
  cbn. destruct (f x); cbn; lia.
Qed.

(** X11. The quick pipeline returns its error result (token only, nothing
    printed) when the price is missing; otherwise it joins the fixed roster
    degen, on-chain analyst, risk manager, whatever the mode of the graph,
    so that it reports at most three signals in that order, with their
    sentiment and average confidence and the truthy price it found.  The
    risk manager is one of the joined strategies here, so its failure is
    dropped like any other. *)
Theorem quick_signal_outcome get_market_data agent_analyze _generate_quick_take
    (self : TradingGraph) (token chain : string) :
  let market_data := get_market_data token chain in
  let outcomes :=
    gather agent_analyze [DegenAgent; OnChainAnalystAgent; RiskManagerAgent]
      token market_data None in
  let run g :=
    quick_signal get_market_data agent_analyze _generate_quick_take g token chain in
  (price_missing market_data ->
     run self = (QuickError ("No data for " +:+ token) token, []))
  /\ (~ price_missing market_data ->
       exists b,
         run self = (Quick b, failure_lines (show_reasoning self) outcomes)
         /\ qb_signals b = map _signal_to_dict (omap signal_of outcomes)
         /\ (length (qb_signals b) <= 3)%nat
         /\ qb_sentiment b = _calculate_sentiment (omap signal_of outcomes)
         /\ qb_confidence b = avg_confidence (omap signal_of outcomes)
         /\ qb_price b = dict_get market_data "price"
         /\ truthy (qb_price b) = true)
  /\ (forall other,
        show_reasoning other = show_reasoning self -> run other = run self).
Proof.
  intros market_data outcomes run. subst run. cbn beta.
  split; [|split].
  - intros Hm. apply price_missing_falsy in Hm.
    unfold quick_signal. fold market_data. rewrite Hm. reflexivity.
  - intros Hn. rewrite price_missing_falsy in Hn.
    destruct (truthy (dict_get market_data "price")) eqn:Hp; [|congruence].
    unfold quick_signal. fold market_data. rewrite Hp. cbn [negb].
    rewrite run_agents_parallel_signals. cbn [fst snd]. fold outcomes.
    eexists. split; [reflexivity|].
    cbn [qb_signals qb_sentiment qb_confidence qb_price].
    repeat split; try exact Hp.
    rewrite length_map.
    etransitivity; [apply length_omap_le|]. subst outcomes. unfold gather.
    rewrite length_map. cbn. lia.
  - intros other Hshow. unfold quick_signal.
    destruct (negb (truthy (dict_get (get_market_data token chain) "price")));
      [reflexivity|].
    rewrite !run_agents_parallel_signals, Hshow. reflexivity.
Qed.

Lemma quick_signal_outcome_witness :
  ~ price_missing (Scenario.priced_snapshot "SOL" "solana")
  /\ exists b,
       quick_signal Scenario.priced_snapshot Scenario.agent_analyze
         (fun _ _ _ => "") (__post_init__ "degen" true) "SOL" "solana"
       = (Quick b, [])
       /\ map sd_agent (qb_signals b) = ["Degen"; "Analyst"; "Risk Manager"].
Proof.
  assert (Hn : ~ price_missing (Scenario.priced_snapshot "SOL" "solana")).
  { rewrite price_missing_falsy. unfold dict_get, Scenario.priced_snapshot.
    rewrite lookup_insert_eq. cbn. discriminate. }
  split; [exact Hn|].
  destruct (proj1 (proj2 (quick_signal_outcome Scenario.priced_snapshot
                            Scenario.agent_analyze (fun _ _ _ => "")
                            (__post_init__ "degen" true) "SOL" "solana")) Hn)
    as (b & Hrun & Hsig & _).
  exists b. split; [exact Hrun|]. rewrite Hsig. reflexivity.
Defined.

(** *** Failures of the management stage *)

Lemma post_init_management (mode : string) (show : bool) :
  management_agent (__post_init__ mode show) "risk" = Ok RiskManagerAgent
  /\ management_agent (__post_init__ mode show) "portfolio" = Ok PortfolioManagerAgent.
Proof.
  unfold management_agent, __post_init__. cbn [_management_agents].
  rewrite lookup_insert_ne by discriminate. rewrite !lookup_insert_eq.
  split; reflexivity.
Qed.

Lemma analyze_priced_unfold get_market_data agent_analyze synthesize_signals
    _generate_summary (mode : string) (show : bool) (token chain : string)
    (context : option (gmap string PyValue)) :
  let self := __post_init__ mode show in
  let market_data := get_market_data token chain in
  let signals :=
    omap signal_of
      (gather agent_analyze (_persona_agents self ++ _crypto_agents self)
         token market_data context) in
  ~ price_missing market_data ->
  (analyze get_market_data agent_analyze synthesize_signals _generate_summary
     self token chain context).1
  = (let* risk_assessment :=
       await (agent_analyze RiskManagerAgent token market_data
                (Some (risk_context context signals))) in
     let* final_decision :=
       synthesize_signals token market_data signals risk_assessment context in
     let* risk_dict := signal_to_dict_obj risk_assessment in
     Ok (Analysis
           {| ab_token := token;
              ab_chain := chain;
              ab_market_data := market_data;
              ab_agent_signals := map _signal_to_dict signals;
              ab_risk_assessment := risk_dict;
              ab_final_decision := final_decision;
              ab_summary := _generate_summary signals final_decision |})).
Proof.
  intros self market_data signals Hn. rewrite price_missing_falsy in Hn.
  destruct (truthy (dict_get market_data "price")) eqn:Hp; [|congruence].
  unfold analyze. fold market_data. rewrite Hp. cbn [negb fst snd].
  rewrite !run_agents_parallel_signals. cbn [fst snd].
  destruct (post_init_management mode show) as [Hr Hpf]. fold self in Hr, Hpf.
  rewrite Hr, Hpf. cbn [bind].
  subst signals. rewrite gather_app, omap_app. reflexivity.
Qed.

(** X12. Failures of the management stage are not isolated: with a price in
    the snapshot, if the risk manager's invocation raises, or if it returns
    and the decision synthesis raises, the full analysis raises that same
    exception instead of returning a bundle, although every roster strategy
    may have succeeded. *)
Theorem analyze_management_failure get_market_data agent_analyze
    synthesize_signals _generate_summary (mode : string) (show : bool)
    (token chain : string) (context : option (gmap string PyValue))
    (e : PyException) :
  let self := __post_init__ mode show in
  let market_data := get_market_data token chain in
  let signals :=
    omap signal_of
      (gather agent_analyze (_persona_agents self ++ _crypto_agents self)
         token market_data context) in
  ~ price_missing market_data ->
  agent_analyze RiskManagerAgent token market_data
    (Some (risk_context context signals)) = Raised e
  \/ (exists v,
        agent_analyze RiskManagerAgent token market_data
          (Some (risk_context context signals)) = Returned v
        /\ synthesize_signals token market_data signals v context = Raise e) ->
  (analyze get_market_data agent_analyze synthesize_signals _generate_summary
     self token chain context).1 = Raise e.
Proof.
  cbn zeta. intros Hn Hfail.
  rewrite (analyze_priced_unfold get_market_data agent_analyze synthesize_signals
             _generate_summary mode show token chain context Hn).
  destruct Hfail as [-> | (v & -> & Hs)]; cbn [await bind]; [reflexivity|].
  rewrite Hs. reflexivity.
Qed.

Lemma analyze_management_failure_witness :
  ~ price_missing (Scenario.priced_snapshot "SOL" "solana")
  /\ (analyze Scenario.priced_snapshot Scenario.risk_down
        Scenario.synthesize_signals Scenario._generate_summary
        (__post_init__ "fast" false) "SOL" "solana" None).1
     = Raise {| exc_class := RuntimeError; exc_str := "risk completion failed" |}.
Proof.
  assert (Hn : ~ price_missing (Scenario.priced_snapshot "SOL" "solana")).
  { rewrite price_missing_falsy. unfold dict_get, Scenario.priced_snapshot.
    rewrite lookup_insert_eq. cbn. discriminate. }
  split; [exact Hn|].
  apply (analyze_management_failure Scenario.priced_snapshot Scenario.risk_down
           Scenario.synthesize_signals Scenario._generate_summary
           "fast" false "SOL" "solana" None _ Hn).
  left. reflexivity.
Defined.

(** X13. When every strategy of both rosters fails, the full analysis still
    runs the management stage: the risk manager is asked with an aggregate
    sentiment of neutral and an average confidence of 0, and when it and the
    synthesis answer, the bundle is returned with an empty signal list. *)
Theorem analyze_all_strategies_fail get_market_data agent_analyze
    synthesize_signals _generate_summary (mode : string) (show : bool)
    (token chain : string) (context : option (gmap string PyValue))
    (risk : AgentSignal) (decision : gmap string PyValue) :
  let self := __post_init__ mode show in
  let market_data := get_market_data token chain in
  ~ price_missing market_data ->
  Forall (fun a => signal_of (agent_analyze a token market_data context) = None)
    (_persona_agents self ++ _crypto_agents self) ->
  agent_analyze RiskManagerAgent token market_data
    (Some (risk_context context [])) = Returned (ObjAgentSignal risk) ->
  synthesize_signals token market_data [] (ObjAgentSignal risk) context
    = Ok decision ->
  (analyze get_market_data agent_analyze synthesize_signals _generate_summary
     self token chain context).1
  = Ok (Analysis
          {| ab_token := token;
             ab_chain := chain;
             ab_market_data := market_data;
             ab_agent_signals := [];
             ab_risk_assessment := _signal_to_dict risk;
             ab_final_decision := decision;
             ab_summary := _generate_summary [] decision |})
  /\ risk_context context [] !! "aggregate_sentiment" = Some (PyStr "neutral")
  /\ risk_context context [] !! "avg_confidence" = Some (PyNum 0).
Proof.
  cbn zeta. intros Hn Hall Hrisk Hsyn.
  split; [|exact (conj (proj2 (risk_context_entries context []))
                       (proj1 (risk_context_entries context [])))].
  rewrite (analyze_priced_unfold get_market_data agent_analyze synthesize_signals
             _generate_summary mode show token chain context Hn).
  assert (Hnone : omap signal_of
                    (gather agent_analyze
                       (_persona_agents (__post_init__ mode show)
                        ++ _crypto_agents (__post_init__ mode show))
                       token (get_market_data token chain) context) = []).
  { unfold gather. induction Hall as [|a l Ha _ IH]; [reflexivity|].
    cbn. rewrite Ha. exact IH. }
  rewrite Hnone, Hrisk. cbn [await bind]. rewrite Hsyn. reflexivity.
Qed.

Lemma analyze_all_strategies_fail_witness :
  ~ price_missing (Scenario.priced_snapshot "SOL" "solana")
  /\ exists b,
       (analyze Scenario.priced_snapshot Scenario.rosters_down
          Scenario.synthesize_signals Scenario._generate_summary
          (__post_init__ "full" false) "SOL" "solana" None).1 = Ok (Analysis b)
       /\ ab_agent_signals b = [].
Proof.
  assert (Hn : ~ price_missing (Scenario.priced_snapshot "SOL" "solana")).
  { rewrite price_missing_falsy. unfold dict_get, Scenario.priced_snapshot.
    rewrite lookup_insert_eq. cbn. discriminate. }
  split; [exact Hn|].
  eexists. split.
  - apply (analyze_all_strategies_fail Scenario.priced_snapshot
             Scenario.rosters_down Scenario.synthesize_signals
             Scenario._generate_summary "full" false "SOL" "solana" None
             (mk_signal "Risk Manager" "neutral" 60)
             (<["action" := PyStr "hold"]> ∅) Hn).
    + repeat constructor.
    + reflexivity.
    + reflexivity.
  - reflexivity.
Defined.

(** *** Rosters for any mode string *)

(** X14. For any mode string the rosters are those of full, degen or fast,
    every string other than full and degen being treated as fast; no
    strategy occurs twice in them, the two management strategies are not
    among them, and the two base personas and the degen and chain
    specialists run in every mode. *)
Theorem post_init_any_mode (mode : string) (show : bool) :
  let g := __post_init__ mode show in
  let canonical : string :=
    if decide (mode = "full") then "full"
    else if decide (mode = "degen") then "degen" else "fast" in
  _persona_agents g = _persona_agents (__post_init__ canonical show)
  /\ _crypto_agents g = _crypto_agents (__post_init__ canonical show)
  /\ NoDup (_persona_agents g ++ _crypto_agents g)
  /\ (RiskManagerAgent ∉ (_persona_agents g ++ _crypto_agents g))
  /\ (PortfolioManagerAgent ∉ (_persona_agents g ++ _crypto_agents g))
  /\ ([WarrenBuffettAgent; MichaelBurryAgent] ⊆ _persona_agents g)
  /\ ([DegenAgent; SolanaSpecialistAgent] ⊆ _crypto_agents g).
Proof.
  intros g canonical. subst g canonical.
  assert (Hcases : forall m : string,
            m = "full" \/ m = "degen" \/ m = "fast" ->
            NoDup (_persona_agents (__post_init__ m show)
                   ++ _crypto_agents (__post_init__ m show))
            /\ (RiskManagerAgent ∉ (_persona_agents (__post_init__ m show)
                                    ++ _crypto_agents (__post_init__ m show)))
            /\ (PortfolioManagerAgent ∉ (_persona_agents (__post_init__ m show)
                                         ++ _crypto_agents (__post_init__ m show)))
            /\ ([WarrenBuffettAgent; MichaelBurryAgent]
                  ⊆ _persona_agents (__post_init__ m show))
            /\ ([DegenAgent; SolanaSpecialistAgent]
                  ⊆ _crypto_agents (__post_init__ m show))).
  { intros m [-> | [-> | ->]]; cbn;
      repeat split; apply (bool_decide_unpack _); vm_compute; exact I. }
  destruct (decide (mode = "full")) as [-> | Hf].
  - split; [reflexivity|]. split; [reflexivity|]. apply Hcases. auto.
  - destruct (decide (mode = "degen")) as [-> | Hd].
    + split; [reflexivity|]. split; [reflexivity|]. apply Hcases. auto.
    + destruct (post_init_other_mode mode show Hf Hd) as [Hp Hc].
      split; [exact Hp|]. split; [exact Hc|]. rewrite Hp, Hc.
      apply Hcases. auto.
Qed.

End TradingGraphFacts.

(** ** Properties of the backtest simulator *)
Module EngineFacts.
Import Py Engine EngineSpec QFacts.
Local Open Scope Q_scope.

(** *** The exit check *)




Lemma exit_branch_some (self : BacktestEngine) (u : Q) :
  u <= - stop_loss_pct self \/ take_profit_pct self <= u ->
  exists k, exit_branch self u = Some k.
Proof.
  intros H. unfold exit_branch.
  destruct (Qle_bool u (- stop_loss_pct self)) eqn:Es; [eauto|].
  destruct H as [H|H].
  - apply Qle_bool_iff in H. congruence.
  - apply Qle_bool_iff in H. rewrite H. eauto.
Qed.

Lemma check_position_holding (self : BacktestEngine) (candle : Candle)
    (st : LoopState) (pos : Trade) (u : Q) :
  position st = Some pos ->
  unrealized_pnl_pct pos (c_close candle) = Ok u ->
  check_position self candle st =
    match exit_branch self u with
    | Some _ =>
      Ok (realize st (close_position pos (c_close candle) (c_timestamp candle) u))
    | None => Ok st
    end.
Proof.
  intros Hp Hu. unfold check_position. rewrite Hp, Hu. cbn [bind].
  destruct (exit_branch self u) as [[|]|]; reflexivity.
Qed.

Lemma unrealized_buy (pos : Trade) (current_price u : Q) :
  action pos = "buy" ->
  unrealized_pnl_pct pos current_price = Ok u ->
  ~ price pos == 0 /\ u = (current_price - price pos) / price pos * 100.
Proof.
  intros Ha. unfold unrealized_pnl_pct. rewrite Ha. cbn [String.eqb].
  change ("buy" =? "buy")%string with true. cbn iota.
  destruct (truediv _ _) as [r|] eqn:E; [|discriminate].
  cbn [bind]. intros [= <-]. apply truediv_inv in E as [Hn ->]. auto.
Qed.




(** *** The signal scan *)

Lemma qualifies_iff (candle : Candle) (signal : Signal) :
  qualifies candle signal <-> qualifiesb candle signal = true.
Proof.
  unfold qualifies, qualifiesb, in_window, tradeable.
  rewrite !andb_true_iff. cbn [existsb]. rewrite !orb_true_iff, !String.eqb_eq.
  rewrite Qle_bool_iff.
  destruct (sig_timestamp signal) as [t|].
  - rewrite Qlt_bool_iff. split.
    + intros [(t' & [= <-] & Ht) [Hc Ha]]. tauto.
    + intros [Ht [Hc Ha]]. split; [eauto|]. split; [exact Hc|].
      destruct Ha as [Ha|[Ha|Ha]]; auto; discriminate.
  - split.
    + intros [(t' & Ht & _) _]. discriminate.
    + intros [Ht _]. discriminate.
Qed.

Lemma Exists_qualifies_find (candle : Candle) (signals : list Signal) :
  Exists (qualifies candle) signals ->
  exists signal,
    List.find (qualifiesb candle) signals = Some signal
    /\ qualifies candle signal /\ In signal signals.
Proof.
  induction 1 as [s l Hs|s l _ IH]; cbn [List.find].
  - exists s. apply qualifies_iff in Hs as Hb. rewrite Hb.
    split; [reflexivity|]. split; [exact Hs|left; reflexivity].
  - destruct (qualifiesb candle s) eqn:Hb.
    + exists s. split; [reflexivity|]. split; [apply qualifies_iff; exact Hb|].
      left; reflexivity.
    + destruct IH as (s' & Hf & Hq & Hin). exists s'.
      split; [exact Hf|]. split; [exact Hq|right; exact Hin].
Qed.

(** A new position is opened only when none is open. *)
Lemma scan_signal_holding (self : BacktestEngine) (token_id : string)
    (candle : Candle) (b : Q) (p : Trade) (signal : Signal) :
  scan_signal self token_id candle (b, Some p) signal = (b, Some p).
Proof.
  unfold scan_signal. destruct (in_window signal candle); [|reflexivity].
  cbn [snd]. rewrite bool_decide_true by eauto.
  rewrite andb_false_r. reflexivity.
Qed.

Lemma scan_signals_holding (self : BacktestEngine) (token_id : string)
    (candle : Candle) (signals : list Signal) (b : Q) (p : Trade) :
  fold_left (scan_signal self token_id candle) signals (b, Some p) = (b, Some p).
Proof.
  induction signals as [|s l IH]; [reflexivity|].
  cbn [fold_left]. rewrite scan_signal_holding. exact IH.
Qed.

Lemma scan_signal_flat (self : BacktestEngine) (token_id : string)
    (candle : Candle) (b : Q) (signal : Signal) :
  scan_signal self token_id candle (b, None) signal =
    if qualifiesb candle signal
    then (b - b * (position_size_pct self / 100),
          Some (opened self token_id candle b signal))
    else (b, None).
Proof.
  unfold scan_signal, qualifiesb.
  destruct (in_window signal candle); [|reflexivity].
  cbn [snd fst andb]. rewrite bool_decide_false by (intros [? ?]; discriminate).
  rewrite andb_true_r. destruct (tradeable signal); reflexivity.
Qed.

(** Only the first qualifying signal of the timeline opens a position. *)
Lemma scan_signals_flat (self : BacktestEngine) (token_id : string)
    (candle : Candle) (signals : list Signal) (b : Q) :
  fold_left (scan_signal self token_id candle) signals (b, None) =
    match List.find (qualifiesb candle) signals with
    | Some signal =>
      (b - b * (position_size_pct self / 100),
       Some (opened self token_id candle b signal))
    | None => (b, None)
    end.
Proof.
  induction signals as [|s l IH]; [reflexivity|].
  cbn [fold_left List.find]. rewrite scan_signal_flat.
  destruct (qualifiesb candle s).
  - apply scan_signals_holding.
  - exact IH.
Qed.

Lemma unrealized_at_entry (self : BacktestEngine) (token_id : string)
    (candle : Candle) (b : Q) (signal : Signal) :
  ~ c_close candle == 0 ->
  unrealized_pnl_pct (opened self token_id candle b signal) (c_close candle)
  = Ok ((c_close candle - c_close candle) / c_close candle * 100).
Proof.
  intros Hn. unfold unrealized_pnl_pct. cbn [action opened price].
  change ("buy" =? "buy")%string with true. cbn iota.
  rewrite truediv_ok by exact Hn. reflexivity.
Qed.

(** The exit check of a bar runs before its signal scan: a bar that
    triggers an exit and carries a qualifying signal closes the position and
    opens the next one. *)
Lemma process_candle_exit_reopen (self : BacktestEngine) (token_id : string)
    (signals : list Signal) (st : LoopState) (candle : Candle)
    (pos : Trade) (u : Q) :
  position st = Some pos ->
  unrealized_pnl_pct pos (c_close candle) = Ok u ->
  u <= - stop_loss_pct self \/ take_profit_pct self <= u ->
  Exists (qualifies candle) signals ->
  ~ c_close candle == 0 ->
  exists st' signal,
    process_candle self token_id signals st candle = Ok st'
    /\ trades st' =
       trades st ++ [close_position pos (c_close candle) (c_timestamp candle) u]
    /\ List.find (qualifiesb candle) signals = Some signal
    /\ qualifies candle signal
    /\ position st' =
       Some (opened self token_id candle
               (balance st + (size pos + size pos * (u / 100))) signal)
    /\ balance st' =
       balance st + (size pos + size pos * (u / 100))
       - (balance st + (size pos + size pos * (u / 100)))
         * (position_size_pct self / 100).
Proof.
  intros Hp Hu Hx Hq Hn.
  destruct (exit_branch_some self u Hx) as [k Hk].
  destruct (Exists_qualifies_find candle signals Hq) as (signal & Hf & Hs & _).
  unfold process_candle.
  rewrite (check_position_holding self candle st pos u Hp Hu), Hk. cbn [bind].
  unfold scan_signals. cbn [balance position realize].
  rewrite scan_signals_flat, Hf. cbn [fst snd].
  unfold track_equity, current_equity. cbn [position balance].
  rewrite unrealized_at_entry by exact Hn. cbn [bind].
  eexists. exists signal.
  split; [reflexivity|]. cbn [trades realize position balance].
  split; [reflexivity|]. split; [reflexivity|]. split; [exact Hs|].
  split; reflexivity.
Qed.

(** *** Running the whole backtest *)

Lemma bind_ok_inv {A B} (r : result A) (k : A -> result B) (b : B) :
  bind r k = Ok b -> exists a, r = Ok a /\ k a = Ok b.
Proof.
  destruct r as [a|e]; cbn; [eauto|discriminate].
Qed.

Tactic Notation "bind_inv" hyp(H) ident(x) ident(Hx) :=
  apply bind_ok_inv in H; destruct H as (x & Hx & H).

Lemma fetch_historical_data_failures :
  fetch_historical_data HttpError = []
  /\ (forall status_code json,
        status_code <> 200%Z ->
        fetch_historical_data (HttpResponse status_code json) = [])
  /\ fetch_historical_data (HttpResponse 200 None) = []
  /\ (forall data,
        mapM parse_row data = None ->
        fetch_historical_data (HttpResponse 200 (Some data)) = [])
  /\ fetch_historical_data (HttpResponse 200 (Some [])) = [].
Proof.
  split; [reflexivity|]. split; [|split; [reflexivity|split; [|reflexivity]]].
  - intros status_code json Hs. unfold fetch_historical_data.
    apply Z.eqb_neq in Hs. rewrite Hs. reflexivity.
  - intros data Hd. unfold fetch_historical_data. cbn [Z.eqb negb].
    change (200 =? 200)%Z with true. cbn [negb]. rewrite Hd. reflexivity.
Qed.

Lemma in_datetime_range_iff (t : Q) :
  in_datetime_range t = true <-> datetime_min <= t <= datetime_max.
Proof.
  unfold in_datetime_range. rewrite andb_true_iff, !Qle_bool_iff. reflexivity.
Qed.

(** The date arithmetic of the branch taken without candles succeeds exactly
    when the start date exists, and fails with [OverflowError] otherwise. *)
Lemma start_date_cases (t : Q) (days : Z) :
  (days_before_exists t days ->
     (let* delta := timedelta days in datetime_sub t delta)
     = Ok (t - inject_Z days * 86400))
  /\ (~ days_before_exists t days ->
        exists e,
          (let* delta := timedelta days in datetime_sub t delta) = Raise e
          /\ exc_class e = OverflowError).
Proof.
  unfold days_before_exists, timedelta, datetime_sub.
  destruct (Z.leb_spec (Z.abs days) 999999999) as [Hd|Hd]; cbn [bind].
  - destruct (in_datetime_range (t - inject_Z days * 86400)) eqn:Hr.
    + split; [reflexivity|]. intros Hn. exfalso. apply Hn.
      split; [exact Hd|]. apply in_datetime_range_iff. exact Hr.
    + split.
      * intros [_ Hin]. apply in_datetime_range_iff in Hin. congruence.
      * intros _. eexists. split; reflexivity.
  - split.
    + intros [Hle _]. lia.
    + intros _. eexists. split; reflexivity.
Qed.

(** The run on an empty series. *)
Lemma run_backtest_empty pow_half now http_get
    (self : BacktestEngine) (token_id : string) (signals : list Signal) (days : Z) :
  fetch_historical_data
    (http_get (COINGECKO_BASE +:+ "/coins/" +:+ token_id +:+ "/ohlc") days) = [] ->
  run_backtest pow_half now http_get self token_id signals days
  = let* start := (let* delta := timedelta days in datetime_sub (now 0%nat) delta) in
    Ok {| res_token := token_id;
          start_date := start;
          end_date := now 1%nat;
          res_initial_balance := initial_balance self;
          final_balance := initial_balance self;
          total_pnl := 0;
          total_pnl_pct := 0;
          total_trades := 0%nat;
          winning_trades := 0%nat;
          losing_trades := 0%nat;
          win_rate := 0;
          max_drawdown := 0;
          sharpe_ratio := 0;
          res_trades := [];
          res_equity_curve := [] |}.
Proof.
  intros Hf. unfold run_backtest. rewrite Hf.
  destruct (timedelta days); reflexivity.
Qed.

(** What a successful run on an empty series returned. *)
Lemma run_backtest_empty_inv pow_half now http_get
    (self : BacktestEngine) (token_id : string) (signals : list Signal) (days : Z)
    (r : BacktestResult) :
  fetch_historical_data
    (http_get (COINGECKO_BASE +:+ "/coins/" +:+ token_id +:+ "/ohlc") days) = [] ->
  run_backtest pow_half now http_get self token_id signals days = Ok r ->
  exists start,
    r = {| res_token := token_id;
           start_date := start;
           end_date := now 1%nat;
           res_initial_balance := initial_balance self;
           final_balance := initial_balance self;
           total_pnl := 0;
           total_pnl_pct := 0;
           total_trades := 0%nat;
           winning_trades := 0%nat;
           losing_trades := 0%nat;
           win_rate := 0;
           max_drawdown := 0;
           sharpe_ratio := 0;
           res_trades := [];
           res_equity_curve := [] |}.
Proof.
  intros Hf H. rewrite (run_backtest_empty _ _ _ _ _ _ _ Hf) in H.
  bind_inv H start Hs. injection H as <-. eauto.
Qed.

(** C9 (as amended). When no historical candles can be obtained and the
    date [days] days before the current time exists (at most 999999999 days,
    and a year between 1 and 9999), the run does not raise: it returns a
    result with no trades, zero win rate, drawdown and Sharpe ratio, and a
    final balance equal to the initial one.  When that date does not exist
    the run raises [OverflowError]. *)
Theorem run_backtest_without_candles pow_half now http_get
    (self : BacktestEngine) (token_id : string) (signals : list Signal) (days : Z) :
  fetch_historical_data
    (http_get (COINGECKO_BASE +:+ "/coins/" +:+ token_id +:+ "/ohlc") days) = [] ->
  (days_before_exists (now 0%nat) days ->
   exists r,
     run_backtest pow_half now http_get self token_id signals days = Ok r
     /\ total_trades r = 0%nat
     /\ winning_trades r = 0%nat
     /\ losing_trades r = 0%nat
     /\ win_rate r = 0
     /\ max_drawdown r = 0
     /\ sharpe_ratio r = 0
     /\ final_balance r = initial_balance self
     /\ res_initial_balance r = initial_balance self
     /\ total_pnl r = 0
     /\ res_trades r = []
     /\ res_equity_curve r = []
     /\ start_date r = now 0%nat - inject_Z days * 86400
     /\ end_date r = now 1%nat)
  /\ (~ days_before_exists (now 0%nat) days ->
      exists e,
        run_backtest pow_half now http_get self token_id signals days = Raise e
        /\ exc_class e = OverflowError).
Proof.
  intros Hf. rewrite (run_backtest_empty _ _ _ _ _ _ _ Hf).
  destruct (start_date_cases (now 0%nat) days) as [Hok Hraise].
  split.
  - intros Hd. rewrite (Hok Hd). cbn [bind].
    eexists. split; [reflexivity|]. cbn. repeat split.
  - intros Hd. destruct (Hraise Hd) as (e & -> & He). cbn [bind]. eauto.
Qed.

Lemma run_backtest_without_candles_witness :
  fetch_historical_data
    (BacktestScenario.not_found
       (COINGECKO_BASE +:+ "/coins/" +:+ "solana" +:+ "/ohlc") 30) = []
  /\ days_before_exists (BacktestScenario.now 0%nat) 30
  /\ exists r,
       run_backtest BacktestScenario.pow_half BacktestScenario.now
         BacktestScenario.not_found default_engine "solana"
         BacktestScenario.two_buys 30 = Ok r
       /\ total_trades r = 0%nat
       /\ final_balance r = 10000.
Proof.
  assert (Hf : fetch_historical_data
                 (BacktestScenario.not_found
                    (COINGECKO_BASE +:+ "/coins/" +:+ "solana" +:+ "/ohlc") 30) = [])
    by reflexivity.
  assert (Hd : days_before_exists (BacktestScenario.now 0%nat) 30).
  { split; [vm_compute; discriminate|].
    apply in_datetime_range_iff. vm_compute. reflexivity. }
  split; [exact Hf|]. split; [exact Hd|].
  destruct (proj1 (run_backtest_without_candles BacktestScenario.pow_half
                     BacktestScenario.now BacktestScenario.not_found default_engine
                     "solana" BacktestScenario.two_buys 30 Hf) Hd)
    as (r & Hr & Ht & _ & _ & _ & _ & _ & Hb & _).
  exists r. split; [exact Hr|]. split; [exact Ht|exact Hb].
Defined.

(** C9 as stated fails: the data source answers 404, so that no candle is
    obtained, and the run is asked for a million days; the start date of the
    empty result would lie before the year 1, and the run raises
    [OverflowError] instead of returning a result. *)
Lemma run_backtest_without_candles_overflow :
  fetch_historical_data
    (BacktestScenario.not_found
       (COINGECKO_BASE +:+ "/coins/" +:+ "solana" +:+ "/ohlc") 1000000) = []
  /\ run_backtest BacktestScenario.pow_half BacktestScenario.now
       BacktestScenario.not_found default_engine "solana"
       BacktestScenario.two_buys 1000000
     = Raise {| exc_class := OverflowError; exc_str := "date value out of range" |}
  /\ ~ (exists r,
          run_backtest BacktestScenario.pow_half BacktestScenario.now
            BacktestScenario.not_found default_engine "solana"
            BacktestScenario.two_buys 1000000 = Ok r).
Proof.
  assert (E : run_backtest BacktestScenario.pow_half BacktestScenario.now
                BacktestScenario.not_found default_engine "solana"
                BacktestScenario.two_buys 1000000
              = Raise {| exc_class := OverflowError;
                         exc_str := "date value out of range" |})
    by (vm_compute; reflexivity).
  split; [reflexivity|]. split; [exact E|].
  intros [r Hr]. rewrite E in Hr. discriminate.
Qed.

(** *** Win rate *)

(** The division by the number of trades is guarded: the win rate is always
    computed. *)
Lemma win_rate_of_total (trades : list Trade) :
  exists w,
    win_rate_of trades = Ok w
    /\ (trades = [] -> w = 0)
    /\ (trades <> [] -> w = len (winning trades) / len trades * 100).
Proof.
  destruct trades as [|t l].
  - exists 0. repeat split; intros; congruence.
  - unfold win_rate_of.
    rewrite truediv_ok.
    + eexists. split; [reflexivity|]. split; [discriminate|reflexivity].
    + intros E. pose proof (len_pos t l) as Hl. rewrite E in Hl.
      exact (Qlt_irrefl 0 Hl).
Qed.

Lemma run_backtest_win_rate_total_trades pow_half now http_get
    (self : BacktestEngine) (token_id : string) (signals : list Signal) (days : Z)
    (r : BacktestResult) :
  run_backtest pow_half now http_get self token_id signals days = Ok r ->
  total_trades r = length (res_trades r)
  /\ winning_trades r = length (winning (res_trades r))
  /\ losing_trades r = length (losing (res_trades r))
  /\ win_rate_of (res_trades r) = Ok (win_rate r).
Proof.
  unfold run_backtest.
  destruct (fetch_historical_data _) as [|first rest].
  - intros H. bind_inv H delta Hd. bind_inv H start Hs. injection H as <-.
    cbn. repeat split.
  - intros H.
    bind_inv H st0 H0. bind_inv H st H1. bind_inv H w Hw.
    bind_inv H dd Hdd. bind_inv H sh Hsh. bind_inv H fin Hfin.
    bind_inv H pct Hpct. injection H as <-. cbn.
    repeat split. exact Hw.
Qed.

(** C5 (as amended). The reported win rate is the percentage of winning
    trades, [winning / total * 100], and 0 when there is no trade; the
    division by the number of trades is never performed on zero. *)
Theorem run_backtest_win_rate pow_half now http_get
    (self : BacktestEngine) (token_id : string) (signals : list Signal) (days : Z)
    (r : BacktestResult) :
  run_backtest pow_half now http_get self token_id signals days = Ok r ->
  total_trades r = length (res_trades r)
  /\ winning_trades r = length (winning (res_trades r))
  /\ win_rate_of (res_trades r) = Ok (win_rate r)
  /\ (total_trades r = 0%nat -> win_rate r = 0)
  /\ (total_trades r <> 0%nat ->
       win_rate r =
         inject_Z (Z.of_nat (winning_trades r)) / inject_Z (Z.of_nat (total_trades r))
         * 100)
  /\ (forall trades, exists w, win_rate_of trades = Ok w).
Proof.
  intros Hrun.
  destruct (run_backtest_win_rate_total_trades _ _ _ _ _ _ _ r Hrun)
    as (Ht & Hwin & _ & Hw).
  destruct (win_rate_of_total (res_trades r)) as (w' & Hw' & Hnil & Hcons).
  rewrite Hw in Hw'. injection Hw' as <-.
  split; [exact Ht|]. split; [exact Hwin|]. split; [exact Hw|].
  rewrite Ht, Hwin. split; [|split].
  - intros Hl. apply Hnil. destruct (res_trades r); [reflexivity|discriminate].
  - intros Hl. apply Hcons. intros E. rewrite E in Hl. contradiction.
  - intros l. destruct (win_rate_of_total l) as (w & Hl & _). eauto.
Qed.

(** The three-bar scenario, run from end to end: the first trade is stopped
    out at the second bar, where the second trade is entered; one of the two
    trades wins. *)
Lemma run_backtest_drop_then_rally :
  exists r,
    run_backtest BacktestScenario.pow_half BacktestScenario.now
      BacktestScenario.drop_then_rally default_engine "solana"
      BacktestScenario.two_buys 30 = Ok r
    /\ total_trades r = 2%nat
    /\ winning_trades r = 1%nat
    /\ losing_trades r = 1%nat
    /\ win_rate r == 50
    /\ final_balance r == 10230
    /\ map close_timestamp (res_trades r) = [Some (3600000 / 1000); Some (7200000 / 1000)]
    /\ map timestamp (res_trades r) = [0 / 1000; 3600000 / 1000]
    /\ map closed (res_trades r) = [true; true].
Proof.
  eexists. split; [vm_compute; reflexivity|].
  cbn [total_trades winning_trades losing_trades win_rate final_balance res_trades].
  repeat split.
Qed.

Lemma run_backtest_win_rate_witness :
  exists r,
    run_backtest BacktestScenario.pow_half BacktestScenario.now
      BacktestScenario.drop_then_rally default_engine "solana"
      BacktestScenario.two_buys 30 = Ok r
    /\ total_trades r = length (res_trades r)
    /\ win_rate_of (res_trades r) = Ok (win_rate r).
Proof.
  destruct run_backtest_drop_then_rally as (r & Hr & _).
  exists r. split; [exact Hr|].
  destruct (run_backtest_win_rate _ _ _ _ _ _ _ r Hr) as (Ht & _ & Hw & _).
  split; [exact Ht|exact Hw].
Defined.

(** C5 as stated fails: with one winner among two trades the reported win
    rate is 50, not the quotient 1/2. *)
Lemma win_rate_is_a_percentage :
  exists r,
    run_backtest BacktestScenario.pow_half BacktestScenario.now
      BacktestScenario.drop_then_rally default_engine "solana"
      BacktestScenario.two_buys 30 = Ok r
    /\ total_trades r = 2%nat
    /\ winning_trades r = 1%nat
    /\ win_rate r == 50
    /\ ~ win_rate r ==
          inject_Z (Z.of_nat (winning_trades r)) / inject_Z (Z.of_nat (total_trades r)).
Proof.
  destruct run_backtest_drop_then_rally as (r & Hr & Ht & Hw & _ & Hrate & _).
  exists r. split; [exact Hr|]. split; [exact Ht|]. split; [exact Hw|].
  split; [exact Hrate|].
  rewrite Ht, Hw, Hrate. cbn. discriminate.
Qed.

(** *** The life cycle of trades *)

Lemma closed_of_close_position (p : Trade) (current_price ts u : Q) :
  closed_of p (close_position p current_price ts u).
Proof. repeat split. Qed.

Lemma lifecycle_initial (self : BacktestEngine) : lifecycle_ok (initial_state self).
Proof.
  split; [constructor|]. intros p H. discriminate.
Qed.

Lemma open_trades_lifecycle (st : LoopState) :
  lifecycle_ok st ->
  open_trades st = option_list (position st)
  /\ (length (open_trades st) <= 1)%nat.
Proof.
  intros [Hall Hpos]. unfold open_trades.
  assert (E : List.filter (fun t => negb (closed t)) (trades st) = []).
  { induction Hall as [|t l Ht _ IH]; [reflexivity|].
    cbn. rewrite Ht. exact IH. }
  rewrite List.filter_app, E. cbn [app].
  destruct (position st) as [p|]; cbn.
  - rewrite (Hpos p eq_refl). cbn. split; [reflexivity|lia].
  - split; [reflexivity|lia].
Qed.

(** What the exit check can do to a state. *)
Lemma check_position_cases (self : BacktestEngine) (candle : Candle)
    (st st' : LoopState) :
  check_position self candle st = Ok st' ->
  st' = st
  \/ exists p u,
       position st = Some p
       /\ unrealized_pnl_pct p (c_close candle) = Ok u
       /\ st' = realize st (close_position p (c_close candle) (c_timestamp candle) u).
Proof.
  unfold check_position. destruct (position st) as [p|] eqn:Hp.
  - intros H. bind_inv H u Hu.
    destruct (exit_branch self u) as [[|]|]; injection H as <-; eauto 6.
  - intros [= <-]. auto.
Qed.

(** What the signal scan can do to a state. *)
Lemma scan_signals_cases (self : BacktestEngine) (token_id : string)
    (signals : list Signal) (candle : Candle) (st : LoopState) :
  trades (scan_signals self token_id signals candle st) = trades st
  /\ equity_curve (scan_signals self token_id signals candle st) = equity_curve st
  /\ match position st with
     | Some p =>
       position (scan_signals self token_id signals candle st) = Some p
       /\ balance (scan_signals self token_id signals candle st) = balance st
     | None =>
       match List.find (qualifiesb candle) signals with
       | Some signal =>
         position (scan_signals self token_id signals candle st)
           = Some (opened self token_id candle (balance st) signal)
         /\ balance (scan_signals self token_id signals candle st)
            = balance st - balance st * (position_size_pct self / 100)
       | None =>
         position (scan_signals self token_id signals candle st) = None
         /\ balance (scan_signals self token_id signals candle st) = balance st
       end
     end.
Proof.
  unfold scan_signals. cbn [trades equity_curve position balance].
  split; [reflexivity|]. split; [reflexivity|].
  destruct (position st) as [p|].
  - rewrite scan_signals_holding. auto.
  - rewrite scan_signals_flat.
    destruct (List.find (qualifiesb candle) signals); auto.
Qed.

Lemma track_equity_cases (candle : Candle) (st st' : LoopState) :
  track_equity candle st = Ok st' ->
  trades st' = trades st /\ position st' = position st /\ balance st' = balance st
  /\ exists eq,
       current_equity candle st = Ok eq
       /\ equity_curve st' =
          equity_curve st ++
          [{| ep_timestamp := c_timestamp candle; ep_equity := eq;
              ep_price := c_close candle |}].
Proof.
  unfold track_equity. intros H. bind_inv H eq Heq. injection H as <-.
  cbn. eauto 6.
Qed.

Lemma tracked_realize (p q : Trade) (st : LoopState) (current_price ts u : Q) :
  position st = Some q ->
  tracked p st -> tracked p (realize st (close_position q current_price ts u)).
Proof.
  intros Hq [Hp|(t & Hin & Hc)]; right; cbn [realize trades].
  - rewrite Hq in Hp. injection Hp as ->.
    eexists. split; [|apply closed_of_close_position].
    apply in_or_app. right. left. reflexivity.
  - exists t. split; [|exact Hc]. apply in_or_app. left. exact Hin.
Qed.

Lemma lifecycle_realize (q : Trade) (st : LoopState) (current_price ts u : Q) :
  lifecycle_ok st -> lifecycle_ok (realize st (close_position q current_price ts u)).
Proof.
  intros [Hall _]. split; cbn [realize trades position].
  - apply Forall_app. split; [exact Hall|]. repeat constructor.
  - intros p H. discriminate.
Qed.

(** One bar keeps the life-cycle invariant, only appends to the realized
    trades, and loses no trade. *)
Lemma process_candle_lifecycle (self : BacktestEngine) (token_id : string)
    (signals : list Signal) (st st' : LoopState) (candle : Candle) :
  process_candle self token_id signals st candle = Ok st' ->
  lifecycle_ok st ->
  lifecycle_ok st'
  /\ (exists more, trades st' = trades st ++ more)
  /\ (forall p, tracked p st -> tracked p st').
Proof.
  unfold process_candle. intros H Hinv. bind_inv H st1 H1.
  apply track_equity_cases in H as (Ht & Hp & _ & _).
  destruct (scan_signals_cases self token_id signals candle st1)
    as (Hst & _ & Hsp).
  assert (Hmid : lifecycle_ok st1
                 /\ (exists more, trades st1 = trades st ++ more)
                 /\ (forall p, tracked p st -> tracked p st1)).
  { apply check_position_cases in H1 as [->|(q & u & Hq & _ & ->)].
    - split; [exact Hinv|]. split; [exists []; symmetry; apply app_nil_r|auto].
    - split; [apply lifecycle_realize; exact Hinv|].
      split; [eexists; reflexivity|].
      intros p. apply tracked_realize. exact Hq. }
  destruct Hmid as ([Hall Hclosed] & Hmore & Htr).
  split; [split|split].
  - rewrite Ht, Hst. exact Hall.
  - intros p. rewrite Hp. destruct (position st1) as [q|] eqn:Hq.
    + destruct Hsp as [-> _]. intros [= <-]. apply Hclosed. reflexivity.
    + destruct (List.find (qualifiesb candle) signals); destruct Hsp as [-> _].
      * intros [= <-]. reflexivity.
      * discriminate.
  - rewrite Ht, Hst. exact Hmore.
  - intros p Hp0. apply Htr in Hp0 as [Hp1|(t & Hin & Hc)].
    + left. rewrite Hp. rewrite Hp1 in Hsp. destruct Hsp as [-> _]. reflexivity.
    + right. exists t. rewrite Ht, Hst. auto.
Qed.

Lemma run_candles_app (self : BacktestEngine) (token_id : string)
    (signals : list Signal) (pre post : list Candle) (st : LoopState) :
  run_candles self token_id signals (pre ++ post) st =
    bind (run_candles self token_id signals pre st)
         (run_candles self token_id signals post).
Proof.
  revert st. induction pre as [|c pre IH]; intros st; [reflexivity|].
  cbn [app run_candles].
  destruct (process_candle self token_id signals st c) as [st1|e]; cbn [bind];
    [apply IH|reflexivity].
Qed.

Lemma run_candles_lifecycle (self : BacktestEngine) (token_id : string)
    (signals : list Signal) (candles : list Candle) (st st' : LoopState) :
  run_candles self token_id signals candles st = Ok st' ->
  lifecycle_ok st ->
  lifecycle_ok st'
  /\ (exists more, trades st' = trades st ++ more)
  /\ (forall p, tracked p st -> tracked p st').
Proof.
  revert st. induction candles as [|c l IH]; intros st; cbn [run_candles].
  - intros [= <-] Hinv. split; [exact Hinv|].
    split; [exists []; symmetry; apply app_nil_r|auto].
  - intros H Hinv. bind_inv H st1 H1.
    destruct (process_candle_lifecycle _ _ _ _ _ _ H1 Hinv) as (Hinv1 & [m1 Hm1] & Ht1).
    destruct (IH _ H Hinv1) as (Hinv' & [m2 Hm2] & Ht2).
    split; [exact Hinv'|]. split.
    + exists (m1 ++ m2). rewrite Hm2, Hm1, app_assoc. reflexivity.
    + auto.
Qed.

(** The forced close at the end of the run. *)
Lemma close_remaining_cases (candles : list Candle) (st st' : LoopState) :
  close_remaining candles st = Ok st' ->
  lifecycle_ok st ->
  position st' = None
  /\ Forall (fun t => closed t = true) (trades st')
  /\ (forall p, tracked p st -> exists t, In t (trades st') /\ closed_of p t)
  /\ match position st with
     | Some p =>
       exists final u,
         last candles = Some final
         /\ unrealized_pnl_pct p (c_close final) = Ok u
         /\ trades st' =
            trades st ++ [close_position p (c_close final) (c_timestamp final) u]
     | None => trades st' = trades st
     end.
Proof.
  unfold close_remaining. intros H Hinv.
  destruct (position st) as [q|] eqn:Hq.
  - bind_inv H final Hfin. bind_inv H u Hu. injection H as <-.
    unfold last_candle in Hfin.
    destruct (last candles) as [c|]; [|discriminate]. injection Hfin as ->.
    pose proof (lifecycle_realize q st (c_close final) (c_timestamp final) u Hinv)
      as [Hall _].
    split; [reflexivity|]. split; [exact Hall|]. split.
    + intros p Hp.
      destruct (tracked_realize p q st (c_close final) (c_timestamp final) u Hq Hp)
        as [Hn|Ht]; [discriminate|exact Ht].
    + exists final, u. auto.
  - injection H as <-. destruct Hinv as [Hall _].
    split; [exact Hq|]. split; [exact Hall|]. split; [|reflexivity].
    intros p [Hp|Ht]; [congruence|exact Ht].
Qed.

Lemma close_remaining_inv (candles : list Candle) (st st' : LoopState) :
  close_remaining candles st = Ok st' ->
  match position st with
  | Some p =>
    exists final u,
      last candles = Some final
      /\ unrealized_pnl_pct p (c_close final) = Ok u
      /\ st' = realize st (close_position p (c_close final) (c_timestamp final) u)
  | None => st' = st
  end.
Proof.
  unfold close_remaining. destruct (position st) as [p|].
  - intros H. bind_inv H final Hfin. bind_inv H u Hu. injection H as <-.
    unfold last_candle in Hfin.
    destruct (last candles) as [c|]; [|discriminate]. injection Hfin as ->.
    eauto.
  - intros [= <-]. reflexivity.
Qed.

(** The loop and the forced close inside a successful run. *)
Lemma run_backtest_inv pow_half now http_get
    (self : BacktestEngine) (token_id : string) (signals : list Signal) (days : Z)
    (r : BacktestResult) :
  run_backtest pow_half now http_get self token_id signals days = Ok r ->
  let candles :=
    fetch_historical_data
      (http_get (COINGECKO_BASE +:+ "/coins/" +:+ token_id +:+ "/ohlc") days) in
  exists st0 st,
    run_candles self token_id signals candles (initial_state self) = Ok st0
    /\ (candles = [] /\ st = st0 \/ close_remaining candles st0 = Ok st)
    /\ res_trades r = trades st
    /\ final_balance r = balance st.
Proof.
  unfold run_backtest.
  destruct (fetch_historical_data _) as [|first rest] eqn:Hc.
  - intros H. bind_inv H delta Hd. bind_inv H start Hs. injection H as <-.
    cbn. exists (initial_state self), (initial_state self).
    repeat split. left. split; reflexivity.
  - intros H. cbn zeta.
    bind_inv H st0 H0. bind_inv H st H1. bind_inv H w Hw.
    bind_inv H dd Hdd. bind_inv H sh Hsh. bind_inv H fin Hfin.
    bind_inv H pct Hpct. injection H as <-. cbn.
    exists st0, st. repeat split; auto.
Qed.

(** *** As many trades as positions opened *)

Lemma process_candle_count (self : BacktestEngine) (token_id : string)
    (signals : list Signal) (st st' : LoopState) (candle : Candle) :
  process_candle self token_id signals st candle = Ok st' ->
  (length (trades st') + length (option_list (position st'))
   = length (trades st) + length (option_list (position st))
     + (if opens_at self signals st candle then 1 else 0))%nat.
Proof.
  unfold process_candle, opens_at. intros H. bind_inv H st1 H1. rewrite H1.
  apply track_equity_cases in H as (-> & -> & _).
  destruct (scan_signals_cases self token_id signals candle st1) as (-> & _ & Hsp).
  assert (Hmid : (length (trades st1) + length (option_list (position st1))
                  = length (trades st) + length (option_list (position st)))%nat).
  { apply check_position_cases in H1 as [->|(q & u & Hq & _ & ->)]; [reflexivity|].
    rewrite Hq. cbn [realize trades position]. rewrite length_app. cbn. lia. }
  rewrite <- Hmid.
  destruct (position st1) as [q|].
  - destruct Hsp as [-> _]. cbn. lia.
  - destruct (List.find (qualifiesb candle) signals); destruct Hsp as [-> _];
      cbn; lia.
Qed.

Lemma run_candles_count (self : BacktestEngine) (token_id : string)
    (signals : list Signal) (candles : list Candle) (st st' : LoopState) :
  run_candles self token_id signals candles st = Ok st' ->
  (length (trades st') + length (option_list (position st'))
   = length (trades st) + length (option_list (position st))
     + count_opens self token_id signals candles st)%nat.
Proof.
  revert st. induction candles as [|c l IH]; intros st; cbn [run_candles count_opens].
  - intros [= <-]. lia.
  - intros H. bind_inv H st1 H1. rewrite H1.
    rewrite (IH _ H), (process_candle_count _ _ _ _ _ _ H1). lia.
Qed.

(** The result lists exactly one trade per position opened during the run. *)
Lemma run_backtest_trade_count pow_half now http_get
    (self : BacktestEngine) (token_id : string) (signals : list Signal) (days : Z)
    (r : BacktestResult) :
  run_backtest pow_half now http_get self token_id signals days = Ok r ->
  total_trades r =
    count_opens self token_id signals
      (fetch_historical_data
         (http_get (COINGECKO_BASE +:+ "/coins/" +:+ token_id +:+ "/ohlc") days))
      (initial_state self).
Proof.
  intros Hrun.
  destruct (run_backtest_win_rate_total_trades _ _ _ _ _ _ _ r Hrun) as (-> & _).
  destruct (run_backtest_inv _ _ _ _ _ _ _ _ Hrun) as (st0 & st & Hloop & Hend & -> & _).
  pose proof (run_candles_count _ _ _ _ _ _ Hloop) as Hcount.
  cbn [initial_state trades position option_list length] in Hcount.
  destruct Hend as [[Hnil ->]|Hclose].
  - rewrite Hnil in Hloop |- *. injection Hloop as <-. reflexivity.
  - pose proof (lifecycle_initial self) as Hinit.
    destruct (run_candles_lifecycle _ _ _ _ _ _ Hloop Hinit) as (Hinv0 & _ & _).
    destruct (close_remaining_cases _ _ _ Hclose Hinv0) as (_ & _ & _ & Hlast).
    destruct (position st0) as [p|].
    + destruct Hlast as (final & u & _ & _ & ->).
      rewrite length_app. cbn in Hcount |- *. lia.
    + rewrite Hlast. cbn in Hcount. lia.
Qed.

(** C8. In a backtest run at most one trade is open at any bar: the open
    trades of every state of the loop are the position slot, the realized
    trades are all closed, and the signal scan leaves an open position in
    place.  Every trade that is open after some bar appears closed, with its
    entry data, in the result's trade list.  A position still open after the
    last bar is appended last to that list, marked closed, with the final
    bar's close as its close price, the final bar's timestamp as its close
    timestamp, the return at that price and the profit it implies, and its
    size and profit are credited to the final balance; with no position left
    the list and the balance are those of the loop.  The list holds as many
    trades as positions were opened. *)
Theorem run_backtest_trade_lifecycle pow_half now http_get
    (self : BacktestEngine) (token_id : string) (signals : list Signal) (days : Z)
    (r : BacktestResult) :
  run_backtest pow_half now http_get self token_id signals days = Ok r ->
  let candles :=
    fetch_historical_data
      (http_get (COINGECKO_BASE +:+ "/coins/" +:+ token_id +:+ "/ohlc") days) in
  Forall (fun t => closed t = true) (res_trades r)
  /\ (forall pre post,
        candles = pre ++ post ->
        exists st,
          run_candles self token_id signals pre (initial_state self) = Ok st
          /\ lifecycle_ok st
          /\ open_trades st = option_list (position st)
          /\ (length (open_trades st) <= 1)%nat
          /\ (exists more, res_trades r = trades st ++ more)
          /\ (forall p, position st = Some p ->
                exists t, In t (res_trades r) /\ closed_of p t))
  /\ (exists st,
        run_candles self token_id signals candles (initial_state self) = Ok st
        /\ match position st with
           | Some p =>
             exists final u t,
               last candles = Some final
               /\ unrealized_pnl_pct p (c_close final) = Ok u
               /\ res_trades r = trades st ++ [t]
               /\ closed t = true
               /\ close_price t = Some (c_close final)
               /\ close_timestamp t = Some (c_timestamp final)
               /\ pnl_pct t = u
               /\ pnl t = size p * (u / 100)
               /\ token t = token p
               /\ action t = action p
               /\ price t = price p
               /\ size t = size p
               /\ timestamp t = timestamp p
               /\ signal_confidence t = signal_confidence p
               /\ final_balance r = balance st + (size p + pnl t)
           | None => res_trades r = trades st /\ final_balance r = balance st
           end)
  /\ (forall candle st p,
        position st = Some p ->
        position (scan_signals self token_id signals candle st) = Some p)
  /\ length (res_trades r)
     = count_opens self token_id signals candles (initial_state self).
Proof.
  intros Hrun candles.
  pose proof (run_backtest_trade_count _ _ _ _ _ _ _ r Hrun) as Hcount.
  rewrite (proj1 (run_backtest_win_rate_total_trades _ _ _ _ _ _ _ r Hrun)) in Hcount.
  fold candles in Hcount.
  destruct (run_backtest_inv _ _ _ _ _ _ _ _ Hrun) as (st0 & st & Hloop & Hend & Htr & Hbal).
  fold candles in Hloop, Hend.
  pose proof (lifecycle_initial self) as Hinit.
  destruct (run_candles_lifecycle _ _ _ _ _ _ Hloop Hinit) as (Hinv0 & _ & _).
  assert (Hfinal : Forall (fun t => closed t = true) (trades st)
                   /\ (forall p, tracked p st0 ->
                         exists t, In t (trades st) /\ closed_of p t)
                   /\ (exists more, trades st = trades st0 ++ more)
                   /\ match position st0 with
                      | Some p =>
                        exists final u,
                          last candles = Some final
                          /\ unrealized_pnl_pct p (c_close final) = Ok u
                          /\ trades st =
                             trades st0 ++
                             [close_position p (c_close final) (c_timestamp final) u]
                      | None => trades st = trades st0
                      end).
  { destruct Hend as [[Hnil ->]|Hclose].
    - rewrite Hnil in Hloop. injection Hloop as <-.
      split; [constructor|]. split.
      + intros p [Hp|Ht]; [discriminate|exact Ht].
      + split; [exists []; reflexivity|reflexivity].
    - destruct (close_remaining_cases _ _ _ Hclose Hinv0) as (_ & Hall & Htrk & Hlast).
      split; [exact Hall|]. split; [exact Htrk|]. split; [|exact Hlast].
      destruct (position st0) as [p|].
      + destruct Hlast as (final & u & _ & _ & ->). eexists; reflexivity.
      + rewrite Hlast. exists []. symmetry. apply app_nil_r. }
  destruct Hfinal as (Hall & Htrk & [m Hm] & Hlast).
  rewrite Htr.
  split; [exact Hall|]. split; [|split].
  - intros pre post Hsplit. rewrite Hsplit, run_candles_app in Hloop.
    bind_inv Hloop st1 Hpre. exists st1.
    destruct (run_candles_lifecycle _ _ _ _ _ _ Hpre Hinit) as (Hinv1 & _ & _).
    destruct (run_candles_lifecycle _ _ _ _ _ _ Hloop Hinv1) as (_ & [m1 Hm1] & Htrk1).
    destruct (open_trades_lifecycle st1 Hinv1) as [Hopen Hle].
    split; [exact Hpre|]. split; [exact Hinv1|]. split; [exact Hopen|].
    split; [exact Hle|]. split.
    + exists (m1 ++ m). rewrite Hm, Hm1, app_assoc. reflexivity.
    + intros p Hp. apply Htrk, Htrk1. left. exact Hp.
  - exists st0. split; [exact Hloop|]. rewrite Hbal.
    destruct Hend as [[_ ->]|Hclose].
    + destruct (position st0); [|auto].
      destruct Hlast as (final & u & _ & _ & Hself).
      apply (f_equal (@length Trade)) in Hself. rewrite length_app in Hself.
      cbn in Hself. lia.
    + apply close_remaining_inv in Hclose.
      destruct (position st0) as [p|]; [|subst st; auto].
      destruct Hclose as (final & u & Hl & Hu & ->).
      exists final, u, (close_position p (c_close final) (c_timestamp final) u).
      cbn [realize trades balance close_position closed close_price
           close_timestamp pnl_pct pnl token action price size timestamp
           signal_confidence].
      repeat split; assumption.
  - split; [|rewrite <- Htr; exact Hcount].
    intros candle st2 p Hp.
    pose proof (scan_signals_cases self token_id signals candle st2) as (_ & _ & H).
    rewrite Hp in H. exact (proj1 H).
Qed.

(** On bars closing at 100, 102 and 104 the position bought at the first
    bar is still open after the last one: the result lists it closed at 104,
    at the timestamp of the last bar, with a profit of 40 on its size of
    1000. *)
Lemma run_backtest_trade_lifecycle_witness :
  exists r t,
    run_backtest BacktestScenario.pow_half BacktestScenario.now
      BacktestScenario.steady_rise default_engine "solana"
      BacktestScenario.two_buys 30 = Ok r
    /\ res_trades r = [t]
    /\ closed t = true
    /\ price t = 100
    /\ close_price t = Some 104
    /\ close_timestamp t = Some (7200000 / 1000)
    /\ pnl t == 40
    /\ final_balance r == 10040.
Proof.
  assert (Hrun : exists r,
             run_backtest BacktestScenario.pow_half BacktestScenario.now
               BacktestScenario.steady_rise default_engine "solana"
               BacktestScenario.two_buys 30 = Ok r).
  { eexists. vm_compute. reflexivity. }
  destruct Hrun as [r Hr]. exists r.
  destruct (run_backtest_trade_lifecycle _ _ _ _ _ _ _ r Hr)
    as (_ & _ & (st & Hloop & Hforced) & _).
  vm_compute in Hloop. injection Hloop as <-. cbn [position] in Hforced.
  destruct Hforced
    as (final & u & t & Hl & Hu & Htr & Hc & Hcp & Hct & _ & Hpnl & _ & _ & Hp
        & _ & _ & _ & Hbal).
  vm_compute in Hl. injection Hl as <-.
  vm_compute in Hu. injection Hu as <-.
  exists t. split; [exact Hr|]. split; [exact Htr|]. split; [exact Hc|].
  split; [exact Hp|]. split; [exact Hcp|]. split; [exact Hct|]. split.
  - rewrite Hpnl. vm_compute. reflexivity.
  - rewrite Hbal, Hpnl. vm_compute. reflexivity.
Defined.

(** *** An exit and a new entry at the same bar *)

(** C10. For some candle sequence and signal timeline the run closes a
    position by an exit and opens the next one at the same bar: on hourly
    bars closing at 100, 90 and 120 with a buy signal at the first bar and a
    bullish one 50 minutes later, the result lists two trades, the first one
    stopped out at the close and timestamp of the second bar, the second one
    entered at that same close and timestamp.  This is how every run goes:
    the exit check of a bar runs before its signal scan, so when the bars
    processed so far leave a position that crosses a threshold at the next
    bar (of non-zero close) and the timeline holds a signal that qualifies
    at that bar, processing that bar too appends the closed position to the
    trades and leaves a new position entered at that bar's close and
    timestamp, sized from the balance just credited. *)
Theorem exit_and_reopen_same_bar :
  (exists (http_get : string -> Z -> HttpOutcome) (signals : list Signal)
          (r : BacktestResult) (bar : Candle) (t1 t2 : Trade),
     run_backtest BacktestScenario.pow_half BacktestScenario.now http_get
       default_engine "solana" signals 30 = Ok r
     /\ In bar
          (fetch_historical_data
             (http_get (COINGECKO_BASE +:+ "/coins/" +:+ "solana" +:+ "/ohlc") 30%Z))
     /\ Exists (qualifies bar) signals
     /\ res_trades r = [t1; t2]
     /\ exited default_engine t1
     /\ closed t1 = true
     /\ close_price t1 = Some (c_close bar)
     /\ close_timestamp t1 = Some (c_timestamp bar)
     /\ price t2 = c_close bar
     /\ timestamp t2 = c_timestamp bar)
  /\ (forall (self : BacktestEngine) (token_id : string) (signals : list Signal)
        (pre : list Candle) (bar : Candle) (st0 st : LoopState)
        (pos : Trade) (u : Q),
        run_candles self token_id signals pre st0 = Ok st ->
        position st = Some pos ->
        unrealized_pnl_pct pos (c_close bar) = Ok u ->
        u <= - stop_loss_pct self \/ take_profit_pct self <= u ->
        Exists (qualifies bar) signals ->
        ~ c_close bar == 0 ->
        exists st' t p' signal,
          run_candles self token_id signals (pre ++ [bar]) st0 = Ok st'
          /\ trades st' = trades st ++ [t]
          /\ closed t = true
          /\ close_price t = Some (c_close bar)
          /\ close_timestamp t = Some (c_timestamp bar)
          /\ pnl_pct t = u
          /\ position st' = Some p'
          /\ closed p' = false
          /\ price p' = c_close bar
          /\ timestamp p' = c_timestamp bar
          /\ List.find (qualifiesb bar) signals = Some signal
          /\ qualifies bar signal
          /\ signal_confidence p' = default 50 (sig_confidence signal)
          /\ size p' =
             (balance st + (size pos + pnl t)) * (position_size_pct self / 100)
          /\ balance st' = balance st + (size pos + pnl t) - size p').
Proof.
  split.
  - exists BacktestScenario.drop_then_rally, BacktestScenario.two_buys.
    eexists.
    exists {| c_timestamp := 3600000 / 1000; c_open := 100; c_high := 100;
              c_low := 89; c_close := 90 |}.
    eexists. eexists.
    split; [vm_compute; reflexivity|].
    split; [vm_compute; right; left; reflexivity|].
    split.
    { apply Exists_cons_tl. apply Exists_cons_hd. apply qualifies_iff.
      vm_compute. reflexivity. }
    split; [cbn [res_trades]; reflexivity|].
    split; [left; vm_compute; discriminate|].
    repeat split.
  - intros self token_id signals pre bar st0 st pos u Hpre Hp Hu Hx Hq Hn.
    destruct (process_candle_exit_reopen self token_id signals st bar pos u
                Hp Hu Hx Hq Hn)
      as (st' & signal & Hbar & Htr & Hf & Hs & Hpos & Hbal).
    exists st', (close_position pos (c_close bar) (c_timestamp bar) u).
    eexists. exists signal.
    rewrite run_candles_app, Hpre. cbn [bind run_candles]. rewrite Hbar.
    cbn [bind].
    split; [reflexivity|]. split; [exact Htr|].
    split; [reflexivity|]. split; [reflexivity|]. split; [reflexivity|].
    split; [reflexivity|]. split; [exact Hpos|].
    split; [reflexivity|]. split; [reflexivity|]. split; [reflexivity|].
    split; [exact Hf|]. split; [exact Hs|]. split; [reflexivity|].
    split; [reflexivity|]. exact Hbal.
Qed.

(** The first two bars of that run, one after the other: the position
    bought at 100 is stopped out at the bar closing at 90, where the second
    signal, 10 minutes earlier, opens the next position. *)
Lemma exit_and_reopen_same_bar_witness :
  exists st pos u st' t p',
    run_candles default_engine "solana" BacktestScenario.two_buys
      [BacktestScenario.bar_at_100] (initial_state default_engine) = Ok st
    /\ position st = Some pos
    /\ unrealized_pnl_pct pos (c_close BacktestScenario.bar_at_90) = Ok u
    /\ (u <= - stop_loss_pct default_engine \/ take_profit_pct default_engine <= u)
    /\ Exists (qualifies BacktestScenario.bar_at_90) BacktestScenario.two_buys
    /\ ~ c_close BacktestScenario.bar_at_90 == 0
    /\ run_candles default_engine "solana" BacktestScenario.two_buys
         ([BacktestScenario.bar_at_100] ++ [BacktestScenario.bar_at_90])
         (initial_state default_engine) = Ok st'
    /\ trades st' = trades st ++ [t]
    /\ close_price t = Some 90
    /\ close_timestamp t = Some 3600
    /\ position st' = Some p'
    /\ price p' = 90
    /\ timestamp p' = 3600.
Proof.
  assert (Hpre : exists st pos u,
             run_candles default_engine "solana" BacktestScenario.two_buys
               [BacktestScenario.bar_at_100] (initial_state default_engine) = Ok st
             /\ position st = Some pos
             /\ unrealized_pnl_pct pos (c_close BacktestScenario.bar_at_90) = Ok u
             /\ (u <= - stop_loss_pct default_engine
                 \/ take_profit_pct default_engine <= u)).
  { eexists. eexists. eexists.
    split; [vm_compute; reflexivity|]. split; [reflexivity|].
    split; [vm_compute; reflexivity|]. left. vm_compute. discriminate. }
  destruct Hpre as (st & pos & u & Hrun & Hp & Hu & Hx).
  assert (Hq : Exists (qualifies BacktestScenario.bar_at_90)
                 BacktestScenario.two_buys).
  { apply Exists_cons_tl. apply Exists_cons_hd. apply qualifies_iff. reflexivity. }
  assert (Hn : ~ c_close BacktestScenario.bar_at_90 == 0) by (cbn; discriminate).
  destruct (proj2 exit_and_reopen_same_bar default_engine "solana"
              BacktestScenario.two_buys [BacktestScenario.bar_at_100]
              BacktestScenario.bar_at_90 (initial_state default_engine) st pos u
              Hrun Hp Hu Hx Hq Hn)
    as (st' & t & p' & signal & Hrun' & Htr & _ & Hcp & Hct & _ & Hpos & _
        & Hprice & Hts & _).
  exists st, pos, u, st', t, p'.
  split; [exact Hrun|]. split; [exact Hp|]. split; [exact Hu|].
  split; [exact Hx|]. split; [exact Hq|]. split; [exact Hn|].
  split; [exact Hrun'|]. split; [exact Htr|]. split; [exact Hcp|].
  split; [exact Hct|]. split; [exact Hpos|]. split; [exact Hprice|exact Hts].
Defined.

(** *** The parts of a run *)

(** Everything a successful run computed on a non-empty series. *)
Lemma run_backtest_parts pow_half now http_get
    (self : BacktestEngine) (token_id : string) (signals : list Signal) (days : Z)
    (r : BacktestResult) :
  run_backtest pow_half now http_get self token_id signals days = Ok r ->
  let candles :=
    fetch_historical_data
      (http_get (COINGECKO_BASE +:+ "/coins/" +:+ token_id +:+ "/ohlc") days) in
  (candles = []
   /\ res_trades r = [] /\ res_equity_curve r = []
   /\ final_balance r = initial_balance self
   /\ res_initial_balance r = initial_balance self
   /\ total_pnl r = 0 /\ win_rate r = 0
   /\ max_drawdown r = 0 /\ sharpe_ratio r = 0)
  \/ (exists first st0 st final,
        head candles = Some first
        /\ last candles = Some final
        /\ run_candles self token_id signals candles (initial_state self) = Ok st0
        /\ close_remaining candles st0 = Ok st
        /\ win_rate_of (trades st) = Ok (win_rate r)
        /\ max_drawdown_of self (equity_curve st) = Ok (max_drawdown r)
        /\ sharpe_of pow_half (equity_curve st) = Ok (sharpe_ratio r)
        /\ res_trades r = trades st
        /\ res_equity_curve r = equity_curve st
        /\ final_balance r = balance st
        /\ res_initial_balance r = initial_balance self
        /\ total_pnl r = balance st - initial_balance self
        /\ start_date r = c_timestamp first
        /\ end_date r = c_timestamp final).
Proof.
  unfold run_backtest.
  destruct (fetch_historical_data _) as [|first rest] eqn:Hc.
  - intros H. bind_inv H delta Hd. bind_inv H start Hs. injection H as <-.
    cbn. left. repeat split.
  - intros H. cbn zeta. right.
    bind_inv H st0 H0. bind_inv H st H1. bind_inv H w Hw.
    bind_inv H dd Hdd. bind_inv H sh Hsh. bind_inv H final Hfin.
    bind_inv H pct Hpct. injection H as <-. cbn.
    exists first, st0, st, final.
    unfold last_candle in Hfin.
    destruct (last (first :: rest)) as [c|] eqn:Hl; [|discriminate].
    injection Hfin as ->.
    repeat split; auto.
Qed.

(** *** Fetching the candles *)








(** *** The equity curve *)

Lemma check_position_curve (self : BacktestEngine) (candle : Candle)
    (st st' : LoopState) :
  check_position self candle st = Ok st' -> equity_curve st' = equity_curve st.
Proof.
  intros H. apply check_position_cases in H as [->|(q & u & _ & _ & ->)];
    reflexivity.
Qed.

Lemma process_candle_curve (self : BacktestEngine) (token_id : string)
    (signals : list Signal) (st st' : LoopState) (candle : Candle) :
  process_candle self token_id signals st candle = Ok st' ->
  exists eq,
    equity_curve st' =
      equity_curve st ++
      [{| ep_timestamp := c_timestamp candle; ep_equity := eq;
          ep_price := c_close candle |}]
    /\ current_equity candle st' = Ok eq.
Proof.
  unfold process_candle. intros H. bind_inv H st1 H1.
  apply check_position_curve in H1.
  destruct (scan_signals_cases self token_id signals candle st1) as (_ & Hc & _).
  apply track_equity_cases in H as (_ & Hp & Hb & eq & Heq & Hcurve).
  exists eq. split.
  - rewrite Hcurve, Hc, H1. reflexivity.
  - unfold current_equity in *. rewrite Hp, Hb. exact Heq.
Qed.

Lemma run_candles_curve (self : BacktestEngine) (token_id : string)
    (signals : list Signal) (candles : list Candle) (st st' : LoopState) :
  run_candles self token_id signals candles st = Ok st' ->
  map ep_timestamp (equity_curve st')
    = map ep_timestamp (equity_curve st) ++ map c_timestamp candles
  /\ map ep_price (equity_curve st')
    = map ep_price (equity_curve st) ++ map c_close candles.
Proof.
  revert st. induction candles as [|c l IH]; intros st; cbn [run_candles].
  - intros [= <-]. rewrite !app_nil_r. split; reflexivity.
  - intros H. bind_inv H st1 H1.
    destruct (process_candle_curve _ _ _ _ _ _ H1) as (eq & Hc & _).
    destruct (IH _ H) as [-> ->]. rewrite Hc, !map_app. cbn [map].
    rewrite <- !app_assoc. split; reflexivity.
Qed.

Lemma close_remaining_curve (candles : list Candle) (st st' : LoopState) :
  close_remaining candles st = Ok st' -> equity_curve st' = equity_curve st.
Proof.
  unfold close_remaining. destruct (position st) as [p|].
  - intros H. bind_inv H final Hf. bind_inv H u Hu. injection H as <-. reflexivity.
  - intros [= <-]. reflexivity.
Qed.

(** X2. The equity curve of a result has exactly one point per candle, in
    candle order, stamped with the candle's timestamp and close price; the
    reported period runs from the first to the last candle. *)
Theorem run_backtest_equity_curve pow_half now http_get
    (self : BacktestEngine) (token_id : string) (signals : list Signal) (days : Z)
    (r : BacktestResult) :
  run_backtest pow_half now http_get self token_id signals days = Ok r ->
  let candles :=
    fetch_historical_data
      (http_get (COINGECKO_BASE +:+ "/coins/" +:+ token_id +:+ "/ohlc") days) in
  map ep_timestamp (res_equity_curve r) = map c_timestamp candles
  /\ map ep_price (res_equity_curve r) = map c_close candles
  /\ length (res_equity_curve r) = length candles
  /\ (forall first final,
        head candles = Some first -> last candles = Some final ->
        start_date r = c_timestamp first /\ end_date r = c_timestamp final).
Proof.
  intros Hrun candles.
  assert (Hmaps : map ep_timestamp (res_equity_curve r) = map c_timestamp candles
                  /\ map ep_price (res_equity_curve r) = map c_close candles
                  /\ (forall first final,
                        head candles = Some first -> last candles = Some final ->
                        start_date r = c_timestamp first
                        /\ end_date r = c_timestamp final)).
  { pose proof (run_backtest_parts _ _ _ _ _ _ _ _ Hrun) as Hparts.
    cbn zeta in Hparts. fold candles in Hparts.
    destruct Hparts
      as [(Hnil & _ & -> & _)
         |(first & st0 & st & final & Hh & Hl & Hloop & Hclose & _ & _ & _ & _
           & -> & _ & _ & _ & Hs & He)].
    - rewrite Hnil. repeat split; intros; discriminate.
    - rewrite (close_remaining_curve _ _ _ Hclose).
      destruct (run_candles_curve _ _ _ _ _ _ Hloop) as [-> ->].
      split; [reflexivity|]. split; [reflexivity|].
      intros f l Hf Hl'. rewrite Hh in Hf. rewrite Hl in Hl'.
      injection Hf as <-. injection Hl' as <-. auto. }
  destruct Hmaps as (Ht & Hp & Hd).
  split; [exact Ht|]. split; [exact Hp|]. split; [|exact Hd].
  rewrite <- (length_map ep_timestamp), Ht. apply length_map.
Qed.

Lemma run_backtest_equity_curve_witness :
  exists r,
    run_backtest BacktestScenario.pow_half BacktestScenario.now
      BacktestScenario.drop_then_rally default_engine "solana"
      BacktestScenario.two_buys 30 = Ok r
    /\ length (res_equity_curve r) = 3%nat.
Proof.
  destruct run_backtest_drop_then_rally as (r & Hr & _).
  exists r. split; [exact Hr|].
  exact (proj1 (proj2 (proj2 (run_backtest_equity_curve _ _ _ _ _ _ _ r Hr)))).
Defined.

(** *** Winners and losers *)

Lemma winning_losing_partition (trades : list Trade) :
  (length (winning trades) + length (losing trades) = length trades)%nat.
Proof.
  unfold winning, losing, Qlt_bool.
  induction trades as [|t l IH]; [reflexivity|].
  cbn [List.filter]. destruct (Qle_bool (pnl t) 0); cbn [negb length]; lia.
Qed.

(** X5. Every trade of a result is counted once, as a winner when its
    profit is positive and as a loser otherwise (a break-even trade is a
    loser), and the win rate lies between 0 and 100. *)
Theorem run_backtest_trade_partition pow_half now http_get
    (self : BacktestEngine) (token_id : string) (signals : list Signal) (days : Z)
    (r : BacktestResult) :
  run_backtest pow_half now http_get self token_id signals days = Ok r ->
  (winning_trades r + losing_trades r = total_trades r)%nat
  /\ Forall (fun t => 0 < pnl t) (winning (res_trades r))
  /\ Forall (fun t => pnl t <= 0) (losing (res_trades r))
  /\ 0 <= win_rate r <= 100.
Proof.
  intros Hrun.
  destruct (run_backtest_win_rate_total_trades _ _ _ _ _ _ _ r Hrun)
    as (-> & -> & -> & Hw).
  split; [apply winning_losing_partition|].
  split; [|split].
  - apply List.Forall_forall. intros t Ht.
    apply List.filter_In in Ht as [_ Ht]. apply Qlt_bool_iff. exact Ht.
  - apply List.Forall_forall. intros t Ht.
    apply List.filter_In in Ht as [_ Ht]. apply Qle_bool_iff. exact Ht.
  - destruct (win_rate_of_total (res_trades r)) as (w & Hw' & Hnil & Hcons).
    rewrite Hw in Hw'. injection Hw' as <-.
    destruct (res_trades r) as [|t l] eqn:E.
    + rewrite Hnil by reflexivity. split; discriminate.
    + rewrite Hcons by discriminate.
      pose proof (len_pos t l) as Hn.
      pose proof (len_nonneg (winning (t :: l))) as Hlo.
      assert (Hhi : len (winning (t :: l)) <= len (t :: l)).
      { unfold len. rewrite <- Zle_Qle.
        pose proof (winning_losing_partition (t :: l)). lia. }
      assert (H0 : 0 <= len (winning (t :: l)) / len (t :: l)).
      { apply Qle_shift_div_l; [exact Hn|]. lra. }
      assert (H1 : len (winning (t :: l)) / len (t :: l) <= 1).
      { apply Qle_shift_div_r; [exact Hn|]. lra. }
      split; lra.
Qed.

Lemma run_backtest_trade_partition_witness :
  exists r,
    run_backtest BacktestScenario.pow_half BacktestScenario.now
      BacktestScenario.drop_then_rally default_engine "solana"
      BacktestScenario.two_buys 30 = Ok r
    /\ (winning_trades r + losing_trades r = total_trades r)%nat.
Proof.
  destruct run_backtest_drop_then_rally as (r & Hr & _).
  exists r. split; [exact Hr|].
  exact (proj1 (run_backtest_trade_partition _ _ _ _ _ _ _ r Hr)).
Defined.

(** *** The Sharpe ratio on short series *)

(** X6. With at most one candle there are fewer than two equity points, no
    period return, and the Sharpe ratio of the result is 0. *)
Theorem run_backtest_sharpe_short pow_half now http_get
    (self : BacktestEngine) (token_id : string) (signals : list Signal) (days : Z)
    (r : BacktestResult) :
  run_backtest pow_half now http_get self token_id signals days = Ok r ->
  (length
     (fetch_historical_data
        (http_get (COINGECKO_BASE +:+ "/coins/" +:+ token_id +:+ "/ohlc") days))
   <= 1)%nat ->
  sharpe_ratio r = 0.
Proof.
  intros Hrun Hlen.
  destruct (run_backtest_parts _ _ _ _ _ _ _ _ Hrun)
    as [(_ & _ & _ & _ & _ & _ & _ & _ & ->)
       |(first & st0 & st & final & _ & _ & Hloop & Hclose & _ & _ & Hsh & _)];
    [reflexivity|].
  assert (Hcurve : (length (equity_curve st) <= 1)%nat).
  { rewrite (close_remaining_curve _ _ _ Hclose).
    rewrite <- (length_map ep_timestamp).
    rewrite (proj1 (run_candles_curve _ _ _ _ _ _ Hloop)).
    cbn [initial_state equity_curve map app]. rewrite length_map. exact Hlen. }
  destruct (equity_curve st) as [|pt [|pt' l]]; cbn in Hcurve; try lia;
    cbn in Hsh; injection Hsh as <-; reflexivity.
Qed.

Lemma run_backtest_sharpe_short_witness :
  (length
     (fetch_historical_data
        (BacktestScenario.single_bar
           (COINGECKO_BASE +:+ "/coins/" +:+ "solana" +:+ "/ohlc") 30)) <= 1)%nat
  /\ exists r,
       run_backtest BacktestScenario.pow_half BacktestScenario.now
         BacktestScenario.single_bar default_engine "solana"
         BacktestScenario.two_buys 30 = Ok r
       /\ sharpe_ratio r = 0.
Proof.
  assert (Hlen : (length
                    (fetch_historical_data
                       (BacktestScenario.single_bar
                          (COINGECKO_BASE +:+ "/coins/" +:+ "solana" +:+ "/ohlc") 30))
                  <= 1)%nat) by (vm_compute; lia).
  split; [exact Hlen|].
  assert (Hrun : exists r,
             run_backtest BacktestScenario.pow_half BacktestScenario.now
               BacktestScenario.single_bar default_engine "solana"
               BacktestScenario.two_buys 30 = Ok r).
  { eexists. vm_compute. reflexivity. }
  destruct Hrun as [r Hr]. exists r. split; [exact Hr|].
  exact (run_backtest_sharpe_short _ _ _ _ _ _ _ r Hr Hlen).
Defined.

(** *** A timeline that cannot open a position *)

Lemma find_none_Forall {A} (f : A -> bool) (l : list A) :
  Forall (fun x => f x = false) l -> List.find f l = None.
Proof.
  induction 1 as [|x l Hx _ IH]; [reflexivity|].
  cbn. rewrite Hx. exact IH.
Qed.

Lemma Qlt_bool_irrefl (x : Q) : Qlt_bool x x = false.
Proof.
  unfold Qlt_bool. apply negb_false_iff. apply Qle_bool_iff. apply Qle_refl.
Qed.

Lemma process_candle_flat (self : BacktestEngine) (token_id : string)
    (signals : list Signal) (curve : list EquityPoint) (candle : Candle) :
  Forall (fun s => qualifiesb candle s = false) signals ->
  process_candle self token_id signals (flat_state self curve) candle
  = Ok (flat_state self (curve ++ [flat_point self candle])).
Proof.
  intros Hn. unfold process_candle, check_position. cbn [flat_state position bind].
  unfold scan_signals. cbn [balance position flat_state].
  rewrite scan_signals_flat, (find_none_Forall _ _ Hn). cbn [fst snd].
  unfold track_equity, current_equity. cbn [position balance bind peak_balance].
  rewrite Qlt_bool_irrefl. reflexivity.
Qed.

Lemma run_candles_flat (self : BacktestEngine) (token_id : string)
    (signals : list Signal) (candles : list Candle) (curve : list EquityPoint) :
  no_entry candles signals ->
  run_candles self token_id signals candles (flat_state self curve)
  = Ok (flat_state self (curve ++ map (flat_point self) candles)).
Proof.
  intros Hn. revert curve.
  induction Hn as [|c l Hc _ IH]; intros curve; cbn [run_candles map].
  - rewrite app_nil_r. reflexivity.
  - rewrite (process_candle_flat _ _ _ _ _ Hc). cbn [bind].
    rewrite IH, <- app_assoc. reflexivity.
Qed.

Lemma drawdown_fold_flat (self : BacktestEngine) (candles : list Candle) :
  ~ initial_balance self == 0 ->
  fold_left drawdown_step (map (flat_point self) candles)
    (Ok (0, initial_balance self))
  = Ok (0, initial_balance self).
Proof.
  intros Hb. induction candles as [|c l IH]; [reflexivity|].
  cbn [map fold_left]. unfold drawdown_step at 2.
  cbn [bind fst snd flat_point ep_equity].
  rewrite Qlt_bool_irrefl, truediv_ok by exact Hb. cbn [bind].
  assert (E : Qlt_bool 0
                ((initial_balance self - initial_balance self)
                 / initial_balance self * 100) = false).
  { unfold Qlt_bool. apply negb_false_iff. apply Qle_bool_iff.
    assert (Z : (initial_balance self - initial_balance self)
                / initial_balance self * 100 == 0) by (field; exact Hb).
    rewrite Z. apply Qle_refl. }
  rewrite E. exact IH.
Qed.

Lemma period_returns_flat (b : Q) (rest : list Q) :
  ~ b == 0 -> Forall (fun e => e = b) rest ->
  exists rets, period_returns b rest = Ok rets.
Proof.
  intros Hb. induction 1 as [|e l -> _ [rets IH]]; cbn [period_returns].
  - eauto.
  - rewrite truediv_ok by exact Hb. cbn [bind]. rewrite IH. cbn [bind]. eauto.
Qed.

Lemma sharpe_of_returns pow_half (curve : list EquityPoint) (rets : list Q) :
  returns_of curve = Ok rets -> exists sh, sharpe_of pow_half curve = Ok sh.
Proof.
  intros Hr. unfold sharpe_of. rewrite Hr. cbn [bind].
  destruct rets as [|r0 rets]; [eauto|].
  assert (Hlen : ~ len (r0 :: rets) == 0).
  { pose proof (len_pos r0 rets). lra. }
  rewrite (truediv_ok _ _ Hlen). cbn [bind].
  rewrite (truediv_ok _ _ Hlen). cbn [bind].
  destruct (Qlt_bool 0 _) eqn:E; [|eauto].
  apply Qlt_bool_iff in E. rewrite truediv_ok by lra. cbn [bind]. eauto.
Qed.

(** X8. When at least one candle is fetched, no signal of the timeline can
    open a position at any bar (no signals at all, or only sell, bearish,
    low-confidence or out-of-window ones) and the initial balance is not
    zero, the run returns a result with no trades, a final balance equal to
    the initial one, zero win rate and drawdown, and a flat equity curve. *)
Theorem run_backtest_no_entry pow_half now http_get
    (self : BacktestEngine) (token_id : string) (signals : list Signal) (days : Z) :
  ~ initial_balance self == 0 ->
  fetch_historical_data
    (http_get (COINGECKO_BASE +:+ "/coins/" +:+ token_id +:+ "/ohlc") days) <> [] ->
  no_entry
    (fetch_historical_data
       (http_get (COINGECKO_BASE +:+ "/coins/" +:+ token_id +:+ "/ohlc") days))
    signals ->
  exists r,
    run_backtest pow_half now http_get self token_id signals days = Ok r
    /\ res_trades r = []
    /\ total_trades r = 0%nat
    /\ final_balance r = initial_balance self
    /\ win_rate r = 0
    /\ max_drawdown r = 0
    /\ res_equity_curve r =
       map (flat_point self)
         (fetch_historical_data
            (http_get (COINGECKO_BASE +:+ "/coins/" +:+ token_id +:+ "/ohlc") days)).
Proof.
  intros Hb Hne Hn. unfold run_backtest.
  destruct (fetch_historical_data _) as [|first rest] eqn:Hf.
  - contradiction.
  - clear Hne. change (initial_state self) with (flat_state self []).
    rewrite (run_candles_flat _ _ _ _ _ Hn). cbn [bind app].
    unfold close_remaining. cbn [position flat_state bind].
    cbn [win_rate_of trades flat_state bind].
    unfold max_drawdown_of. cbn [equity_curve flat_state].
    rewrite (drawdown_fold_flat self _ Hb). cbn [bind fst].
    destruct (sharpe_of_returns pow_half (map (flat_point self) (first :: rest)))
      with (rets := match period_returns (initial_balance self)
                            (map ep_equity (map (flat_point self) rest)) with
                    | Ok rets => rets | Raise _ => [] end) as [sh Hsh].
    { unfold returns_of. cbn [map flat_point ep_equity].
      destruct (period_returns_flat (initial_balance self)
                  (map ep_equity (map (flat_point self) rest)) Hb) as [rets ->];
        [|reflexivity].
      rewrite map_map. apply List.Forall_map, List.Forall_forall. reflexivity. }
    rewrite Hsh. cbn [bind].
    assert (Hne : first :: rest <> []) by discriminate.
    unfold last_candle. destruct (last (first :: rest)) as [final|] eqn:Hl;
      [|apply last_None in Hl; contradiction].
    cbn [bind]. rewrite truediv_ok by exact Hb. cbn [bind].
    eexists. split; [reflexivity|]. cbn. repeat split.
Qed.

Lemma run_backtest_no_entry_witness :
  ~ initial_balance default_engine == 0
  /\ fetch_historical_data
       (BacktestScenario.drop_then_rally
          (COINGECKO_BASE +:+ "/coins/" +:+ "solana" +:+ "/ohlc") 30) <> []
  /\ no_entry
       (fetch_historical_data
          (BacktestScenario.drop_then_rally
             (COINGECKO_BASE +:+ "/coins/" +:+ "solana" +:+ "/ohlc") 30))
       BacktestScenario.no_buys
  /\ exists r,
       run_backtest BacktestScenario.pow_half BacktestScenario.now
         BacktestScenario.drop_then_rally default_engine "solana"
         BacktestScenario.no_buys 30 = Ok r
       /\ res_trades r = []
       /\ final_balance r = 10000.
Proof.
  assert (Hb : ~ initial_balance default_engine == 0) by (cbn; discriminate).
  assert (Hn : no_entry
                 (fetch_historical_data
                    (BacktestScenario.drop_then_rally
                       (COINGECKO_BASE +:+ "/coins/" +:+ "solana" +:+ "/ohlc") 30))
                 BacktestScenario.no_buys).
  { unfold no_entry. vm_compute fetch_historical_data. repeat constructor. }
  assert (Hne : fetch_historical_data
                  (BacktestScenario.drop_then_rally
                     (COINGECKO_BASE +:+ "/coins/" +:+ "solana" +:+ "/ohlc") 30) <> []).
  { vm_compute. discriminate. }
  split; [exact Hb|]. split; [exact Hne|]. split; [exact Hn|].
  destruct (run_backtest_no_entry BacktestScenario.pow_half BacktestScenario.now
              BacktestScenario.drop_then_rally default_engine "solana"
              BacktestScenario.no_buys 30 Hb Hne Hn) as (r & Hr & Ht & _ & Hbal & _).
  exists r. split; [exact Hr|]. split; [exact Ht|exact Hbal].
Defined.

(** *** What a recorded trade looks like *)

Lemma qualifiesb_complete (candle : Candle) (signal : Signal) :
  qualifiesb candle signal = true ->
  exists t a conf,
    sig_timestamp signal = Some t
    /\ sig_action signal = Some a
    /\ sig_confidence signal = Some conf
    /\ Qabs (t - c_timestamp candle) < 3600
    /\ 60 <= conf
    /\ (lower a = "buy" \/ lower a = "bullish").
Proof.
  intros H. apply qualifies_iff in H as ((t & Ht & Hw) & Hc & Ha).
  destruct (sig_confidence signal) as [conf|];
    [|exfalso; exact (Qlt_not_le 50 60 eq_refl Hc)].
  destruct (sig_action signal) as [a|];
    [|destruct Ha; discriminate].
  exists t, a, conf. repeat split; assumption.
Qed.

(** X9. The signal scan opens a position only for a signal that carries all
    three of timestamp, action and confidence, lies strictly within 3600
    seconds of the bar, has confidence at least 60 and an action that reads
    buy or bullish in any letter case: a missing timestamp, a missing
    confidence (read as 50) or a missing action never trades.  The position
    is sized at [position_size_pct] percent of the balance, which is debited
    at once. *)
Theorem scan_signals_opens (self : BacktestEngine) (token_id : string)
    (signals : list Signal) (candle : Candle) (st : LoopState) (p : Trade) :
  position st = None ->
  position (scan_signals self token_id signals candle st) = Some p ->
  exists signal t a conf,
    In signal signals
    /\ sig_timestamp signal = Some t
    /\ sig_action signal = Some a
    /\ sig_confidence signal = Some conf
    /\ Qabs (t - c_timestamp candle) < 3600
    /\ 60 <= conf
    /\ (lower a = "buy" \/ lower a = "bullish")
    /\ signal_confidence p = conf
    /\ price p = c_close candle
    /\ size p = balance st * (position_size_pct self / 100)
    /\ balance (scan_signals self token_id signals candle st) = balance st - size p.
Proof.
  intros Hflat Hopen.
  destruct (scan_signals_cases self token_id signals candle st) as (_ & _ & Hcase).
  rewrite Hflat in Hcase.
  destruct (List.find (qualifiesb candle) signals) as [signal|] eqn:Hf.
  - destruct Hcase as [Hp Hb]. rewrite Hp in Hopen. injection Hopen as <-.
    apply List.find_some in Hf as [Hin Hq].
    destruct (qualifiesb_complete _ _ Hq) as (t & a & conf & Ht & Ha & Hc & Hrest).
    exists signal, t, a, conf.
    split; [exact Hin|]. split; [exact Ht|]. split; [exact Ha|].
    split; [exact Hc|]. destruct Hrest as (Hw & H60 & Hact).
    split; [exact Hw|]. split; [exact H60|]. split; [exact Hact|].
    cbn [opened signal_confidence price size]. rewrite Hc.
    repeat split. exact Hb.
  - destruct Hcase as [Hp _]. rewrite Hp in Hopen. discriminate.
Qed.

Lemma scan_signals_opens_witness :
  position BacktestScenario.flat_at_start = None
  /\ exists p,
       position (scan_signals default_engine "solana" BacktestScenario.two_buys
                   BacktestScenario.bar_at_100 BacktestScenario.flat_at_start)
       = Some p
       /\ exists signal, In signal BacktestScenario.two_buys
                          /\ sig_confidence signal = Some (signal_confidence p).
Proof.
  assert (Hflat : position BacktestScenario.flat_at_start = None) by reflexivity.
  split; [exact Hflat|].
  eexists. split; [reflexivity|].
  destruct (scan_signals_opens default_engine "solana" BacktestScenario.two_buys
              BacktestScenario.bar_at_100 BacktestScenario.flat_at_start _
              Hflat eq_refl)
    as (signal & t & a & conf & Hin & _ & _ & Hc & _ & _ & _ & Hp & _).
  exists signal. split; [exact Hin|]. rewrite Hp. exact Hc.
Defined.

Lemma entered_long_opened (self : BacktestEngine) (token_id : string)
    (signals : list Signal) (candles : list Candle) (candle : Candle)
    (b : Q) (signal : Signal) :
  In candle candles ->
  List.find (qualifiesb candle) signals = Some signal ->
  entered_long candles signals (opened self token_id candle b signal).
Proof.
  intros Hin Hf. apply List.find_some in Hf as [Hs Hq].
  destruct (qualifiesb_complete _ _ Hq) as (t & a & conf & _ & _ & Hc & _ & H60 & _).
  apply qualifies_iff in Hq.
  unfold entered_long. cbn [opened action signal_confidence price timestamp].
  rewrite Hc. cbn [default]. split; [reflexivity|]. split; [exact H60|].
  exists candle, signal.
  split; [exact Hin|]. split; [exact Hs|]. split; [exact Hq|].
  split; [exact Hc|]. split; reflexivity.
Qed.

Lemma closed_long_close_position (candles : list Candle) (signals : list Signal)
    (candle : Candle) (q : Trade) (u : Q) :
  In candle candles ->
  entered_long candles signals q ->
  unrealized_pnl_pct q (c_close candle) = Ok u ->
  closed_long candles signals
    (close_position q (c_close candle) (c_timestamp candle) u).
Proof.
  intros Hin Hq Hu. pose proof Hq as (Ha & H60 & c0 & Hc0).
  destruct (unrealized_buy q _ u Ha Hu) as [_ ->].
  split; [exact Hq|]. split; [reflexivity|].
  exists candle. repeat split. exact Hin.
Qed.

Lemma process_candle_longs (self : BacktestEngine) (token_id : string)
    (signals : list Signal) (candles : list Candle) (st st' : LoopState)
    (candle : Candle) :
  In candle candles ->
  process_candle self token_id signals st candle = Ok st' ->
  Forall (closed_long candles signals) (trades st) ->
  (forall p, position st = Some p -> entered_long candles signals p) ->
  Forall (closed_long candles signals) (trades st')
  /\ (forall p, position st' = Some p -> entered_long candles signals p).
Proof.
  intros Hin H Htr Hpos. unfold process_candle in H. bind_inv H st1 H1.
  assert (Hmid : Forall (closed_long candles signals) (trades st1)
                 /\ (forall p, position st1 = Some p ->
                       entered_long candles signals p)).
  { apply check_position_cases in H1 as [->|(q & u & Hq & Hu & ->)]; [auto|].
    cbn [realize trades position]. split; [|intros p Hp; discriminate].
    apply Forall_app. split; [exact Htr|].
    constructor; [|constructor].
    apply closed_long_close_position; auto. }
  destruct Hmid as [Htr1 Hpos1].
  apply track_equity_cases in H as (-> & -> & _).
  destruct (scan_signals_cases self token_id signals candle st1) as (-> & _ & Hsp).
  split; [exact Htr1|].
  destruct (position st1) as [q|].
  - destruct Hsp as [-> _]. exact Hpos1.
  - destruct (List.find (qualifiesb candle) signals) as [signal|] eqn:Hf;
      destruct Hsp as [-> _].
    + intros p [= <-]. eapply entered_long_opened; eassumption.
    + intros p Hp. discriminate.
Qed.

Lemma run_candles_longs (self : BacktestEngine) (token_id : string)
    (signals : list Signal) (candles rest : list Candle) (st st' : LoopState) :
  (forall c, In c rest -> In c candles) ->
  run_candles self token_id signals rest st = Ok st' ->
  Forall (closed_long candles signals) (trades st) ->
  (forall p, position st = Some p -> entered_long candles signals p) ->
  Forall (closed_long candles signals) (trades st')
  /\ (forall p, position st' = Some p -> entered_long candles signals p).
Proof.
  revert st. induction rest as [|c l IH]; intros st Hsub; cbn [run_candles].
  - intros [= <-]. auto.
  - intros H Htr Hpos. bind_inv H st1 H1.
    assert (Hc : In c candles) by (apply Hsub; left; reflexivity).
    destruct (process_candle_longs _ _ _ _ _ _ _ Hc H1 Htr Hpos) as [Htr1 Hpos1].
    apply (IH st1); auto. intros c' Hc'. apply Hsub. right. exact Hc'.
Qed.

Lemma run_backtest_closed_longs pow_half now http_get
    (self : BacktestEngine) (token_id : string) (signals : list Signal) (days : Z)
    (r : BacktestResult) :
  run_backtest pow_half now http_get self token_id signals days = Ok r ->
  Forall
    (closed_long
       (fetch_historical_data
          (http_get (COINGECKO_BASE +:+ "/coins/" +:+ token_id +:+ "/ohlc") days))
       signals)
    (res_trades r).
Proof.
  intros Hrun.
  destruct (run_backtest_parts _ _ _ _ _ _ _ _ Hrun)
    as [(_ & -> & _)
       |(first & st0 & st & final & _ & Hl & Hloop & Hclose & _ & _ & _ & ->
         & _)]; [constructor|].
  set (candles := fetch_historical_data _) in *.
  assert (H0 : Forall (closed_long candles signals) (trades st0)
               /\ (forall p, position st0 = Some p ->
                     entered_long candles signals p)).
  { apply (run_candles_longs self token_id signals candles candles
             (initial_state self) st0);
      [auto|exact Hloop|constructor|intros p Hp; discriminate]. }
  destruct H0 as [Htr Hpos].
  unfold close_remaining in Hclose. destruct (position st0) as [p|].
  - bind_inv Hclose final' Hf. unfold last_candle in Hf. rewrite Hl in Hf.
    injection Hf as <-. bind_inv Hclose u Hu. injection Hclose as <-.
    cbn [realize trades]. apply Forall_app. split; [exact Htr|].
    constructor; [|constructor].
    apply closed_long_close_position; auto.
    apply last_Some in Hl as [l' ->]. apply in_or_app. right. left. reflexivity.
  - injection Hclose as <-. exact Htr.
Qed.

(** X10. Every trade of a result is a closed long position: its action is
    buy; it was entered at the close and timestamp of one of the candles on
    a signal of the timeline that qualifies at that candle (within the hour,
    confidence at least 60, action reading buy or bullish), whose confidence
    it records; it was closed at the close and timestamp of one of the
    candles; its return is [(close - entry) / entry * 100] and its profit is
    [size * return / 100].  Sell and bearish signals never produce a trade:
    a timeline without a signal that reads buy or bullish, or without a
    signal that qualifies at one of the candles, gives a result without
    trades. *)
Theorem run_backtest_trades_are_closed_longs pow_half now http_get
    (self : BacktestEngine) (token_id : string) (signals : list Signal) (days : Z)
    (r : BacktestResult) :
  run_backtest pow_half now http_get self token_id signals days = Ok r ->
  let candles :=
    fetch_historical_data
      (http_get (COINGECKO_BASE +:+ "/coins/" +:+ token_id +:+ "/ohlc") days) in
  Forall (closed_long candles signals) (res_trades r)
  /\ (Forall not_a_buy signals -> res_trades r = [])
  /\ (Forall (fun s => Forall (fun c => ~ qualifies c s) candles) signals ->
      res_trades r = []).
Proof.
  intros Hrun candles.
  pose proof (run_backtest_closed_longs _ _ _ _ _ _ _ r Hrun) as Hall.
  fold candles in Hall.
  split; [exact Hall|]. split.
  - intros Hno. destruct (res_trades r) as [|t l]; [reflexivity|].
    inversion Hall as [|? ? ((_ & _ & c & s & _ & Hs & Hq & _) & _) _]; subst.
    rewrite List.Forall_forall in Hno. destruct (Hno s Hs) as [Hbuy Hbull].
    destruct Hq as (_ & _ & [Ha|Ha]); contradiction.
  - intros Hno. destruct (res_trades r) as [|t l]; [reflexivity|].
    inversion Hall as [|? ? ((_ & _ & c & s & Hc & Hs & Hq & _) & _) _]; subst.
    rewrite List.Forall_forall in Hno. pose proof (Hno s Hs) as Hcs.
    rewrite List.Forall_forall in Hcs. exfalso. exact (Hcs c Hc Hq).
Qed.

(** In the three-bar run both trades are longs entered on one of the two
    buy signals; the same bars with sell and bearish signals only give no
    trade. *)
Lemma run_backtest_trades_are_closed_longs_witness :
  (exists r,
     run_backtest BacktestScenario.pow_half BacktestScenario.now
       BacktestScenario.drop_then_rally default_engine "solana"
       BacktestScenario.two_buys 30 = Ok r
     /\ length (res_trades r) = 2%nat
     /\ Forall (fun t => action t = "buy"
                         /\ exists s, In s BacktestScenario.two_buys
                                      /\ sig_confidence s = Some (signal_confidence t))
          (res_trades r))
  /\ (exists r,
        run_backtest BacktestScenario.pow_half BacktestScenario.now
          BacktestScenario.drop_then_rally default_engine "solana"
          BacktestScenario.sells 30 = Ok r
        /\ Forall not_a_buy BacktestScenario.sells
        /\ res_trades r = []).
Proof.
  split.
  - destruct run_backtest_drop_then_rally as (r & Hr & Ht & _).
    exists r. split; [exact Hr|]. split.
    + rewrite <- Ht. symmetry.
      exact (proj1 (run_backtest_win_rate_total_trades _ _ _ _ _ _ _ r Hr)).
    + eapply Forall_impl;
        [exact (proj1 (run_backtest_trades_are_closed_longs _ _ _ _ _ _ _ r Hr))|].
      intros t ((Ha & _ & c & s & _ & Hs & _ & Hc & _) & _).
      split; [exact Ha|]. exists s. split; [exact Hs|exact Hc].
  - assert (Hrun : exists r,
               run_backtest BacktestScenario.pow_half BacktestScenario.now
                 BacktestScenario.drop_then_rally default_engine "solana"
                 BacktestScenario.sells 30 = Ok r).
    { eexists. vm_compute. reflexivity. }
    destruct Hrun as [r Hr]. exists r. split; [exact Hr|].
    assert (Hno : Forall not_a_buy BacktestScenario.sells).
    { repeat constructor; cbn; discriminate. }
    split; [exact Hno|].
    exact (proj1 (proj2 (run_backtest_trades_are_closed_longs _ _ _ _ _ _ _ r Hr))
             Hno).
Defined.

(** *** Exits and the forced close *)

Lemma exit_branch_fired (self : BacktestEngine) (u : Q) (k : ExitKind) :
  exit_branch self u = Some k ->
  u <= - stop_loss_pct self \/ take_profit_pct self <= u.
Proof.
  unfold exit_branch.
  destruct (Qle_bool u (- stop_loss_pct self)) eqn:Es.
  - intros _. left. apply Qle_bool_iff. exact Es.
  - destruct (Qle_bool (take_profit_pct self) u) eqn:Et; [|discriminate].
    intros _. right. apply Qle_bool_iff. exact Et.
Qed.

Lemma check_position_exited (self : BacktestEngine) (candle : Candle)
    (st st' : LoopState) :
  check_position self candle st = Ok st' ->
  Forall (exited self) (trades st) -> Forall (exited self) (trades st').
Proof.
  unfold check_position. destruct (position st) as [p|].
  - intros H Hall. bind_inv H u Hu.
    destruct (exit_branch self u) as [k|] eqn:Hk.
    + assert (Hst : st' = realize st (close_position p (c_close candle)
                                        (c_timestamp candle) u)).
      { destruct k; injection H as <-; reflexivity. }
      rewrite Hst. cbn [realize trades]. apply Forall_app. split; [exact Hall|].
      constructor; [|constructor]. exact (exit_branch_fired self u k Hk).
    + injection H as <-. exact Hall.
  - intros [= <-] Hall. exact Hall.
Qed.

Lemma run_candles_exited (self : BacktestEngine) (token_id : string)
    (signals : list Signal) (candles : list Candle) (st st' : LoopState) :
  run_candles self token_id signals candles st = Ok st' ->
  Forall (exited self) (trades st) -> Forall (exited self) (trades st').
Proof.
  revert st. induction candles as [|c l IH]; intros st; cbn [run_candles].
  - intros [= <-]. auto.
  - intros H Hall. bind_inv H st1 H1. apply (IH _ H).
    unfold process_candle in H1. bind_inv H1 st2 H2.
    apply track_equity_cases in H1 as (-> & _).
    destruct (scan_signals_cases self token_id signals c st2) as (-> & _).
    exact (check_position_exited _ _ _ _ H2 Hall).
Qed.

(** X20. The trades of a result are the trades closed by an exit during the
    loop, each with a return at or below minus the stop or at or above the
    target, followed by at most one trade closed by force, at the close and
    timestamp of the final candle: only the last trade of a result can have
    a return strictly between the two thresholds. *)
Theorem run_backtest_exits pow_half now http_get
    (self : BacktestEngine) (token_id : string) (signals : list Signal) (days : Z)
    (r : BacktestResult) :
  run_backtest pow_half now http_get self token_id signals days = Ok r ->
  exists exits forced,
    res_trades r = exits ++ forced
    /\ (length forced <= 1)%nat
    /\ Forall (exited self) exits
    /\ Forall (fun t => close_timestamp t = Some (end_date r)
                        /\ exists final,
                             last (fetch_historical_data
                                     (http_get (COINGECKO_BASE +:+ "/coins/"
                                                +:+ token_id +:+ "/ohlc") days))
                             = Some final
                             /\ close_price t = Some (c_close final)) forced.
Proof.
  intros Hrun.
  destruct (run_backtest_parts _ _ _ _ _ _ _ _ Hrun)
    as [(_ & -> & _)
       |(first & st0 & st & final & _ & Hl & Hloop & Hclose & _ & _ & _ & ->
         & _ & _ & _ & _ & _ & ->)].
  - exists [], []. split; [reflexivity|]. split; [cbn; lia|].
    split; constructor.
  - assert (H0 : Forall (exited self) (trades st0)).
    { apply (run_candles_exited _ _ _ _ _ _ Hloop). constructor. }
    unfold close_remaining in Hclose. destruct (position st0) as [p|].
    + bind_inv Hclose final' Hf. unfold last_candle in Hf. rewrite Hl in Hf.
      injection Hf as <-. bind_inv Hclose u Hu. injection Hclose as <-.
      eexists (trades st0), [_]. split; [reflexivity|].
      split; [cbn; lia|]. split; [exact H0|].
      constructor; [|constructor]. split; [reflexivity|].
      exists final. split; [exact Hl|reflexivity].
    + injection Hclose as <-. exists (trades st0), [].
      rewrite app_nil_r. split; [reflexivity|]. split; [cbn; lia|].
      split; [exact H0|constructor].
Qed.

Lemma run_backtest_exits_witness :
  exists r,
    run_backtest BacktestScenario.pow_half BacktestScenario.now
      BacktestScenario.drop_then_rally default_engine "solana"
      BacktestScenario.two_buys 30 = Ok r
    /\ exists exits forced,
         res_trades r = exits ++ forced /\ Forall (exited default_engine) exits.
Proof.
  destruct run_backtest_drop_then_rally as (r & Hr & _).
  exists r. split; [exact Hr|].
  destruct (run_backtest_exits _ _ _ _ _ _ _ r Hr)
    as (exits & forced & Heq & _ & Hex & _).
  exists exits, forced. split; [exact Heq|exact Hex].
Defined.

End EngineFacts.

(** ** Properties of the quick take *)
Module QuickTakeFacts.
Import Py TradingGraph Spec QuickTake QFacts.
Local Open Scope Q_scope.

Lemma calculate_sentiment_range (signals : list AgentSignal) :
  In (_calculate_sentiment signals) sentiments.
Proof.
  unfold _calculate_sentiment, sentiments.
  destruct signals as [|s l]; [cbn; auto|].
  repeat match goal with
         | |- context [if ?b then _ else _] => destruct b
         end; cbn; auto 6.
Qed.

Lemma action_map_total (sentiment : string) :
  In sentiment sentiments ->
  exists phrase, action_map !! sentiment = Some phrase /\ In phrase phrases.
Proof.
  unfold sentiments, phrases.
  intros [<- | [<- | [<- | [<- | [<- | []]]]]]; eexists;
    (split; [vm_compute; reflexivity|]); cbn; auto 6.
Qed.

Lemma round_half_even_cases (q : Q) :
  let n := Qfloor q in
  (round_half_even q = n /\ q - inject_Z n <= 1 # 2)
  \/ (round_half_even q = (n + 1)%Z /\ 1 # 2 <= q - inject_Z n).
Proof.
  intros n. unfold round_half_even. fold n.
  destruct (Qcompare (q - inject_Z n) (1 # 2)) eqn:E.
  - apply Qeq_alt in E. destruct (Z.even n); [left|right]; split;
      try reflexivity; rewrite E; apply Qle_refl.
  - apply Qlt_alt in E. left. split; [reflexivity|]. apply Qlt_le_weak. exact E.
  - apply Qgt_alt in E. right. split; [reflexivity|]. apply Qlt_le_weak. exact E.
Qed.

Lemma round_half_even_near (q : Q) :
  Qabs (inject_Z (round_half_even q) - q) <= 1 # 2.
Proof.
  pose proof (Qfloor_le q) as Hlo. pose proof (Qlt_floor q) as Hhi.
  rewrite inject_Z_plus in Hhi. change (inject_Z 1) with 1 in Hhi.
  apply Qabs_Qle_condition.
  destruct (round_half_even_cases q) as [[-> H]|[-> H]].
  - split; lra.
  - rewrite inject_Z_plus. change (inject_Z 1) with 1. split; lra.
Qed.

Lemma round_half_even_percent (q : Q) :
  0 <= q <= 100 -> (0 <= round_half_even q <= 100)%Z.
Proof.
  intros [H0 H100].
  pose proof (Qfloor_le q) as Hlo.
  assert (Hn0 : (0 <= Qfloor q)%Z).
  { change 0%Z with (Qfloor 0). apply Qfloor_resp_le. exact H0. }
  destruct (round_half_even_cases q) as [[-> H]|[-> H]].
  - split; [exact Hn0|]. rewrite Zle_Qle. change (inject_Z 100) with 100. lra.
  - split; [lia|].
    assert (Hlt : inject_Z (Qfloor q) < inject_Z 100).
    { change (inject_Z 100) with 100. lra. }
    rewrite <- Zlt_Qlt in Hlt. lia.
Qed.

Lemma avg_confidence_bounds (signals : list AgentSignal) :
  Forall (fun s => 0 <= confidence s <= 100) signals ->
  0 <= avg_confidence signals <= 100.
Proof.
  intros Hall. destruct signals as [|s signals].
  - split; discriminate.
  - change (avg_confidence (s :: signals))
      with (Qsum (map confidence (s :: signals)) / len (s :: signals)).
    pose proof (len_pos s signals) as Hn.
    assert (Hmap : Forall (fun x => 0 <= x <= 100) (map confidence (s :: signals))).
    { apply List.Forall_map. exact Hall. }
    destruct (Qsum_bounds 0 100 _ Hmap) as [Hlo Hhi].
    assert (Hlen : len (map confidence (s :: signals)) = len (s :: signals)).
    { unfold len. rewrite length_map. reflexivity. }
    rewrite Hlen in Hlo, Hhi. split.
    + apply Qle_shift_div_l; [exact Hn|exact Hlo].
    + apply Qle_shift_div_r; [exact Hn|exact Hhi].
Qed.

Lemma round_half_even_tie (q : Q) :
  Qabs (inject_Z (round_half_even q) - q) == 1 # 2 ->
  Z.even (round_half_even q) = true.
Proof.
  pose proof (Qfloor_le q) as Hlo. pose proof (Qlt_floor q) as Hhi.
  rewrite inject_Z_plus in Hhi. change (inject_Z 1) with 1 in Hhi.
  unfold round_half_even.
  destruct (Qcompare (q - inject_Z (Qfloor q)) (1 # 2)) eqn:E.
  - intros _. destruct (Z.even (Qfloor q)) eqn:Ev; [exact Ev|].
    rewrite Z.even_add, Ev. reflexivity.
  - apply Qlt_alt in E. intros H.
    assert (Ha : Qabs (inject_Z (Qfloor q) - q) == q - inject_Z (Qfloor q)).
    { rewrite Qabs_neg by lra. ring. }
    rewrite Ha in H. lra.
  - apply Qgt_alt in E. intros H.
    rewrite inject_Z_plus in H. change (inject_Z 1) with 1 in H.
    rewrite Qabs_pos in H by lra. lra.
Qed.

(** X15. The quick take built from the sentiment and the average confidence
    of any list of signals with confidences in [0,100] starts with the
    phrase the action map holds for that sentiment, one of its five phrases
    and never the fallback "Unclear", and shows the average rounded to an
    integer between 0 and 100 by the rule of the format [.0f]: the nearest
    integer, and the even one of the two when the average lies exactly
    halfway between them (62.5 is shown as 62, 63.5 as 64). *)
Theorem generate_quick_take_phrase (signals : list AgentSignal) :
  Forall (fun s => 0 <= confidence s <= 100) signals ->
  exists phrase n,
    In phrase phrases
    /\ action_map !! _calculate_sentiment signals = Some phrase
    /\ (0 <= n <= 100)%Z
    /\ Qabs (inject_Z n - avg_confidence signals) <= 1 # 2
    /\ (Qabs (inject_Z n - avg_confidence signals) == 1 # 2 -> Z.even n = true)
    /\ _generate_quick_take signals (_calculate_sentiment signals)
         (avg_confidence signals)
       = phrase +:+ " (" +:+ pretty n +:+ "% avg confidence)".
Proof.
  intros Hall.
  destruct (action_map_total _ (calculate_sentiment_range signals))
    as (phrase & Hmap & Hin).
  destruct (avg_confidence_bounds signals Hall) as [H0 H100].
  exists phrase, (round_half_even (avg_confidence signals)).
  split; [exact Hin|]. split; [exact Hmap|].
  split; [apply round_half_even_percent; split; assumption|].
  split; [apply round_half_even_near|].
  split; [apply round_half_even_tie|].
  unfold _generate_quick_take, format_0f. rewrite Hmap. cbn [default].
  assert (Hneg : Qlt_bool (avg_confidence signals) 0 = false).
  { unfold Qlt_bool. apply negb_false_iff. apply Qle_bool_iff. exact H0. }
  rewrite Hneg. reflexivity.
Qed.

(** A bullish signal of confidence 60 and a bearish one of confidence 65:
    the sentiment is neutral and the average 62.5 lies halfway between 62
    and 63; the text shows the even 62. *)
Lemma generate_quick_take_phrase_witness :
  Forall (fun s => 0 <= confidence s <= 100)
    [mk_signal "a" "bullish" 60; mk_signal "b" "bearish" 65]
  /\ avg_confidence [mk_signal "a" "bullish" 60; mk_signal "b" "bearish" 65]
     == 125 # 2
  /\ _generate_quick_take
       [mk_signal "a" "bullish" 60; mk_signal "b" "bearish" 65]
       (_calculate_sentiment
          [mk_signal "a" "bullish" 60; mk_signal "b" "bearish" 65])
       (avg_confidence
          [mk_signal "a" "bullish" 60; mk_signal "b" "bearish" 65])
     = "Mixed signals (62% avg confidence)".
Proof.
  assert (H : Forall (fun s => 0 <= confidence s <= 100)
            [mk_signal "a" "bullish" 60; mk_signal "b" "bearish" 65]).
  { repeat constructor; cbn; discriminate. }
  assert (Havg : avg_confidence
                   [mk_signal "a" "bullish" 60; mk_signal "b" "bearish" 65]
                 == 125 # 2) by reflexivity.
  split; [exact H|]. split; [exact Havg|].
  destruct (generate_quick_take_phrase _ H)
    as (phrase & n & _ & Hmap & _ & Hnear & Htie & ->).
  assert (Hphrase : phrase = "Mixed signals").
  { vm_compute in Hmap. injection Hmap as <-. reflexivity. }
  rewrite Havg in Hnear, Htie.
  apply Qabs_Qle_condition in Hnear as [Hlo Hhi].
  assert (Hn : (62 <= n <= 63)%Z).
  { split.
    - rewrite Zle_Qle. change (inject_Z 62) with 62. lra.
    - rewrite Zle_Qle. change (inject_Z 63) with 63. lra. }
  assert (H62 : n = 62%Z).
  { assert (Hor : n = 62%Z \/ n = 63%Z) by lia.
    destruct Hor as [E|E]; [exact E|].
    rewrite E in Htie. discriminate (Htie eq_refl). }
  rewrite Hphrase, H62. reflexivity.
Defined.

(** The same text obtained by running the code, next to a tie that goes up
    to the even 64. *)
Example generate_quick_take_tie :
  _generate_quick_take
    [mk_signal "a" "bullish" 60; mk_signal "b" "bearish" 65]
    (_calculate_sentiment [mk_signal "a" "bullish" 60; mk_signal "b" "bearish" 65])
    (avg_confidence [mk_signal "a" "bullish" 60; mk_signal "b" "bearish" 65])
  = "Mixed signals (62% avg confidence)"
  /\ _generate_quick_take
       [mk_signal "a" "bullish" 62; mk_signal "b" "bullish" 65]
       (_calculate_sentiment [mk_signal "a" "bullish" 62; mk_signal "b" "bullish" 65])
       (avg_confidence [mk_signal "a" "bullish" 62; mk_signal "b" "bullish" 65])
     = "Strong buy signal (64% avg confidence)".
Proof. split; vm_compute; reflexivity. Qed.

End QuickTakeFacts.

(** ** Properties of the merged snapshot *)
Module MarketDataFacts.
Import Py TradingGraph Spec MarketData.

Lemma update_lookup (data : gmap string PyValue) (result : SourceOutcome)
    (k : string) :
  update data result !! k =
    match reported result k with
    | Some v => Some v
    | None => data !! k
    end.
Proof.
  destruct result as [d|]; cbn [update reported]; [|reflexivity].
  rewrite lookup_union. destruct (d !! k), (data !! k); reflexivity.
Qed.

(** X16. In the merged snapshot every key comes from the last source that
    reported it: Jupiter (asked on solana only), then DexScreener, then
    CoinGecko, then the token and chain the caller passed; a source that
    failed contributes nothing, and a later source overrides an earlier one
    even with [None] or zero. *)
Theorem get_token_data_lookup _fetch_coingecko _fetch_dexscreener
    _fetch_jupiter_price (token chain k : string) :
  get_token_data _fetch_coingecko _fetch_dexscreener _fetch_jupiter_price
    token chain !! k =
    match (if String.eqb chain "solana"
           then reported (_fetch_jupiter_price token) k else None) with
    | Some v => Some v
    | None =>
      match reported (_fetch_dexscreener token chain) k with
      | Some v => Some v
      | None =>
        match reported (_fetch_coingecko token) k with
        | Some v => Some v
        | None =>
          (<["chain" := PyStr chain]> (<["token" := PyStr token]> ∅)
             : gmap string PyValue) !! k
        end
      end
    end.
Proof.
  unfold get_token_data.
  destruct (String.eqb chain "solana"); cbn [app fold_left];
    rewrite !update_lookup; reflexivity.
Qed.

Lemma merged_lookup _fetch_coingecko _fetch_dexscreener _fetch_jupiter_price
    (token chain k : string) :
  get_token_data _fetch_coingecko _fetch_dexscreener _fetch_jupiter_price
    token chain !! k =
    update
      (update
         (update (<["chain" := PyStr chain]> (<["token" := PyStr token]> ∅))
            (_fetch_coingecko token))
         (_fetch_dexscreener token chain))
      (if String.eqb chain "solana" then _fetch_jupiter_price token else NotADict)
    !! k.
Proof.
  unfold get_token_data. destruct (String.eqb chain "solana"); reflexivity.
Qed.

Lemma snapshot_without_price _fetch_coingecko _fetch_dexscreener
    _fetch_jupiter_price (token chain : string) :
  reported (_fetch_coingecko token) "price" = None ->
  reported (_fetch_dexscreener token chain) "price" = None ->
  reported (_fetch_jupiter_price token) "price" = None ->
  get_market_data _fetch_coingecko _fetch_dexscreener _fetch_jupiter_price
    token chain !! "price" = None.
Proof.
  intros Hc Hd Hj. unfold get_market_data.
  rewrite merged_lookup, !update_lookup, Hc, Hd.
  destruct (String.eqb chain "solana"); cbn [reported]; rewrite ?Hj;
    rewrite lookup_insert_ne by discriminate;
    rewrite lookup_insert_ne by discriminate; apply lookup_empty.
Qed.

Lemma analyze_falsy_price get_market_data agent_analyze synthesize_signals
    _generate_summary (self : TradingGraph) (token chain : string)
    (context : option (gmap string PyValue)) :
  truthy (dict_get (get_market_data token chain) "price") = false ->
  analyze get_market_data agent_analyze synthesize_signals _generate_summary
    self token chain context
  = (Ok (ErrorResult ("Could not fetch market data for " +:+ token) token chain), []).
Proof.
  intros H. unfold analyze. rewrite H. reflexivity.
Qed.

(** X17. What the sources report decides whether the full analysis runs.
    When no source reports a price (all failed, or answered without one) the
    analysis returns its error result.  When DexScreener reports a falsy
    price, zero for a pair without a USD price, and Jupiter reports no price
    key, the analysis returns its error result whatever price CoinGecko
    reported. *)
Theorem analyze_on_merged_snapshot _fetch_coingecko _fetch_dexscreener
    _fetch_jupiter_price agent_analyze synthesize_signals _generate_summary
    (self : TradingGraph) (token chain : string)
    (context : option (gmap string PyValue)) :
  reported (_fetch_jupiter_price token) "price" = None ->
  reported (_fetch_dexscreener token chain) "price" = None
  /\ reported (_fetch_coingecko token) "price" = None
  \/ (exists v, reported (_fetch_dexscreener token chain) "price" = Some v
                /\ truthy v = false) ->
  analyze
    (get_market_data _fetch_coingecko _fetch_dexscreener _fetch_jupiter_price)
    agent_analyze synthesize_signals _generate_summary self token chain context
  = (Ok (ErrorResult ("Could not fetch market data for " +:+ token) token chain), []).
Proof.
  intros Hj Hcases. apply analyze_falsy_price. unfold dict_get.
  destruct Hcases as [[Hd Hc]|(v & Hd & Hv)].
  - rewrite (snapshot_without_price _ _ _ _ _ Hc Hd Hj). reflexivity.
  - unfold get_market_data. rewrite merged_lookup, update_lookup.
    destruct (String.eqb chain "solana"); cbn [reported]; rewrite ?Hj;
      rewrite update_lookup, Hd; exact Hv.
Qed.

Lemma analyze_on_merged_snapshot_witness :
  reported NotADict "price" = None
  /\ (exists v, reported (Fetched (<["price" := PyNum 0]> ∅)) "price" = Some v
                /\ truthy v = false)
  /\ analyze
       (get_market_data (fun _ => Fetched (<["price" := PyNum 150]> ∅))
          (fun _ _ => Fetched (<["price" := PyNum 0]> ∅)) (fun _ => NotADict))
       Scenario.agent_analyze Scenario.synthesize_signals
       Scenario._generate_summary (__post_init__ "full" true) "SOL" "solana" None
     = (Ok (ErrorResult "Could not fetch market data for SOL" "SOL" "solana"), []).
Proof.
  assert (Hj : reported NotADict "price" = None) by reflexivity.
  assert (Hd : exists v,
             reported (Fetched (<["price" := PyNum 0]> ∅)) "price" = Some v
             /\ truthy v = false).
  { exists (PyNum 0). split; [apply lookup_insert_eq|reflexivity]. }
  split; [exact Hj|]. split; [exact Hd|].
  exact (analyze_on_merged_snapshot
           (fun _ => Fetched (<["price" := PyNum 150]> ∅))
           (fun _ _ => Fetched (<["price" := PyNum 0]> ∅)) (fun _ => NotADict)
           Scenario.agent_analyze Scenario.synthesize_signals
           Scenario._generate_summary (__post_init__ "full" true)
           "SOL" "solana" None Hj (or_intror Hd)).
Defined.

End MarketDataFacts.

(** ** Properties of the HTTP handlers *)
Module RoutesFacts.
Import Py TradingGraph Spec Routes.


Section Handlers.

Variable get_market_data : string -> string -> gmap string PyValue.
Variable agent_analyze :
  AgentClass -> string -> gmap string PyValue ->
  option (gmap string PyValue) -> TaskOutcome.
Variable synthesize_signals :
  string -> gmap string PyValue -> list AgentSignal -> PyObject ->
  option (gmap string PyValue) -> result (gmap string PyValue).
Variable _generate_summary : list AgentSignal -> gmap string PyValue -> string.
Variable _generate_quick_take : list AgentSignal -> string -> Q -> string.
Variable make_llm : string -> result unit.
Variable str_HTTPException : Z -> string -> string.


(** X19. Once the graph is built, the batch handler answers with one entry
    per token for the first ten tokens only, in order, each the quick
    signal of that token on the fast graph; a token without data yields its
    error entry and does not fail the batch, and tokens past the tenth are
    ignored without notice. *)
Theorem analyze_batch_entries (tokens : list string) (chain : string) :
  make_llm "anthropic" = Ok tt ->
  exists results,
    analyze_batch get_market_data agent_analyze _generate_quick_take make_llm
      tokens chain = Respond results
    /\ length results = Nat.min 10 (length tokens)
    /\ (forall i token,
          (i < 10)%nat -> tokens !! i = Some token ->
          results !! i =
            Some (quick_signal get_market_data agent_analyze _generate_quick_take
                    (__post_init__ "fast" false) token chain).1)
    /\ (forall i token,
          (i < 10)%nat -> tokens !! i = Some token ->
          price_missing (get_market_data token chain) ->
          results !! i = Some (QuickError ("No data for " +:+ token) token))
    /\ (forall i, (10 <= i)%nat -> results !! i = None).
Proof.
  intros Hllm. unfold analyze_batch, create_trading_graph. rewrite Hllm.
  cbn [bind]. eexists. split; [reflexivity|].
  assert (Hentry : forall i token,
            (i < 10)%nat -> tokens !! i = Some token ->
            map (fun token =>
                   (quick_signal get_market_data agent_analyze _generate_quick_take
                      (__post_init__ "fast" false) token chain).1)
                (take 10 tokens) !! i
            = Some (quick_signal get_market_data agent_analyze _generate_quick_take
                      (__post_init__ "fast" false) token chain).1).
  { intros i token Hi Ht.
    change (map ?f ?l) with (f <$> l). rewrite list_lookup_fmap.
    rewrite lookup_take_lt by exact Hi. rewrite Ht. reflexivity. }
  split; [|split; [exact Hentry|split]].
  - rewrite length_map, length_take. reflexivity.
  - intros i token Hi Ht Hm. rewrite (Hentry i token Hi Ht).
    apply TradingGraphFacts.price_missing_falsy in Hm.
    unfold quick_signal. rewrite Hm. reflexivity.
  - intros i Hi. apply lookup_ge_None. rewrite length_map, length_take. lia.
Qed.

End Handlers.


Lemma analyze_batch_entries_witness :
  (fun _ : string => Ok tt) "anthropic" = Ok tt
  /\ exists results,
       analyze_batch Scenario.zero_price_snapshot Scenario.agent_analyze
         (fun _ _ _ => "") (fun _ => Ok tt)
         ["A"; "B"; "C"; "D"; "E"; "F"; "G"; "H"; "I"; "J"; "K"; "L"] "solana"
       = Respond results
       /\ length results = 10%nat.
Proof.
  assert (H : (fun _ : string => Ok tt) "anthropic" = Ok tt) by reflexivity.
  split; [exact H|].
  destruct (analyze_batch_entries Scenario.zero_price_snapshot
              Scenario.agent_analyze (fun _ _ _ => "") (fun _ => Ok tt)
              ["A"; "B"; "C"; "D"; "E"; "F"; "G"; "H"; "I"; "J"; "K"; "L"]
              "solana" H) as (results & Hr & Hlen & _).
  exists results. split; [exact Hr|exact Hlen].
Defined.

End RoutesFacts.
